(** * OpenList upload handlers and video-thumbnail derivation

    A shallow embedding of the upload handlers of package [handles]: the two
    handlers [FsStream] and [FsForm], the background routine
    [generateVideoThumbnail] and its helpers [getLastModified],
    [checkFileExists], [extractVideoCover], [extractVideoFrameAtPercentage],
    [getVideoDuration], [formatTime], [validateWebPFile] and [MakeDir].

    Every interaction with the outside (storage layer, local file system,
    external processes, the HTTP request and response, logging, goroutines) is
    an operation of a small free monad; a run against an arbitrary handler
    yields the outcome, the final world and the trace of operations. The
    functions of the Go standard library that only compute ([path.Split],
    [path.Join], [path.Ext], [strings.TrimSuffix], [strings.HasPrefix], the
    [fmt] verbs of [formatTime], [float64] arithmetic) are written out. *)

From Stdlib Require Import ZArith List String Ascii Bool Lia.
From Stdlib Require Import DecimalString Floats.
From Stdlib Require Import Sorting.Permutation Sorting.Sorted.
Import ListNotations.

Local Open Scope string_scope.
Local Open Scope Z_scope.

(** ** Go strings and the [strings] / [path] packages *)

Module GoStrings.

Definition slash : ascii := "/"%char.
Definition dot : ascii := "."%char.

Definition chars (s : string) : list ascii := list_ascii_of_string s.
Definition str (l : list ascii) : string := string_of_list_ascii l.

(** [strings.HasPrefix(s, prefix)] *)
Definition HasPrefix (s pre : string) : bool := String.prefix pre s.

(** [strings.HasSuffix(s, suffix)] *)
Definition HasSuffix (s suf : string) : bool :=
  let n := String.length s in
  let k := String.length suf in
  (k <=? n)%nat && String.eqb (String.substring (n - k) k s) suf.

(** [strings.TrimSuffix(s, suffix)] *)
Definition TrimSuffix (s suf : string) : string :=
  if HasSuffix s suf
  then String.substring 0 (String.length s - String.length suf) s
  else s.

(** Index of the last ['/'] of [l], counted from [i]; [-1] when absent
    ([strings.LastIndex(path, "/")]). *)
Fixpoint lastSlashFrom (l : list ascii) (i : Z) (found : Z) : Z :=
  match l with
  | [] => found
  | c :: r => lastSlashFrom r (i + 1) (if Ascii.eqb c slash then i else found)
  end.

Definition LastIndexSlash (s : string) : Z := lastSlashFrom (chars s) 0 (-1).

(** [path.Split]: [i := LastIndex(path, "/"); return path[:i+1], path[i+1:]] *)
Definition Split (p : string) : string * string :=
  let i := Z.to_nat (LastIndexSlash p + 1) in
  (String.substring 0 i p, String.substring i (String.length p - i) p).

(** [path.Ext]: scan from the end down to the last slash; the suffix that
    starts at the first dot met, or the empty string. *)
Fixpoint extScan (rev_path : list ascii) (acc : list ascii) : list ascii :=
  match rev_path with
  | [] => []
  | c :: r =>
      if Ascii.eqb c slash then []
      else if Ascii.eqb c dot then c :: acc
      else extScan r (c :: acc)
  end.

Definition Ext (p : string) : string := str (extScan (rev (chars p)) []).

(** The [lazybuf] of [path.Clean] is kept reversed: [out.w] is its length.
    The [..] case, when [out.w > dotdot]:
    [out.w--; for out.w > dotdot && out.index(out.w) != '/' { out.w-- }]. *)
Fixpoint backtrack (rev_out : list ascii) (dotdot : nat) : list ascii :=
  match rev_out with
  | [] => []
  | c :: r =>
      if (dotdot <? List.length r)%nat && negb (Ascii.eqb c slash)
      then backtrack r dotdot
      else r
  end.

Definition endsComponent (rest : list ascii) : bool :=
  match rest with
  | [] => true
  | c :: _ => Ascii.eqb c slash
  end.

(** The main loop of [path.Clean]. [copying] is true inside the inner loop
    of the default case ([for ; r < n && path[r] != '/'; r++]). *)
Fixpoint cleanLoop (rooted : bool) (rest : list ascii) (copying : bool)
         (rev_out : list ascii) (dotdot : nat) : list ascii :=
  match rest with
  | [] => rev_out
  | c :: t =>
      if copying then
        if Ascii.eqb c slash
        then cleanLoop rooted t false rev_out dotdot
        else cleanLoop rooted t true (c :: rev_out) dotdot
      else if Ascii.eqb c slash then
        cleanLoop rooted t false rev_out dotdot
      else if Ascii.eqb c dot && endsComponent t then
        cleanLoop rooted t false rev_out dotdot
      else
        let w := List.length rev_out in
        match t with
        | c2 :: t2 =>
            if Ascii.eqb c dot && Ascii.eqb c2 dot && endsComponent t2 then
              if (dotdot <? w)%nat then
                cleanLoop rooted t2 false (backtrack rev_out dotdot) dotdot
              else if negb rooted then
                let out1 := if (0 <? w)%nat then slash :: rev_out else rev_out in
                let out2 := dot :: dot :: out1 in
                cleanLoop rooted t2 false out2 (List.length out2)
              else
                cleanLoop rooted t2 false rev_out dotdot
            else
              let sep := (rooted && negb (w =? 1)%nat) || (negb rooted && negb (w =? 0)%nat) in
              let out1 := if sep then slash :: rev_out else rev_out in
              cleanLoop rooted t true (c :: out1) dotdot
        | [] =>
            let sep := (rooted && negb (w =? 1)%nat) || (negb rooted && negb (w =? 0)%nat) in
            let out1 := if sep then slash :: rev_out else rev_out in
            cleanLoop rooted t true (c :: out1) dotdot
        end
  end.

(** [path.Clean] *)
Definition Clean (p : string) : string :=
  match chars p with
  | [] => "."
  | c :: _ =>
      let rooted := Ascii.eqb c slash in
      let out :=
        if rooted then cleanLoop true (chars p) false [slash] 1
        else cleanLoop false (chars p) false [] 0 in
      match out with
      | [] => "."
      | _ => str (rev out)
      end
  end.

(** [path.Join(a, b)]: the non-empty elements joined by a slash, cleaned;
    the empty string when both are empty. *)
Definition Join (a b : string) : string :=
  match a, b with
  | EmptyString, EmptyString => EmptyString
  | EmptyString, _ => Clean b
  | _, EmptyString => Clean a
  | _, _ => Clean (a ++ "/" ++ b)
  end.

End GoStrings.

(** ** [float64], integer conversion and the [fmt] verbs used by [formatTime] *)

Module GoFmt.

Definition int64_min : Z := - 2 ^ 63.
Definition int64_max : Z := 2 ^ 63 - 1.

(** [float64(h)] for an integer [h]: the nearest double, ties to even. *)
Definition float64_of_int (z : Z) : float :=
  SF2Prim (binary_normalize prec emax z 0 false).

(** The value of a finite double with its fraction discarded. *)
Definition truncate (f : float) : option Z :=
  match Prim2SF f with
  | S754_zero _ => Some 0
  | S754_finite s m e =>
      let mag := Z.shiftl (Zpos m) e in
      Some (if s then - mag else mag)
  | S754_infinity _ => None
  | S754_nan => None
  end.

(** [int(f)]: truncation toward zero. When the value does not fit the
    result type the conversion still succeeds and the result depends on the
    implementation; [unspec] stands for that result. *)
Definition int_of_float64 (unspec : float -> Z) (f : float) : Z :=
  match truncate f with
  | Some z => if (int64_min <=? z) && (z <=? int64_max) then z else unspec f
  | None => unspec f
  end.

Fixpoint zeros (n : nat) : string :=
  match n with
  | O => ""
  | S k => String "0"%char (zeros k)
  end.

Fixpoint spaces (n : nat) : string :=
  match n with
  | O => ""
  | S k => String " "%char (spaces k)
  end.

Definition digits (z : Z) : string := NilZero.string_of_uint (N.to_uint (Z.abs_N z)).

Definition padZeros (width : nat) (s : string) : string :=
  zeros (width - String.length s) ++ s.

Definition padSpaces (width : nat) (s : string) : string :=
  spaces (width - String.length s) ++ s.

(** [%02d]: zero padding to width 2, the sign taking one column. *)
Definition fmt_02d (z : Z) : string :=
  if z <? 0 then "-" ++ padZeros 1 (digits z) else padZeros 2 (digits z).

(** Nearest integer to [num / den], ties to even ([den > 0], [num >= 0]). *)
Definition roundHalfEven (num den : Z) : Z :=
  let q := num / den in
  let r := num mod den in
  if 2 * r <? den then q
  else if den <? 2 * r then q + 1
  else if Z.even q then q else q + 1.

(** Thousandths of the magnitude [m * 2^e], correctly rounded. *)
Definition thousandths (m : positive) (e : Z) : Z :=
  if 0 <=? e then Zpos m * 2 ^ e * 1000
  else roundHalfEven (Zpos m * 1000) (2 ^ (- e)).

Definition fixed3 (n : Z) : string :=
  digits (n / 1000) ++ "." ++ padZeros 3 (digits (n mod 1000)).

(** [%06.3f]: three decimals, zero padding to width 6 with the sign before
    the zeros; infinities and NaN are padded with spaces instead. *)
Definition fmt_06_3f (f : float) : string :=
  match Prim2SF f with
  | S754_nan => padSpaces 6 "NaN"
  | S754_infinity s => padSpaces 6 (if s then "-Inf" else "+Inf")
  | S754_zero s =>
      if s then "-" ++ padZeros 5 (fixed3 0) else padZeros 6 (fixed3 0)
  | S754_finite s m e =>
      let body := fixed3 (thousandths m e) in
      if s then "-" ++ padZeros 5 body else padZeros 6 body
  end.

End GoFmt.

(** ** [formatTime] *)

Section FormatTime.

(** The implementation-dependent result of converting an out-of-range
    [float64] to [int]. *)
Variable intConvUnspec : float -> Z.

(** [func formatTime(seconds float64) string]. Each operation is rounded on
    its own, as on amd64; where the compiler fuses [x - y*z] the last bit of
    [remainingSeconds] and [s] may differ when the product is inexact. *)
Definition formatTime (seconds : float) : string :=
  let h := GoFmt.int_of_float64 intConvUnspec (seconds / 3600)%float in
  let remainingSeconds := (seconds - GoFmt.float64_of_int h * 3600)%float in
  let m := GoFmt.int_of_float64 intConvUnspec (remainingSeconds / 60)%float in
  let s := (remainingSeconds - GoFmt.float64_of_int m * 60)%float in
  GoFmt.fmt_02d h ++ ":" ++ GoFmt.fmt_02d m ++ ":" ++ GoFmt.fmt_06_3f s.

(** The seek offset of [extractVideoFrameAtPercentage]:
    [seekTime := duration * (percentage / 100.0)]. *)
Definition seekTime (duration percentage : float) : float :=
  (duration * (percentage / 100.0))%float.

End FormatTime.

(** ** Values exchanged with the collaborators *)

(** [context.Background()] or the inbound request's [c.Request.Context()]. *)
Inductive Ctx : Type :=
| Background
| RequestContext.

(** Go [error] values met by this file. [LibError] is an error produced by a
    collaborator; its flag tells whether [errors.Is(err, os.ErrNotExist)].
    [ExitError] is [*exec.ExitError] with its [Stderr] field, [StartError] a
    process that could not be started, [Errorf] the result of [fmt.Errorf]
    without [%w], [ErrorfW] the result of [fmt.Errorf] with an error wrapped
    by [%w]. *)
Inductive error : Type :=
| LibError (notExist : bool) (msg : string)
| ExitError (state : string) (Stderr : string)
| StartError (msg : string)
| Errorf (msg : string)
| ErrorfW (msg : string) (wrapped : error).

(** [err.Error()] *)
Definition Error (e : error) : string :=
  match e with
  | LibError _ msg => msg
  | ExitError state _ => state
  | StartError msg => msg
  | Errorf msg => msg
  | ErrorfW msg _ => msg
  end.

(** [errors.Is(err, os.ErrNotExist)] *)
Fixpoint IsNotExist (e : error) : bool :=
  match e with
  | LibError b _ => b
  | ExitError _ _ => false
  | StartError _ => false
  | Errorf _ => false
  | ErrorfW _ e' => IsNotExist e'
  end.

Inductive result (A : Type) : Type :=
| Ok (a : A)
| Err (e : error).
Arguments Ok {A} a.
Arguments Err {A} e.

(** What the operating system reports for one external command. *)
Inductive ProcResult : Type :=
| ProcStartFailed (msg : string)
| ProcExited (success : bool) (state : string) (stdout stderr combined : string).

(** [cmd.CombinedOutput()]: standard output and standard error in one buffer;
    [ExitError.Stderr] stays empty because [cmd.Stderr] is set. *)
Definition CombinedOutput (r : ProcResult) : string * option error :=
  match r with
  | ProcStartFailed msg => ("", Some (StartError msg))
  | ProcExited true _ _ _ combined => (combined, None)
  | ProcExited false state _ _ combined => (combined, Some (ExitError state ""))
  end.

(** [cmd.Output()]: standard output only; on a failed exit the captured
    standard error goes to [ExitError.Stderr]. *)
Definition Output (r : ProcResult) : string * option error :=
  match r with
  | ProcStartFailed msg => ("", Some (StartError msg))
  | ProcExited true _ stdout _ _ => (stdout, None)
  | ProcExited false state stdout stderr _ => (stdout, Some (ExitError state stderr))
  end.

(** [model.Obj]: only [GetPath] is used here. *)
Record Obj : Type := { GetPath : string }.

(** [*os.File] *)
Record File : Type := { file_Name : string }.

(** [*multipart.FileHeader]: [Header.Get("Content-Type")] and [Size]. *)
Record FileHeader : Type := { fh_ContentType : string; fh_Size : Z }.

(** [driver.Config().NoUpload] of the storage that serves a path. *)
Record Storage : Type := { NoUpload : bool }.

Inductive HashType : Type := MD5 | SHA1 | SHA256.

(** The [io.Reader] handed to the storage layer. *)
Inductive Reader : Type :=
| NoReader
| RequestBody
| MultipartFile (fh : FileHeader)
| ReaderOnly (r : Reader)
| LocalFile (f : File).

(** [model.Object] *)
Record Object : Type := {
  Name : string;
  Size : Z;
  Modified : Z;
  HashInfo : list (HashType * string)
}.

(** [stream.FileStream] *)
Record FileStream : Type := {
  fs_Obj : Object;
  fs_Reader : Reader;
  fs_Mimetype : string;
  fs_WebPutAsTask : bool
}.

(** The log lines of this file, by format string. *)
Inductive LogMsg : Type :=
| LogGetVideoInfoFailed (err : error)
| LogVideoAbsPathEmpty
| LogCheckThumbFailed (err : error)
| LogThumbExistsSkip (targetThumbPath : string)
| LogCreateTempFailed (err : error)
| LogCleanTempFailed (err : error)
| LogCoverFailedTryFrame (err : error)
| LogFrameFailed (err : error)
| LogInvalidWebP (err : error)
| LogMakeThumbDirFailed (err : error)
| LogOpenTempFailed (err : error)
| LogUploadThumbFailed (err : error)
| LogThumbDone (tempFilePath targetThumbPath : string)
| LogFFmpegCoverOutput (output : string)
| LogFFmpegFrameOutput (output : string)
| LogFailedMakeDir (path : string) (err : error).

(** The library functions this file calls that neither touch the outside
    nor are defined in it: the principal and task types of the [model] and
    [task] packages, [user.JoinPath], [url.PathUnescape],
    [utils.GetMimeType], [strconv.ParseInt(s, 10, 64)],
    [strconv.ParseFloat(s, 64)], [strings.TrimSpace], and the
    implementation-dependent out-of-range [float64] to [int] conversion. *)
Class GoLib : Type := {
  User : Type;
  Task : Type;
  JoinPath : User -> string -> result string;
  PathUnescape : string -> result string;
  GetMimeType : string -> string;
  ParseInt : string -> result Z;
  ParseFloat : string -> result float;
  TrimSpace : string -> string;
  intConvUnspec : float -> Z
}.

Section Handles.

Context {L : GoLib}.

(** [*gin.Context]: the request headers and the principal the
    authentication middleware stored under [conf.UserKey]. *)
Record Request : Type := {
  GetHeader : string -> string;
  ctxUser : option User
}.

(** [common.ErrorResp], [common.ErrorStrResp], [common.SuccessResp]. *)
Inductive Response : Type :=
| ErrorResp (err : error) (code : Z)
| ErrorStrResp (msg : string) (code : Z)
| SuccessResp
| SuccessRespTask (t : Task).

(** A [go] statement: the function started and its arguments. *)
Inductive Goroutine : Type :=
| GoGenerateVideoThumbnail (ctx : Ctx) (filePath : string) (user : User).

(** The operations on the outside, indexed by what they return. *)
Inductive Op : Type -> Type :=
| fs_Get (ctx : Ctx) (path : string) : Op (option Obj * option error)
| fs_PutDirectly (ctx : Ctx) (dstDir : string) (s : FileStream) (lazyCache : list bool)
    : Op (option error)
| fs_PutAsTask (ctx : Ctx) (dstDir : string) (s : FileStream)
    : Op (option Task * option error)
| fs_MakeDir (ctx : Ctx) (path : string) (lazyCache : list bool) : Op (option error)
| fs_GetStorage (path : string) : Op (result Storage)
| os_TempDir : Op string
| os_CreateTemp (dir pattern : string) : Op (result File)
| os_Remove (name : string) : Op (option error)
| os_Open (name : string) : Op (result File)
| os_Stat (name : string) : Op (result Z)
| file_Stat (f : File) : Op (result Z)
| file_Close (f : File) : Op (option error)
| image_Decode (f : File) : Op (option error)
| exec_Run (ctx : Ctx) (name : string) (args : list string) : Op ProcResult
| body_ReadFull1 : Op Z
| body_Discard : Op unit
| body_Close : Op unit
| c_FormFile (name : string) : Op (result FileHeader)
| fh_Open (fh : FileHeader) : Op (option error)
| mfile_Close (fh : FileHeader) : Op unit
| time_Now : Op Z
| logrus (m : LogMsg) : Op unit
| respond (r : Response) : Op unit
| go (g : Goroutine) : Op unit.

(** Programs: a value, a run-time panic, or an operation and what follows. *)
Inductive prog (A : Type) : Type :=
| Ret (a : A)
| Panic (msg : string)
| Vis (R : Type) (op : Op R) (k : R -> prog A).
Arguments Ret {A} a.
Arguments Panic {A} msg.
Arguments Vis {A R} op k.

Fixpoint bind {A B : Type} (p : prog A) (f : A -> prog B) : prog B :=
  match p with
  | Ret a => f a
  | Panic msg => Panic msg
  | Vis op k => Vis op (fun r => bind (k r) f)
  end.

Definition call {R : Type} (op : Op R) : prog R := Vis op Ret.

(** [defer]: [cleanup] runs when [body] returns and when it panics. *)
Fixpoint defer {A : Type} (cleanup : prog unit) (body : prog A) : prog A :=
  match body with
  | Ret a => bind cleanup (fun _ => Ret a)
  | Panic msg => bind cleanup (fun _ => Panic msg)
  | Vis op k => Vis op (fun r => defer cleanup (k r))
  end.

End Handles.

Arguments Ret {L A} a.
Arguments Panic {L A} msg.
Arguments Vis {L A R} op k.

Declare Scope prog_scope.
Delimit Scope prog_scope with prog.
Notation "x <- p ;; k" := (bind p (fun x => k))
  (at level 61, p at next level, right associativity) : prog_scope.
Notation "' pat <- p ;; k" := (bind p (fun x => match x with pat => k end))
  (at level 61, pat pattern, p at next level, right associativity) : prog_scope.
Notation "p ;; k" := (bind p (fun _ => k))
  (at level 61, right associativity) : prog_scope.

Section Programs.

Context {L : GoLib}.
Local Open Scope prog_scope.

Definition isSome {A : Type} (o : option A) : bool :=
  match o with Some _ => true | None => false end.

(** [func getLastModified(c *gin.Context) time.Time], in Unix
    milliseconds. *)
Definition getLastModified (c : Request) : prog Z :=
  now <- call time_Now ;;
  let lastModifiedStr := GetHeader c "Last-Modified" in
  match ParseInt lastModifiedStr with
  | Err _ => Ret now
  | Ok lastModifiedMillisecond => Ret lastModifiedMillisecond
  end.

(** [func checkFileExists(ctx, path) (bool, error)] *)
Definition checkFileExists (ctx : Ctx) (path : string) : prog (bool * option error) :=
  '(obj, err) <- call (fs_Get ctx path) ;;
  match err with
  | Some e =>
      if IsNotExist e then Ret (false, None)
      else Ret (false, Some e)
  | None => Ret (isSome obj, None)
  end.

(** The deferred function of both handlers: read one byte of the request
    body, discard the rest when there was one, close the body. *)
Definition drainBody : prog unit :=
  n <- call body_ReadFull1 ;;
  (if n =? 1 then call body_Discard else Ret tt) ;;
  call body_Close.

(** [overwrite := c.GetHeader("Overwrite") != "false"] *)
Definition overwriteOf (c : Request) : bool :=
  negb (String.eqb (GetHeader c "Overwrite") "false").

(** [asTask := c.GetHeader("As-Task") == "true"] *)
Definition asTaskOf (c : Request) : bool :=
  String.eqb (GetHeader c "As-Task") "true".

(** The hash map built from the [X-File-*] headers. *)
Definition hashesOf (c : Request) : list (HashType * string) :=
  let md5 := GetHeader c "X-File-Md5" in
  let sha1 := GetHeader c "X-File-Sha1" in
  let sha256 := GetHeader c "X-File-Sha256" in
  ((if String.eqb md5 "" then [] else [(MD5, md5)])
     ++ (if String.eqb sha1 "" then [] else [(SHA1, sha1)])
     ++ (if String.eqb sha256 "" then [] else [(SHA256, sha256)]))%list.

(** [func extractVideoCover(ctx, videoPath, outputPath string) error] *)
Definition extractVideoCover (ctx : Ctx) (videoPath outputPath : string)
  : prog (option error) :=
  r <- call (exec_Run ctx "ffmpeg"
               ["-i"; videoPath;
                "-map"; "0:v:0";
                "-vframes"; "1";
                "-c:v"; "libwebp";
                "-q:v"; "80";
                "-lossless"; "0";
                "-compression_level"; "6";
                "-preset"; "default";
                "-y";
                outputPath]) ;;
  let '(output, err) := CombinedOutput r in
  match err with
  | Some e =>
      call (logrus (LogFFmpegCoverOutput output)) ;;
      Ret (Some e)
  | None => Ret None
  end.

(** [func getVideoDuration(ctx, filePath string) (float64, error)] *)
Definition getVideoDuration (ctx : Ctx) (filePath : string) : prog (result float) :=
  r <- call (exec_Run ctx "ffprobe"
               ["-v"; "error";
                "-show_entries"; "format=duration";
                "-of"; "default=noprint_wrappers=1:nokey=1";
                filePath]) ;;
  let '(output, err) := Output r in
  match err with
  | Some e => Ret (Err e)
  | None =>
      match ParseFloat (TrimSpace output) with
      | Err e => Ret (Err e)
      | Ok duration => Ret (Ok duration)
      end
  end.

(** [func extractVideoFrameAtPercentage(ctx, videoPath, outputPath string,
    percentage float64) error] *)
Definition extractVideoFrameAtPercentage (ctx : Ctx) (videoPath outputPath : string)
           (percentage : float) : prog (option error) :=
  d <- getVideoDuration ctx videoPath ;;
  match d with
  | Err e => Ret (Some (Errorf ("获取视频时长失败: " ++ Error e)))
  | Ok duration =>
      let seekTimeStr := formatTime intConvUnspec (seekTime duration percentage) in
      r <- call (exec_Run ctx "ffmpeg"
                   ["-ss"; seekTimeStr;
                    "-i"; videoPath;
                    "-vframes"; "1";
                    "-vf"; "scale=320:-1";
                    "-c:v"; "libwebp";
                    "-q:v"; "80";
                    "-lossless"; "0";
                    "-compression_level"; "6";
                    "-preset"; "default";
                    "-update"; "1";
                    "-y";
                    outputPath]) ;;
      let '(output, err) := CombinedOutput r in
      match err with
      | Some e =>
          call (logrus (LogFFmpegFrameOutput output)) ;;
          Ret (Some e)
      | None => Ret None
      end
  end.

(** [func validateWebPFile(path string) error] *)
Definition validateWebPFile (path : string) : prog (option error) :=
  o <- call (os_Open path) ;;
  match o with
  | Err e => Ret (Some (ErrorfW ("打开文件失败: " ++ Error e) e))
  | Ok file =>
      defer (call (file_Close file) ;; Ret tt)
        (st <- call (file_Stat file) ;;
         match st with
         | Err e => Ret (Some (ErrorfW ("获取文件信息失败: " ++ Error e) e))
         | Ok size =>
             if size <=? 0 then Ret (Some (Errorf "文件为空"))
             else
               d <- call (image_Decode file) ;;
               match d with
               | Some e => Ret (Some (ErrorfW ("WebP解码失败: " ++ Error e) e))
               | None => Ret None
               end
         end)
  end.

(** [func MakeDir(ctx, path string, lazyCache ...bool) error] *)
Definition MakeDir (ctx : Ctx) (path : string) (lazyCache : list bool)
  : prog (option error) :=
  err <- call (fs_MakeDir ctx path lazyCache) ;;
  match err with
  | Some e => call (logrus (LogFailedMakeDir path e)) ;; Ret (Some e)
  | None => Ret None
  end.

(** The derived target of [generateVideoThumbnail]:
    [dir, name := stdpath.Split(filePath)],
    [targetThumbDir := stdpath.Join(dir, ".thumbnails")],
    [baseName := strings.TrimSuffix(name, stdpath.Ext(name))],
    [targetThumbName := baseName + ".webp"],
    [targetThumbPath := stdpath.Join(targetThumbDir, targetThumbName)]. *)
Definition targetThumbDirOf (filePath : string) : string :=
  let '(dir, name) := GoStrings.Split filePath in
  GoStrings.Join dir ".thumbnails".

Definition targetThumbNameOf (filePath : string) : string :=
  let '(dir, name) := GoStrings.Split filePath in
  let baseName := GoStrings.TrimSuffix name (GoStrings.Ext name) in
  baseName ++ ".webp".

Definition targetThumbPathOf (filePath : string) : string :=
  GoStrings.Join (targetThumbDirOf filePath) (targetThumbNameOf filePath).

(** The deferred function of [generateVideoThumbnail]. *)
Definition removeTemp (tempFilePath : string) : prog unit :=
  err <- call (os_Remove tempFilePath) ;;
  match err with
  | Some e => call (logrus (LogCleanTempFailed e))
  | None => Ret tt
  end.

(** [generateVideoThumbnail] from the validation of the staged file on. *)
Definition publishStaged (ctx : Ctx) (tempFilePath : string)
           (targetThumbDir targetThumbName targetThumbPath : string) : prog unit :=
  verr <- validateWebPFile tempFilePath ;;
  match verr with
  | Some e => call (logrus (LogInvalidWebP e))
  | None =>
      merr <- MakeDir ctx targetThumbDir [true] ;;
      match merr with
      | Some e => call (logrus (LogMakeThumbDirFailed e))
      | None =>
          o <- call (os_Open tempFilePath) ;;
          match o with
          | Err e => call (logrus (LogOpenTempFailed e))
          | Ok tempFileReader =>
              defer (call (file_Close tempFileReader) ;; Ret tt)
                (st <- call (os_Stat tempFilePath) ;;
                 let fileSize := match st with Ok sz => sz | Err _ => 0 end in
                 now <- call time_Now ;;
                 let uploadStream :=
                   {| fs_Obj := {| Name := targetThumbName;
                                   Size := fileSize;
                                   Modified := now;
                                   HashInfo := [] |};
                      fs_Reader := LocalFile tempFileReader;
                      fs_Mimetype := "image/webp";
                      fs_WebPutAsTask := false |} in
                 perr <- call (fs_PutDirectly ctx targetThumbDir uploadStream [true]) ;;
                 match perr with
                 | Some e => call (logrus (LogUploadThumbFailed e))
                 | None => call (logrus (LogThumbDone tempFilePath targetThumbPath))
                 end)
          end
      end
  end.

(** [generateVideoThumbnail] after the [defer] of the temporary file's
    removal: the two extraction attempts, then validation and publication. *)
Definition extractAndPublish (ctx : Ctx) (videoAbsPath tempFilePath : string)
           (targetThumbDir targetThumbName targetThumbPath : string) : prog unit :=
  err <- extractVideoCover ctx videoAbsPath tempFilePath ;;
  match err with
  | Some e =>
      call (logrus (LogCoverFailedTryFrame e)) ;;
      err2 <- extractVideoFrameAtPercentage ctx videoAbsPath tempFilePath 3.0%float ;;
      match err2 with
      | Some e2 => call (logrus (LogFrameFailed e2))
      | None =>
          publishStaged ctx tempFilePath targetThumbDir targetThumbName targetThumbPath
      end
  | None =>
      publishStaged ctx tempFilePath targetThumbDir targetThumbName targetThumbPath
  end.

(** [func generateVideoThumbnail(ctx, filePath string, user *model.User)] *)
Definition generateVideoThumbnail (ctx : Ctx) (filePath : string) (user : User)
  : prog unit :=
  '(fileObj, err) <- call (fs_Get ctx filePath) ;;
  match err with
  | Some e => call (logrus (LogGetVideoInfoFailed e))
  | None =>
      match fileObj with
      | None => Panic "invalid memory address or nil pointer dereference"
      | Some obj =>
          let videoAbsPath := GetPath obj in
          if String.eqb videoAbsPath "" then call (logrus LogVideoAbsPathEmpty)
          else
            let targetThumbDir := targetThumbDirOf filePath in
            let targetThumbName := targetThumbNameOf filePath in
            let targetThumbPath := targetThumbPathOf filePath in
            '(exists_, err) <- checkFileExists ctx targetThumbPath ;;
            match err with
            | Some e => call (logrus (LogCheckThumbFailed e))
            | None =>
                if exists_ then call (logrus (LogThumbExistsSkip targetThumbPath))
                else
                  tmp <- call os_TempDir ;;
                  t <- call (os_CreateTemp tmp "video_thumb_*.webp") ;;
                  match t with
                  | Err e => call (logrus (LogCreateTempFailed e))
                  | Ok tempFile =>
                      let tempFilePath := file_Name tempFile in
                      call (file_Close tempFile) ;;
                      defer (removeTemp tempFilePath)
                        (extractAndPublish ctx videoAbsPath tempFilePath
                           targetThumbDir targetThumbName targetThumbPath)
                  end
            end
      end
  end.

(** What both handlers do once the stream is built: the storage write,
    directly or as a task. *)
Definition putStream (asTask : bool) (dir : string) (s : FileStream)
  : prog (option Task * option error) :=
  if asTask then call (fs_PutAsTask RequestContext dir s)
  else
    err <- call (fs_PutDirectly RequestContext dir s [true]) ;;
    Ret (None, err).

(** [func FsStream(c *gin.Context)] *)
Definition FsStream (c : Request) : prog unit :=
  defer drainBody
    (match PathUnescape (GetHeader c "File-Path") with
     | Err e => call (respond (ErrorResp e 400))
     | Ok path =>
         let asTask := asTaskOf c in
         let overwrite := overwriteOf c in
         match ctxUser c with
         | None => Panic "interface conversion: interface {} is nil, not *model.User"
         | Some user =>
             match JoinPath user path with
             | Err e => call (respond (ErrorResp e 403))
             | Ok path =>
                 present <- (if negb overwrite
                             then '(res, _) <- call (fs_Get RequestContext path) ;;
                                  Ret (isSome res)
                             else Ret false) ;;
                 if present then call (respond (ErrorStrResp "file exists" 403))
                 else
                   let '(dir, name) := GoStrings.Split path in
                   let sizeStr := GetHeader c "Content-Length" in
                   let sizeStr := if String.eqb sizeStr "" then "0" else sizeStr in
                   match ParseInt sizeStr with
                   | Err e => call (respond (ErrorResp e 400))
                   | Ok size =>
                       let h := hashesOf c in
                       let mimetype := GetHeader c "Content-Type" in
                       let mimetype := if (String.length mimetype =? 0)%nat
                                       then GetMimeType name else mimetype in
                       modified <- getLastModified c ;;
                       let s := {| fs_Obj := {| Name := name;
                                                Size := size;
                                                Modified := modified;
                                                HashInfo := h |};
                                   fs_Reader := RequestBody;
                                   fs_Mimetype := mimetype;
                                   fs_WebPutAsTask := asTask |} in
                       '(t, err) <- putStream asTask dir s ;;
                       match err with
                       | Some e => call (respond (ErrorResp e 500))
                       | None =>
                           (if GoStrings.HasPrefix mimetype "video/"
                            then call (go (GoGenerateVideoThumbnail Background path user))
                            else Ret tt) ;;
                           match t with
                           | None => call (respond SuccessResp)
                           | Some t' => call (respond (SuccessRespTask t'))
                           end
                       end
                   end
             end
         end
     end).

(** [func FsForm(c *gin.Context)] *)
Definition FsForm (c : Request) : prog unit :=
  defer drainBody
    (match PathUnescape (GetHeader c "File-Path") with
     | Err e => call (respond (ErrorResp e 400))
     | Ok path =>
         let asTask := asTaskOf c in
         let overwrite := overwriteOf c in
         match ctxUser c with
         | None => Panic "interface conversion: interface {} is nil, not *model.User"
         | Some user =>
             match JoinPath user path with
             | Err e => call (respond (ErrorResp e 403))
             | Ok path =>
                 present <- (if negb overwrite
                             then '(res, _) <- call (fs_Get RequestContext path) ;;
                                  Ret (isSome res)
                             else Ret false) ;;
                 if present then call (respond (ErrorStrResp "file exists" 403))
                 else
                   st <- call (fs_GetStorage path) ;;
                   match st with
                   | Err e => call (respond (ErrorResp e 400))
                   | Ok storage =>
                       if NoUpload storage
                       then call (respond
                                    (ErrorStrResp "Current storage doesn't support upload" 405))
                       else
                         ff <- call (c_FormFile "file") ;;
                         match ff with
                         | Err e => call (respond (ErrorResp e 500))
                         | Ok file =>
                             fo <- call (fh_Open file) ;;
                             match fo with
                             | Some e => call (respond (ErrorResp e 500))
                             | None =>
                                 defer (call (mfile_Close file))
                                   (let '(dir, name) := GoStrings.Split path in
                                    let h := hashesOf c in
                                    let mimetype := fh_ContentType file in
                                    let mimetype := if (String.length mimetype =? 0)%nat
                                                    then GetMimeType name else mimetype in
                                    modified <- getLastModified c ;;
                                    let s := {| fs_Obj := {| Name := name;
                                                             Size := fh_Size file;
                                                             Modified := modified;
                                                             HashInfo := h |};
                                                fs_Reader := MultipartFile file;
                                                fs_Mimetype := mimetype;
                                                fs_WebPutAsTask := asTask |} in
                                    let s := if asTask
                                             then {| fs_Obj := fs_Obj s;
                                                     fs_Reader := ReaderOnly (MultipartFile file);
                                                     fs_Mimetype := fs_Mimetype s;
                                                     fs_WebPutAsTask := fs_WebPutAsTask s |}
                                             else s in
                                    '(t, err) <- putStream asTask dir s ;;
                                    match err with
                                    | Some e => call (respond (ErrorResp e 500))
                                    | None =>
                                        match t with
                                        | None => call (respond SuccessResp)
                                        | Some t' => call (respond (SuccessRespTask t'))
                                        end
                                    end)
                             end
                         end
                   end
             end
         end
     end).

End Programs.

(** ** Running a program against the outside *)

Section Semantics.

Context {L : GoLib}.

(** The outside: a state and what it answers to each operation. *)
Variable W : Type.
Variable handle : forall R : Type, Op R -> W -> R * W.

(** One operation of a run with its answer. *)
Inductive Event : Type :=
| Ev (R : Type) (op : Op R) (r : R).

Inductive outcome (A : Type) : Type :=
| Done (a : A)
| Panicked (msg : string).

Fixpoint run {A : Type} (p : prog A) (w : W) : outcome A * W * list Event :=
  match p with
  | Ret a => (Done A a, w, [])
  | Panic msg => (Panicked A msg, w, [])
  | Vis op k =>
      let '(r, w1) := handle _ op w in
      let '(o, w2, t) := run (k r) w1 in
      (o, w2, Ev _ op r :: t)
  end.

Definition traceOf {A : Type} (p : prog A) (w : W) : list Event := snd (run p w).
Definition outcomeOf {A : Type} (p : prog A) (w : W) : outcome A := fst (fst (run p w)).
Definition worldOf {A : Type} (p : prog A) (w : W) : W := snd (fst (run p w)).

End Semantics.

Arguments Ev {L R} op r.
Arguments Done {A} a.
Arguments Panicked {A} msg.
Arguments run {L W} handle {A} p w.
Arguments traceOf {L W} handle {A} p w.
Arguments outcomeOf {L W} handle {A} p w.
Arguments worldOf {L W} handle {A} p w.

(** ** Observations on traces *)

Section Observations.

Context {L : GoLib}.

(** The external commands of a trace: context, name, arguments, result. *)
Definition execOf (e : Event) : option (Ctx * string * list string * ProcResult) :=
  match e with
  | Ev op r =>
      match op in Op R return R -> option (Ctx * string * list string * ProcResult) with
      | exec_Run ctx name args => fun r => Some (ctx, name, args, r)
      | _ => fun _ => None
      end r
  end.

Fixpoint execsOf (t : list Event) : list (Ctx * string * list string * ProcResult) :=
  match t with
  | [] => []
  | e :: t' =>
      match execOf e with
      | Some x => x :: execsOf t'
      | None => execsOf t'
      end
  end.

(** Writes to storage: [fs.PutDirectly], [fs.PutAsTask], [fs.MakeDir]. *)
Definition isStorageWrite (e : Event) : bool :=
  match e with
  | Ev op _ =>
      match op with
      | fs_PutDirectly _ _ _ _ => true
      | fs_PutAsTask _ _ _ => true
      | fs_MakeDir _ _ _ => true
      | _ => false
      end
  end.

(** Lookups in storage: [fs.Get]. *)
Definition isStorageGet (e : Event) : bool :=
  match e with
  | Ev op _ => match op with fs_Get _ _ => true | _ => false end
  end.

(** Creation of the staged temporary file. *)
Definition isCreateTemp (e : Event) : bool :=
  match e with
  | Ev op _ => match op with os_CreateTemp _ _ => true | _ => false end
  end.

(** Operations through which the request content is read: the storage
    writes given the stream, the parsing of the multipart form and the
    opening of its file. *)
Definition consumesContent (e : Event) : bool :=
  match e with
  | Ev op _ =>
      match op with
      | fs_PutDirectly _ _ _ _ => true
      | fs_PutAsTask _ _ _ => true
      | c_FormFile _ => true
      | fh_Open _ => true
      | _ => false
      end
  end.

(** The goroutines started. *)
Definition spawnOf (e : Event) : option Goroutine :=
  match e with
  | Ev op _ =>
      match op with
      | go g => Some g
      | _ => None
      end
  end.

Fixpoint spawnsOf (t : list Event) : list Goroutine :=
  match t with
  | [] => []
  | e :: t' =>
      match spawnOf e with
      | Some g => g :: spawnsOf t'
      | None => spawnsOf t'
      end
  end.

(** The lines logged. *)
Definition logOf (e : Event) : option LogMsg :=
  match e with
  | Ev op _ =>
      match op with
      | logrus m => Some m
      | _ => None
      end
  end.

Fixpoint logsOf (t : list Event) : list LogMsg :=
  match t with
  | [] => []
  | e :: t' =>
      match logOf e with
      | Some m => m :: logsOf t'
      | None => logsOf t'
      end
  end.

(** The responses written. *)
Definition responseOf (e : Event) : option Response :=
  match e with
  | Ev op _ =>
      match op with
      | respond r => Some r
      | _ => None
      end
  end.

Fixpoint responsesOf (t : list Event) : list Response :=
  match t with
  | [] => []
  | e :: t' =>
      match responseOf e with
      | Some r => r :: responsesOf t'
      | None => responsesOf t'
      end
  end.

(** The storage writes of upload streams that succeeded: destination
    directory and stream. *)
Definition okWriteOf (e : Event) : option (string * FileStream) :=
  match e with
  | Ev op r =>
      match op in Op R return R -> option (string * FileStream) with
      | fs_PutDirectly _ dir s _ =>
          fun r => match r with None => Some (dir, s) | Some _ => None end
      | fs_PutAsTask _ dir s =>
          fun r => match snd r with None => Some (dir, s) | Some _ => None end
      | _ => fun _ => None
      end r
  end.

Fixpoint okWritesOf (t : list Event) : list (string * FileStream) :=
  match t with
  | [] => []
  | e :: t' =>
      match okWriteOf e with
      | Some x => x :: okWritesOf t'
      | None => okWritesOf t'
      end
  end.

(** The value that follows [flag] in an argument list. *)
Fixpoint flagValue (flag : string) (args : list string) : option string :=
  match args with
  | [] => None
  | a :: rest =>
      if String.eqb a flag
      then match rest with v :: _ => Some v | [] => None end
      else flagValue flag rest
  end.


(** Whether error [e] contains [text] in its message, in its [Stderr]
    field or in an error it wraps. *)
Fixpoint contains (text s : string) : bool :=
  String.prefix text s
  || match s with
     | EmptyString => false
     | String _ s' => contains text s'
     end.

Fixpoint carries (e : error) (text : string) : bool :=
  match e with
  | LibError _ msg => contains text msg
  | ExitError state stderr => contains text state || contains text stderr
  | StartError msg => contains text msg
  | Errorf msg => contains text msg
  | ErrorfW msg e' => contains text msg || carries e' text
  end.

(** The operations of a read-only look at the local file [path]: opening
    it, and on an open file [Stat], decoding and [Close]. *)
Definition readsOnly (path : string) (e : Event) : bool :=
  match e with
  | Ev op _ =>
      match op with
      | os_Open name => String.eqb name path
      | file_Stat _ => true
      | image_Decode _ => true
      | file_Close _ => true
      | _ => false
      end
  end.

(** The temporary files created: the names [os.CreateTemp] returned. *)
Definition stagedOf1 (e : Event) : option string :=
  match e with
  | Ev op r =>
      match op in Op R return R -> option string with
      | os_CreateTemp _ _ =>
          fun r => match r with Ok f => Some (file_Name f) | Err _ => None end
      | _ => fun _ => None
      end r
  end.

Fixpoint stagedOf (t : list Event) : list string :=
  match t with
  | [] => []
  | e :: t' =>
      match stagedOf1 e with
      | Some x => x :: stagedOf t'
      | None => stagedOf t'
      end
  end.

(** The calls of [os.Remove]: name and result. *)
Definition removeOf (e : Event) : option (string * option error) :=
  match e with
  | Ev op r =>
      match op in Op R return R -> option (string * option error) with
      | os_Remove name => fun r => Some (name, r)
      | _ => fun _ => None
      end r
  end.

Fixpoint removesOf (t : list Event) : list (string * option error) :=
  match t with
  | [] => []
  | e :: t' =>
      match removeOf e with
      | Some x => x :: removesOf t'
      | None => removesOf t'
      end
  end.

(** What follows the first call of [os.Remove] in a trace. *)
Fixpoint afterRemove (t : list Event) : list Event :=
  match t with
  | [] => []
  | e :: t' =>
      match removeOf e with
      | Some _ => t'
      | None => afterRemove t'
      end
  end.

Definition isLog (e : Event) : bool :=
  match logOf e with Some _ => true | None => false end.

Definition noStorageWrite (t : list Event) : bool :=
  forallb (fun e => negb (isStorageWrite e)) t.

(** The readers of the streams given to [fs.PutDirectly]. *)
Definition putReaderOf (e : Event) : option Reader :=
  match e with
  | Ev op _ =>
      match op with
      | fs_PutDirectly _ _ s _ => Some (fs_Reader s)
      | _ => None
      end
  end.

Fixpoint putReadersOf (t : list Event) : list Reader :=
  match t with
  | [] => []
  | e :: t' =>
      match putReaderOf e with
      | Some x => x :: putReadersOf t'
      | None => putReadersOf t'
      end
  end.

(** The command lines of the three external tools, as the statements below
    name them: options between the input and the output of [ffmpeg]. *)
Definition coverOptions : list string :=
  ["-map"; "0:v:0"; "-vframes"; "1"; "-c:v"; "libwebp"; "-q:v"; "80";
   "-lossless"; "0"; "-compression_level"; "6"; "-preset"; "default"; "-y"].

Definition coverCommand (videoPath outputPath : string) : list string :=
  ("-i" :: videoPath :: coverOptions ++ [outputPath])%list.

Definition frameOptions : list string :=
  ["-vframes"; "1"; "-vf"; "scale=320:-1"; "-c:v"; "libwebp"; "-q:v"; "80";
   "-lossless"; "0"; "-compression_level"; "6"; "-preset"; "default";
   "-update"; "1"; "-y"].

Definition frameCommand (seek videoPath outputPath : string) : list string :=
  ("-ss" :: seek :: "-i" :: videoPath :: frameOptions ++ [outputPath])%list.

Definition probeCommand (filePath : string) : list string :=
  ["-v"; "error"; "-show_entries"; "format=duration";
   "-of"; "default=noprint_wrappers=1:nokey=1"; filePath].


(** The local files opened successfully: name asked for and file. *)
Definition openedOf1 (e : Event) : option (string * File) :=
  match e with
  | Ev op r =>
      match op in Op R return R -> option (string * File) with
      | os_Open name =>
          fun r => match r with Ok f => Some (name, f) | Err _ => None end
      | _ => fun _ => None
      end r
  end.

Fixpoint openedOf (t : list Event) : list (string * File) :=
  match t with
  | [] => []
  | e :: t' =>
      match openedOf1 e with
      | Some x => x :: openedOf t'
      | None => openedOf t'
      end
  end.


End Observations.

(** ** A concrete outside, for running the programs on examples *)

Module Sim.

Definition isSpace (c : ascii) : bool :=
  Ascii.eqb c " "%char || Ascii.eqb c "010"%char
  || Ascii.eqb c "009"%char || Ascii.eqb c "013"%char.

Fixpoint dropSpaces (l : list ascii) : list ascii :=
  match l with
  | [] => []
  | c :: r => if isSpace c then dropSpaces r else l
  end.

Definition trim (s : string) : string :=
  GoStrings.str (rev (dropSpaces (rev (dropSpaces (GoStrings.chars s))))).

Definition parseNat (s : string) : option Z :=
  match s with
  | EmptyString => None
  | _ => option_map (fun u => Z.of_N (N.of_uint u)) (NilZero.uint_of_string s)
  end.

(** Principals are their base path, tasks their identifier; numbers are
    plain decimal naturals; [.mp4] names are videos. *)
#[export] Instance lib : GoLib := {|
  User := string;
  Task := string;
  JoinPath := fun base p =>
    if GoStrings.HasPrefix p "/.." then Err (LibError false "permission denied")
    else Ok (GoStrings.Join base p);
  PathUnescape := fun p =>
    if contains "%zz" p then Err (LibError false "invalid URL escape")
    else Ok p;
  GetMimeType := fun name =>
    if String.eqb (GoStrings.Ext name) ".mp4" then "video/mp4"
    else "application/octet-stream";
  ParseInt := fun s =>
    match parseNat s with
    | Some z => Ok z
    | None => Err (LibError false "strconv.ParseInt: invalid syntax")
    end;
  ParseFloat := fun s =>
    match parseNat s with
    | Some z => Ok (GoFmt.float64_of_int z)
    | None => Err (LibError false "strconv.ParseFloat: invalid syntax")
    end;
  TrimSpace := trim;
  intConvUnspec := fun _ => GoFmt.int64_min
|}.

(** The state of the outside and the scripted behaviour of its tools. *)
Record World : Type := {
  objects : list string;
  files : list (string * string);
  coverResult : ProcResult;
  probeResult : ProcResult;
  frameResult : ProcResult;
  produced : string;
  makeDirError : option error;
  putError : option error;
  removeError : option error;
  bodyLeft : bool;
  formFile : result FileHeader;
  clock : Z
}.

Definition withObjects (w : World) (o : list string) : World :=
  {| objects := o; files := files w; coverResult := coverResult w;
     probeResult := probeResult w; frameResult := frameResult w;
     produced := produced w; makeDirError := makeDirError w;
     putError := putError w; removeError := removeError w;
     bodyLeft := bodyLeft w; formFile := formFile w; clock := clock w |}.

Definition withFiles (w : World) (f : list (string * string)) : World :=
  {| objects := objects w; files := f; coverResult := coverResult w;
     probeResult := probeResult w; frameResult := frameResult w;
     produced := produced w; makeDirError := makeDirError w;
     putError := putError w; removeError := removeError w;
     bodyLeft := bodyLeft w; formFile := formFile w; clock := clock w |}.

Definition withBodyLeft (w : World) (b : bool) : World :=
  {| objects := objects w; files := files w; coverResult := coverResult w;
     probeResult := probeResult w; frameResult := frameResult w;
     produced := produced w; makeDirError := makeDirError w;
     putError := putError w; removeError := removeError w;
     bodyLeft := b; formFile := formFile w; clock := clock w |}.

Definition hasObject (w : World) (path : string) : bool :=
  existsb (String.eqb path) (objects w).

Fixpoint lookupFile (f : list (string * string)) (name : string) : option string :=
  match f with
  | [] => None
  | (n, bytes) :: r => if String.eqb n name then Some bytes else lookupFile r name
  end.

Definition deleteFile (f : list (string * string)) (name : string)
  : list (string * string) :=
  filter (fun x => negb (String.eqb (fst x) name)) f.

Definition hasFile (w : World) (name : string) : bool :=
  isSome (lookupFile (files w) name).

Definition notFound : error := LibError true "object not found".

Definition statOf (w : World) (name : string) : result Z :=
  match lookupFile (files w) name with
  | Some bytes => Ok (Z.of_nat (String.length bytes))
  | None => Err (LibError true "no such file or directory")
  end.

Definition succeeded (r : ProcResult) : bool :=
  match r with
  | ProcExited true _ _ _ _ => true
  | _ => false
  end.

(** A successful [ffmpeg] run writes [produced] to its last argument. *)
Definition runTool (w : World) (name : string) (args : list string)
  : ProcResult * World :=
  if String.eqb name "ffprobe" then (probeResult w, w)
  else
    let r := if isSome (flagValue "-ss" args) then frameResult w else coverResult w in
    if succeeded r
    then (r, withFiles w ((last args "", produced w) :: deleteFile (files w) (last args "")))
    else (r, w).

Definition handle (R : Type) (op : Op R) (w : World) : R * World :=
  match op in Op R return R * World with
  | fs_Get _ path =>
      if hasObject w path then ((Some {| GetPath := path |}, None), w)
      else ((None, Some notFound), w)
  | fs_PutDirectly _ dir s _ =>
      match putError w with
      | Some e => (Some e, w)
      | None => (None, withObjects w (GoStrings.Join dir (Name (fs_Obj s)) :: objects w))
      end
  | fs_PutAsTask _ dir s =>
      match putError w with
      | Some e => ((None, Some e), w)
      | None => ((Some "upload-task", None), w)
      end
  | fs_MakeDir _ _ _ => (makeDirError w, w)
  | fs_GetStorage _ => (Ok {| NoUpload := false |}, w)
  | os_TempDir => ("/tmp", w)
  | os_CreateTemp dir _ =>
      let name := GoStrings.Join dir "video_thumb_1.webp" in
      (Ok {| file_Name := name |}, withFiles w ((name, "") :: deleteFile (files w) name))
  | os_Remove name =>
      match removeError w with
      | Some e => (Some e, w)
      | None =>
          if hasFile w name then (None, withFiles w (deleteFile (files w) name))
          else (Some (LibError true "no such file or directory"), w)
      end
  | os_Open name =>
      if hasFile w name then (Ok {| file_Name := name |}, w)
      else (Err (LibError true "no such file or directory"), w)
  | os_Stat name => (statOf w name, w)
  | file_Stat f => (statOf w (file_Name f), w)
  | file_Close _ => (None, w)
  | image_Decode f =>
      match lookupFile (files w) (file_Name f) with
      | Some bytes =>
          if GoStrings.HasPrefix bytes "RIFF" then (None, w)
          else (Some (LibError false "image: unknown format"), w)
      | None => (Some (LibError false "read: file already closed"), w)
      end
  | exec_Run _ name args => runTool w name args
  | body_ReadFull1 => (if bodyLeft w then 1 else 0, w)
  | body_Discard => (tt, withBodyLeft w false)
  | body_Close => (tt, w)
  | c_FormFile _ => (formFile w, withBodyLeft w false)
  | fh_Open _ => (None, w)
  | mfile_Close _ => (tt, w)
  | time_Now => (clock w, w)
  | logrus _ => (tt, w)
  | respond _ => (tt, w)
  | go _ => (tt, w)
  end.

Definition exitOk (out : string) : ProcResult := ProcExited true "exit status 0" out "" out.
Definition exitFail (out : string) : ProcResult := ProcExited false "exit status 1" "" out out.

(** A storage that holds [/videos/movie.mp4], tools that all succeed and
    produce a WebP header, a hundred-second video. *)
Definition world0 : World := {|
  objects := ["/videos/movie.mp4"];
  files := [];
  coverResult := exitOk "frame=1";
  probeResult := exitOk "100
";
  frameResult := exitOk "frame=1";
  produced := "RIFF....WEBPVP8 ";
  makeDirError := None;
  putError := None;
  removeError := None;
  bodyLeft := true;
  formFile := Ok {| fh_ContentType := "video/mp4"; fh_Size := 1024 |};
  clock := 1700000000000
|}.

Definition withCover (w : World) (r : ProcResult) : World :=
  {| objects := objects w; files := files w; coverResult := r;
     probeResult := probeResult w; frameResult := frameResult w;
     produced := produced w; makeDirError := makeDirError w;
     putError := putError w; removeError := removeError w;
     bodyLeft := bodyLeft w; formFile := formFile w; clock := clock w |}.

Definition withFrame (w : World) (r : ProcResult) : World :=
  {| objects := objects w; files := files w; coverResult := coverResult w;
     probeResult := probeResult w; frameResult := r;
     produced := produced w; makeDirError := makeDirError w;
     putError := putError w; removeError := removeError w;
     bodyLeft := bodyLeft w; formFile := formFile w; clock := clock w |}.

Definition withProduced (w : World) (bytes : string) : World :=
  {| objects := objects w; files := files w; coverResult := coverResult w;
     probeResult := probeResult w; frameResult := frameResult w;
     produced := bytes; makeDirError := makeDirError w;
     putError := putError w; removeError := removeError w;
     bodyLeft := bodyLeft w; formFile := formFile w; clock := clock w |}.

(** A request from principal [/] with the given headers. *)
Definition request (headers : list (string * string)) : Request :=
  {| GetHeader := fun k => match lookupFile headers k with Some v => v | None => "" end;
     ctxUser := Some "/" |}.

(** The storage of [world0] with the thumbnail of the movie published. *)
Definition worldWithThumb : World :=
withObjects world0 ["/videos/movie.mp4"; "/videos/.thumbnails/movie.webp"].

(** Local files holding a WebP header, nothing, and bytes of no image. *)
Definition worldWithFiles : World :=
withFiles world0 [("/tmp/thumb.webp", "RIFF....WEBPVP8 ");
                  ("/tmp/empty.webp", "");
                  ("/tmp/noise.webp", "not an image")].

(** The cover extraction fails; both extractions fail. *)
Definition worldCoverFails : World :=
withCover world0 (exitFail "moov atom not found").

Definition worldBothFail : World :=
withFrame worldCoverFails (exitFail "moov atom not found").

(** [ffmpeg] succeeds and leaves bytes of no image. *)
Definition worldNoise : World := withProduced world0 "not an image".

(** The thumbnail directory cannot be made; the thumbnail cannot be put. *)
Definition worldMakeDirFails : World :=
{| objects := objects world0; files := files world0; coverResult := coverResult world0;
   probeResult := probeResult world0; frameResult := frameResult world0;
   produced := produced world0;
   makeDirError := Some (LibError false "storage is read-only");
   putError := putError world0; removeError := removeError world0;
   bodyLeft := bodyLeft world0; formFile := formFile world0; clock := clock world0 |}.

Definition worldPutFails : World :=
{| objects := objects world0; files := files world0; coverResult := coverResult world0;
   probeResult := probeResult world0; frameResult := frameResult world0;
   produced := produced world0; makeDirError := makeDirError world0;
   putError := Some (LibError false "storage is read-only");
   removeError := removeError world0;
   bodyLeft := bodyLeft world0; formFile := formFile world0; clock := clock world0 |}.

(** An upload of [/videos/movie.mp4] that forbids overwriting, and a plain
    upload of [/videos/clip.mp4]. *)
Definition reqNoOverwrite : Request :=
request [("File-Path", "/videos/movie.mp4"); ("Overwrite", "false")].

Definition reqPlain : Request := request [("File-Path", "/videos/clip.mp4")].

Definition reqVideoStream : Request :=
request [("File-Path", "/videos/clip.mp4"); ("Content-Type", "video/mp4")].

Definition movie : string := "/videos/movie.mp4".
Definition staged : string := "/tmp/video_thumb_1.webp".

(** The principal of the examples, whose base path is the root. *)
Definition principal : User := "/".

(** What a run of [generateVideoThumbnail] on the movie leaves behind: the
    directories written to, the removals, and whether the staged file is
    still there. *)
Definition exitSummary (w : World)
  : list string * list (string * option error) * bool :=
let '(_, w', tr) := run handle (generateVideoThumbnail Background movie principal) w in
(map fst (okWritesOf tr), removesOf tr, hasFile w' staged).

End Sim.

(** ** Further observations on traces *)

Section MoreObservations.

Context {L : GoLib}.

(** The context an operation is given, when it takes one. *)
Definition ctxOf (e : Event) : option Ctx :=
  match e with
  | Ev op _ =>
      match op with
      | fs_Get ctx _ => Some ctx
      | fs_PutDirectly ctx _ _ _ => Some ctx
      | fs_PutAsTask ctx _ _ => Some ctx
      | fs_MakeDir ctx _ _ => Some ctx
      | exec_Run ctx _ _ => Some ctx
      | _ => None
      end
  end.

Fixpoint ctxsOf (t : list Event) : list Ctx :=
  match t with
  | [] => []
  | e :: t' =>
      match ctxOf e with
      | Some x => x :: ctxsOf t'
      | None => ctxsOf t'
      end
  end.

(** What is done to the request body. *)
Inductive BodyOp : Type :=
| BodyRead (n : Z)
| BodyDiscard
| BodyClosed.

Definition bodyOpOf (e : Event) : option BodyOp :=
  match e with
  | Ev op r =>
      match op in Op R return R -> option BodyOp with
      | body_ReadFull1 => fun n => Some (BodyRead n)
      | body_Discard => fun _ => Some BodyDiscard
      | body_Close => fun _ => Some BodyClosed
      | _ => fun _ => None
      end r
  end.

Fixpoint bodyOpsOf (t : list Event) : list BodyOp :=
  match t with
  | [] => []
  | e :: t' =>
      match bodyOpOf e with
      | Some x => x :: bodyOpsOf t'
      | None => bodyOpsOf t'
      end
  end.

Definition isBodyClose (e : Event) : bool :=
  match bodyOpOf e with
  | Some BodyClosed => true
  | _ => false
  end.

(** Whether the last operation of a trace satisfies [p]. *)
Definition endsWith (p : Event -> bool) (t : list Event) : bool :=
  match rev t with
  | e :: _ => p e
  | [] => false
  end.

(** The storage writes of upload streams attempted: whether as a task, the
    context, the destination directory, the stream, the [lazyCache]
    arguments. *)
Definition putAttemptOf (e : Event)
  : option (bool * Ctx * string * FileStream * list bool) :=
  match e with
  | Ev op _ =>
      match op with
      | fs_PutDirectly ctx dir s lazyCache => Some (false, ctx, dir, s, lazyCache)
      | fs_PutAsTask ctx dir s => Some (true, ctx, dir, s, [])
      | _ => None
      end
  end.

Fixpoint putAttemptsOf (t : list Event)
  : list (bool * Ctx * string * FileStream * list bool) :=
  match t with
  | [] => []
  | e :: t' =>
      match putAttemptOf e with
      | Some x => x :: putAttemptsOf t'
      | None => putAttemptsOf t'
      end
  end.

(** The calls of [fs.MakeDir]: directory, [lazyCache] arguments, result. *)
Definition makeDirOf (e : Event) : option (string * list bool * option error) :=
  match e with
  | Ev op r =>
      match op in Op R return R -> option (string * list bool * option error) with
      | fs_MakeDir _ path lazyCache => fun r => Some (path, lazyCache, r)
      | _ => fun _ => None
      end r
  end.

Fixpoint makeDirsOf (t : list Event) : list (string * list bool * option error) :=
  match t with
  | [] => []
  | e :: t' =>
      match makeDirOf e with
      | Some x => x :: makeDirsOf t'
      | None => makeDirsOf t'
      end
  end.

(** The answers of [time.Now]. *)
Definition nowOf (e : Event) : option Z :=
  match e with
  | Ev op r =>
      match op in Op R return R -> option Z with
      | time_Now => fun r => Some r
      | _ => fun _ => None
      end r
  end.

Fixpoint nowsOf (t : list Event) : list Z :=
  match t with
  | [] => []
  | e :: t' =>
      match nowOf e with
      | Some x => x :: nowsOf t'
      | None => nowsOf t'
      end
  end.

(** The local files handed out ([os.CreateTemp], [os.Open]) and the local
    files closed. *)
Definition obtainedOf1 (e : Event) : option File :=
  match e with
  | Ev op r =>
      match op in Op R return R -> option File with
      | os_CreateTemp _ _ => fun r => match r with Ok f => Some f | Err _ => None end
      | os_Open _ => fun r => match r with Ok f => Some f | Err _ => None end
      | _ => fun _ => None
      end r
  end.

Fixpoint obtainedOf (t : list Event) : list File :=
  match t with
  | [] => []
  | e :: t' =>
      match obtainedOf1 e with
      | Some x => x :: obtainedOf t'
      | None => obtainedOf t'
      end
  end.

Definition closedOf1 (e : Event) : option File :=
  match e with
  | Ev op _ =>
      match op with
      | file_Close f => Some f
      | _ => None
      end
  end.

Fixpoint closedOf (t : list Event) : list File :=
  match t with
  | [] => []
  | e :: t' =>
      match closedOf1 e with
      | Some x => x :: closedOf t'
      | None => closedOf t'
      end
  end.

(** The operations on the multipart form: parsing it, opening and closing
    its file. *)
Inductive FormOp : Type :=
| FormParsed (ok : bool)
| FormOpened (ok : bool)
| FormClosed.

Definition formOpOf (e : Event) : option FormOp :=
  match e with
  | Ev op r =>
      match op in Op R return R -> option FormOp with
      | c_FormFile _ =>
          fun r => Some (FormParsed (match r with Ok _ => true | Err _ => false end))
      | fh_Open _ =>
          fun r => Some (FormOpened (match r with None => true | Some _ => false end))
      | mfile_Close _ => fun _ => Some FormClosed
      | _ => fun _ => None
      end r
  end.

Fixpoint formOpsOf (t : list Event) : list FormOp :=
  match t with
  | [] => []
  | e :: t' =>
      match formOpOf e with
      | Some x => x :: formOpsOf t'
      | None => formOpsOf t'
      end
  end.

(** The storages consulted by [fs.GetStorage]: path and answer. *)
Definition storageOf (e : Event) : option (string * result Storage) :=
  match e with
  | Ev op r =>
      match op in Op R return R -> option (string * result Storage) with
      | fs_GetStorage path => fun r => Some (path, r)
      | _ => fun _ => None
      end r
  end.

Fixpoint storagesOf (t : list Event) : list (string * result Storage) :=
  match t with
  | [] => []
  | e :: t' =>
      match storageOf e with
      | Some x => x :: storagesOf t'
      | None => storagesOf t'
      end
  end.

(** The lookups of [fs.Get]: context, path, answer. *)
Definition lookupOf (e : Event) : option (Ctx * string * (option Obj * option error)) :=
  match e with
  | Ev op r =>
      match op in Op R return R -> option (Ctx * string * (option Obj * option error)) with
      | fs_Get ctx path => fun r => Some (ctx, path, r)
      | _ => fun _ => None
      end r
  end.

Fixpoint lookupsOf (t : list Event) : list (Ctx * string * (option Obj * option error)) :=
  match t with
  | [] => []
  | e :: t' =>
      match lookupOf e with
      | Some x => x :: lookupsOf t'
      | None => lookupsOf t'
      end
  end.

(** Whether a response reports success. *)
Definition isSuccess (r : Response) : bool :=
  match r with
  | SuccessResp => true
  | SuccessRespTask _ => true
  | _ => false
  end.

(** The MIME type both handlers give the stream: the declared one, or the
    one [utils.GetMimeType] derives from the name when none is declared. *)
Definition mimeOr (declared name : string) : string :=
  if (String.length declared =? 0)%nat then GetMimeType name else declared.

(** The answers of [os.Stat]. *)
Definition osStatOf (e : Event) : option (result Z) :=
  match e with
  | Ev op r =>
      match op in Op R return R -> option (result Z) with
      | os_Stat _ => fun r => Some r
      | _ => fun _ => None
      end r
  end.

Fixpoint osStatsOf (t : list Event) : list (result Z) :=
  match t with
  | [] => []
  | e :: t' =>
      match osStatOf e with
      | Some x => x :: osStatsOf t'
      | None => osStatsOf t'
      end
  end.

(** The multipart files [c.FormFile] returned. *)
Definition formFileOf (e : Event) : option FileHeader :=
  match e with
  | Ev op r =>
      match op in Op R return R -> option FileHeader with
      | c_FormFile _ => fun r => match r with Ok f => Some f | Err _ => None end
      | _ => fun _ => None
      end r
  end.

Fixpoint formFilesOf (t : list Event) : list FileHeader :=
  match t with
  | [] => []
  | e :: t' =>
      match formFileOf e with
      | Some x => x :: formFilesOf t'
      | None => formFilesOf t'
      end
  end.

(** The status code of an error response. *)
Definition codeOf (r : Response) : option Z :=
  match r with
  | ErrorResp _ code => Some code
  | ErrorStrResp _ code => Some code
  | _ => None
  end.

(** One of the two upload handlers. *)
Definition uploadHandler (form : bool) : Request -> prog unit :=
  if form then FsForm else FsStream.

End MoreObservations.

(** ** The settings handlers *)

Module Settings.

(** [strings.Split(s, ",")]: the pieces between the commas; one empty
    piece for the empty string. *)
Fixpoint splitComma (s : string) : list string :=
  match s with
  | EmptyString => [EmptyString]
  | String c r =>
      if Ascii.eqb c ","%char then EmptyString :: splitComma r
      else match splitComma r with
           | h :: t => String c h :: t
           | [] => [String c EmptyString]
           end
  end.

(** No comma in the string. *)
Fixpoint commaFree (s : string) : bool :=
  match s with
  | EmptyString => true
  | String c r => negb (Ascii.eqb c ","%char) && commaFree r
  end.

(** [sort.Ints]: the increasing rearrangement, here by insertion. *)
Fixpoint insertInt (x : Z) (l : list Z) : list Z :=
  match l with
  | [] => [x]
  | y :: r => if x <=? y then x :: l else y :: insertInt x r
  end.

Fixpoint sortInts (l : list Z) : list Z :=
  match l with
  | [] => []
  | x :: r => insertInt x (sortInts r)
  end.

(** [strconv.FormatBool] *)
Definition FormatBool (b : bool) : string := if b then "true" else "false".

(** [model.SettingItem], the fields this file reads or writes. *)
Record SettingItem : Type := {
  Key : string;
  Value : string;
  Type_ : string;
  Group : Z;
  Flag : Z;
  Index : N
}.

(** [item.Index = uint(i)] *)
Definition setIndex (item : SettingItem) (i : N) : SettingItem :=
  {| Key := Key item; Value := Value item; Type_ := Type_ item;
     Group := Group item; Flag := Flag item; Index := i |}.

(** What this file takes from other packages without touching the outside:
    the constants [conf.TypeString], [conf.TypeBool], [model.SINGLE],
    [model.WEBDAV], [model.PRIVATE], [model.PUBLIC], the directory
    [flags.DataDir], the functions [strconv.Atoi] and [filepath.Join], and
    the type of [op.GetPublicSettingsMap]'s result. *)
Class SettingsLib : Type := {
  TypeString : string;
  TypeBool : string;
  SINGLE : Z;
  WEBDAV : Z;
  PRIVATE : Z;
  PUBLIC : Z;
  DataDir : string;
  Atoi : string -> result Z;
  filepath_Join : string -> string -> string;
  PublicMap : Type
}.

Section Handlers.

Context {SL : SettingsLib}.

(** [*gin.Context]: the query parameters. *)
Record Request : Type := { Query : string -> string }.

(** The data of [common.SuccessResp]. *)
Inductive Data : Type :=
| NoData
| TokenData (token : string)
| ItemData (item : option SettingItem)
| ItemsData (items : list SettingItem)
| MapData (m : PublicMap)
| WebDAVData (Enable : bool) (Listen : string).

Inductive Response : Type :=
| ErrorResp (err : error) (code : Z)
| SuccessResp (data : Data).

(** The log line of [SetWebDAV]. *)
Inductive LogLine : Type :=
| LogSaveConfigFailed.

(** The operations on the outside, indexed by what they return. *)
Inductive Op : Type -> Type :=
| random_Token : Op string
| op_SaveSettingItem (item : SettingItem) : Op (option error)
| op_SaveSettingItems (items : list SettingItem) : Op (option error)
| op_GetSettingItemByKey (key : string) : Op (option SettingItem * option error)
| op_GetSettingItemInKeys (keys : list string) : Op (list SettingItem * option error)
| op_GetSettingItems : Op (list SettingItem * option error)
| op_GetSettingItemsInGroups (groups : list Z) : Op (list SettingItem * option error)
| op_DeleteSettingItemByKey (key : string) : Op (option error)
| op_GetPublicSettingsMap : Op PublicMap
| data_InitialSettings : Op (list SettingItem)
| sign_Instance : Op unit
| static_UpdateIndex : Op unit
| c_ShouldBindItems : Op (result (list SettingItem))
| c_ShouldBindWebDAV : Op (result (bool * string))
| conf_WebDAV_Enable : Op bool
| conf_WebDAV_Listen : Op string
| conf_SetWebDAV_Enable (b : bool) : Op unit
| conf_SetWebDAV_Listen (s : string) : Op unit
| utils_WriteJsonToFile (path : string) : Op bool
| log_Errorf (l : LogLine) : Op unit
| respond (r : Response) : Op unit.

(** Programs: a value, a run-time panic, or an operation and what follows. *)
Inductive prog (A : Type) : Type :=
| Ret (a : A)
| Panic (msg : string)
| Vis (R : Type) (op : Op R) (k : R -> prog A).
Arguments Ret {A} a.
Arguments Panic {A} msg.
Arguments Vis {A R} op k.

Fixpoint bind {A B : Type} (p : prog A) (f : A -> prog B) : prog B :=
  match p with
  | Ret a => f a
  | Panic msg => Panic msg
  | Vis op k => Vis op (fun r => bind (k r) f)
  end.

Definition call {R : Type} (op : Op R) : prog R := Vis op Ret.

End Handlers.

Arguments Ret {SL A} a.
Arguments Panic {SL A} msg.
Arguments Vis {SL A R} op k.

Declare Scope settings_scope.
Delimit Scope settings_scope with settings.
Notation "x <- p ;; k" := (bind p (fun x => k))
  (at level 61, p at next level, right associativity) : settings_scope.
Notation "' pat <- p ;; k" := (bind p (fun x => match x with pat => k end))
  (at level 61, pat pattern, p at next level, right associativity) : settings_scope.
Notation "p ;; k" := (bind p (fun _ => k))
  (at level 61, right associativity) : settings_scope.

Section Programs.

Context {SL : SettingsLib}.
Local Open Scope settings_scope.

(** [func ResetToken(c *gin.Context)] *)
Definition ResetToken (c : Request) : prog unit :=
  token <- call random_Token ;;
  let item := {| Key := "token"; Value := token; Type_ := TypeString;
                 Group := SINGLE; Flag := PRIVATE; Index := 0 |} in
  err <- call (op_SaveSettingItem item) ;;
  match err with
  | Some e => call (respond (ErrorResp e 500))
  | None =>
      call sign_Instance ;;
      call (respond (SuccessResp (TokenData token)))
  end.

(** [func GetSetting(c *gin.Context)] *)
Definition GetSetting (c : Request) : prog unit :=
  let key := Query c "key" in
  let keys := Query c "keys" in
  if negb (String.eqb key "") then
    '(item, err) <- call (op_GetSettingItemByKey key) ;;
    match err with
    | Some e => call (respond (ErrorResp e 400))
    | None => call (respond (SuccessResp (ItemData item)))
    end
  else
    '(items, err) <- call (op_GetSettingItemInKeys (splitComma keys)) ;;
    match err with
    | Some e => call (respond (ErrorResp e 400))
    | None => call (respond (SuccessResp (ItemsData items)))
    end.

(** [func SaveSettings(c *gin.Context)] *)
Definition SaveSettings (c : Request) : prog unit :=
  b <- call c_ShouldBindItems ;;
  match b with
  | Err e => call (respond (ErrorResp e 400))
  | Ok req =>
      err <- call (op_SaveSettingItems req) ;;
      match err with
      | Some e => call (respond (ErrorResp e 500))
      | None =>
          call (respond (SuccessResp NoData)) ;;
          call static_UpdateIndex
      end
  end.

(** The group strings of [ListSettings] and [DefaultSettings]: the pieces of
    [groups] when it is not empty, otherwise [group] alone. *)
Definition groupStringsOf (groupStr groupsStr : string) : list string :=
  if negb (String.eqb groupsStr "") then splitComma groupsStr
  else [groupStr].

(** The loop [for _, str := range groupStrings] of both handlers: the
    groups in order, or the error of the first string [strconv.Atoi]
    rejects. *)
Fixpoint parseGroups (groupStrings : list string) : result (list Z) :=
  match groupStrings with
  | [] => Ok []
  | str :: rest =>
      match Atoi str with
      | Err e => Err e
      | Ok group =>
          match parseGroups rest with
          | Err e => Err e
          | Ok groups => Ok (group :: groups)
          end
      end
  end.

(** [func ListSettings(c *gin.Context)] *)
Definition ListSettings (c : Request) : prog unit :=
  let groupStr := Query c "group" in
  let groupsStr := Query c "groups" in
  if String.eqb groupsStr "" && String.eqb groupStr "" then
    '(settings, err) <- call op_GetSettingItems ;;
    match err with
    | Some e => call (respond (ErrorResp e 400))
    | None => call (respond (SuccessResp (ItemsData settings)))
    end
  else
    match parseGroups (groupStringsOf groupStr groupsStr) with
    | Err e => call (respond (ErrorResp e 400))
    | Ok groups =>
        '(settings, err) <- call (op_GetSettingItemsInGroups groups) ;;
        match err with
        | Some e => call (respond (ErrorResp e 400))
        | None => call (respond (SuccessResp (ItemsData settings)))
        end
    end.

(** [for i := range settings { (&settings[i]).Index = uint(i) }], from
    position [i] on. *)
Fixpoint indexAll (i : N) (settings : list SettingItem) : list SettingItem :=
  match settings with
  | [] => []
  | item :: rest => setIndex item i :: indexAll (i + 1) rest
  end.

(** The inner loop of [DefaultSettings] for one [group], from position [i]
    on: the items of that group, each with its position as [Index]. *)
Fixpoint pickGroup (group : Z) (i : N) (settings : list SettingItem)
  : list SettingItem :=
  match settings with
  | [] => []
  | item :: rest =>
      if group =? Group item
      then setIndex item i :: pickGroup group (i + 1) rest
      else pickGroup group (i + 1) rest
  end.

(** The outer loop of [DefaultSettings]: [resultItems] after all [groups]. *)
Fixpoint collectGroups (groups : list Z) (settings : list SettingItem)
  : list SettingItem :=
  match groups with
  | [] => []
  | group :: rest => (pickGroup group 0 settings ++ collectGroups rest settings)%list
  end.

(** [func DefaultSettings(c *gin.Context)] *)
Definition DefaultSettings (c : Request) : prog unit :=
  let groupStr := Query c "group" in
  let groupsStr := Query c "groups" in
  settings <- call data_InitialSettings ;;
  if String.eqb groupsStr "" && String.eqb groupStr "" then
    call (respond (SuccessResp (ItemsData (indexAll 0 settings))))
  else
    match parseGroups (groupStringsOf groupStr groupsStr) with
    | Err e => call (respond (ErrorResp e 400))
    | Ok groups =>
        let groups := sortInts groups in
        call (respond (SuccessResp (ItemsData (collectGroups groups settings))))
    end.

(** [func DeleteSetting(c *gin.Context)] *)
Definition DeleteSetting (c : Request) : prog unit :=
  let key := Query c "key" in
  err <- call (op_DeleteSettingItemByKey key) ;;
  match err with
  | Some e => call (respond (ErrorResp e 500))
  | None => call (respond (SuccessResp NoData))
  end.

(** [func PublicSettings(c *gin.Context)] *)
Definition PublicSettings (c : Request) : prog unit :=
  m <- call op_GetPublicSettingsMap ;;
  call (respond (SuccessResp (MapData m))).

(** The two items [SetWebDAV] saves. *)
Definition webdavEnabledItemOf (Enable : bool) : SettingItem :=
  {| Key := "webdav_enabled"; Value := FormatBool Enable; Type_ := TypeBool;
     Group := WEBDAV; Flag := PUBLIC; Index := 0 |}.

Definition webdavListenItemOf (Listen : string) : SettingItem :=
  {| Key := "webdav_listen"; Value := Listen; Type_ := TypeString;
     Group := WEBDAV; Flag := PRIVATE; Index := 0 |}.

(** [func SetWebDAV(c *gin.Context)] *)
Definition SetWebDAV (c : Request) : prog unit :=
  b <- call c_ShouldBindWebDAV ;;
  match b with
  | Err e => call (respond (ErrorResp e 400))
  | Ok (Enable, Listen) =>
      let webdavEnabledItem := webdavEnabledItemOf Enable in
      let webdavListenItem := webdavListenItemOf Listen in
      err <- call (op_SaveSettingItems [webdavEnabledItem; webdavListenItem]) ;;
      match err with
      | Some e => call (respond (ErrorResp e 500))
      | None =>
          call (conf_SetWebDAV_Enable Enable) ;;
          call (conf_SetWebDAV_Listen Listen) ;;
          let configPath := filepath_Join DataDir "config.json" in
          ok <- call (utils_WriteJsonToFile configPath) ;;
          (if negb ok then call (log_Errorf LogSaveConfigFailed) else Ret tt) ;;
          call (respond (SuccessResp NoData))
      end
  end.

(** The value of a looked-up item, or a panic on a nil item. *)
Definition valueOf (item : option SettingItem) : prog string :=
  match item with
  | Some i => Ret (Value i)
  | None => Panic "invalid memory address or nil pointer dereference"
  end.

(** [func GetWebDAV(c *gin.Context)] *)
Definition GetWebDAV (c : Request) : prog unit :=
  '(webdavEnabledItem, err) <- call (op_GetSettingItemByKey "webdav_enabled") ;;
  webdavEnabledItem <-
    match err with
    | Some _ =>
        b <- call conf_WebDAV_Enable ;;
        Ret (Some {| Key := "webdav_enabled"; Value := FormatBool b; Type_ := "";
                     Group := 0; Flag := 0; Index := 0 |})
    | None => Ret webdavEnabledItem
    end ;;
  '(webdavListenItem, err) <- call (op_GetSettingItemByKey "webdav_listen") ;;
  webdavListenItem <-
    match err with
    | Some _ =>
        l <- call conf_WebDAV_Listen ;;
        Ret (Some {| Key := "webdav_listen"; Value := l; Type_ := "";
                     Group := 0; Flag := 0; Index := 0 |})
    | None => Ret webdavListenItem
    end ;;
  enabledValue <- valueOf webdavEnabledItem ;;
  listenValue <- valueOf webdavListenItem ;;
  call (respond (SuccessResp (WebDAVData (String.eqb enabledValue "true") listenValue))).

End Programs.

Section Semantics.

Context {SL : SettingsLib}.

Variable W : Type.
Variable handle : forall R : Type, Op R -> W -> R * W.

(** One operation of a run with its answer. *)
Inductive Event : Type :=
| Ev (R : Type) (op : Op R) (r : R).

Fixpoint run {A : Type} (p : prog A) (w : W) : outcome A * W * list Event :=
  match p with
  | Ret a => (Done a, w, [])
  | Panic msg => (Panicked msg, w, [])
  | Vis op k =>
      let '(r, w1) := handle _ op w in
      let '(o, w2, t) := run (k r) w1 in
      (o, w2, Ev _ op r :: t)
  end.

Definition traceOf {A : Type} (p : prog A) (w : W) : list Event := snd (run p w).
Definition outcomeOf {A : Type} (p : prog A) (w : W) : outcome A := fst (fst (run p w)).
Definition worldOf {A : Type} (p : prog A) (w : W) : W := snd (fst (run p w)).

End Semantics.

Arguments Ev {SL R} op r.
Arguments run {SL W} handle {A} p w.
Arguments traceOf {SL W} handle {A} p w.
Arguments outcomeOf {SL W} handle {A} p w.
Arguments worldOf {SL W} handle {A} p w.

End Settings.

(** ** Shapes of paths *)

Module PathShape.

(** No slash in the string. *)
Fixpoint noSlash (s : string) : bool :=
  match s with
  | EmptyString => true
  | String c r => negb (Ascii.eqb c GoStrings.slash) && noSlash r
  end.

(** Neither a dot nor a slash in the string. *)
Fixpoint noDotSlash (s : string) : bool :=
  match s with
  | EmptyString => true
  | String c r =>
      negb (Ascii.eqb c GoStrings.slash) && negb (Ascii.eqb c GoStrings.dot)
      && noDotSlash r
  end.

(** An extension as [path.Ext] returns them: a dot, then neither dot nor
    slash. *)
Definition simpleExt (e : string) : bool :=
  match e with
  | String c r => Ascii.eqb c GoStrings.dot && noDotSlash r
  | EmptyString => false
  end.

End PathShape.

(** ** Observations on the runs of the settings handlers *)

Module SettingsTrace.

Import Settings.

Section Steps.

Context {SL : SettingsLib}.

(** An operation of a run with its answer, without the dependency of the
    answer's type on the operation. *)
Inductive Step : Type :=
| SToken (token : string)
| SSaveItem (item : SettingItem) (r : option error)
| SSaveItems (items : list SettingItem) (r : option error)
| SGetByKey (key : string) (r : option SettingItem * option error)
| SGetInKeys (keys : list string) (r : list SettingItem * option error)
| SGetItems (r : list SettingItem * option error)
| SGetInGroups (groups : list Z) (r : list SettingItem * option error)
| SDelete (key : string) (r : option error)
| SPublicMap (m : PublicMap)
| SInitial (settings : list SettingItem)
| SSign
| SUpdateIndex
| SBindItems (r : result (list SettingItem))
| SBindWebDAV (r : result (bool * string))
| SConfEnable (b : bool)
| SConfListen (s : string)
| SSetEnable (b : bool)
| SSetListen (s : string)
| SWriteJson (path : string) (ok : bool)
| SLog (l : LogLine)
| SRespond (r : Response).

Definition stepOf (e : Event) : Step :=
  match e with
  | Ev op r =>
      match op in Op R return R -> Step with
      | random_Token => fun r => SToken r
      | op_SaveSettingItem item => fun r => SSaveItem item r
      | op_SaveSettingItems items => fun r => SSaveItems items r
      | op_GetSettingItemByKey key => fun r => SGetByKey key r
      | op_GetSettingItemInKeys keys => fun r => SGetInKeys keys r
      | op_GetSettingItems => fun r => SGetItems r
      | op_GetSettingItemsInGroups groups => fun r => SGetInGroups groups r
      | op_DeleteSettingItemByKey key => fun r => SDelete key r
      | op_GetPublicSettingsMap => fun r => SPublicMap r
      | data_InitialSettings => fun r => SInitial r
      | sign_Instance => fun _ => SSign
      | static_UpdateIndex => fun _ => SUpdateIndex
      | c_ShouldBindItems => fun r => SBindItems r
      | c_ShouldBindWebDAV => fun r => SBindWebDAV r
      | conf_WebDAV_Enable => fun r => SConfEnable r
      | conf_WebDAV_Listen => fun r => SConfListen r
      | conf_SetWebDAV_Enable b => fun _ => SSetEnable b
      | conf_SetWebDAV_Listen s => fun _ => SSetListen s
      | utils_WriteJsonToFile path => fun r => SWriteJson path r
      | log_Errorf l => fun _ => SLog l
      | respond r => fun _ => SRespond r
      end r
  end.

Definition stepsOf (t : list Event) : list Step := map stepOf t.

(** The responses written. *)
Fixpoint responsesOf (t : list Step) : list Response :=
  match t with
  | [] => []
  | SRespond r :: t' => r :: responsesOf t'
  | _ :: t' => responsesOf t'
  end.

(** The steps that write to the settings store, and the error of one that
    failed. *)
Definition isStoreWrite (s : Step) : bool :=
  match s with
  | SSaveItem _ _ | SSaveItems _ _ | SDelete _ _ => true
  | _ => false
  end.

Definition writeErrorOf (s : Step) : option error :=
  match s with
  | SSaveItem _ r | SSaveItems _ r | SDelete _ r => r
  | _ => None
  end.

(** [sign.Instance] and [static.UpdateIndex]. *)
Definition isRefresh (s : Step) : bool :=
  match s with
  | SSign | SUpdateIndex => true
  | _ => false
  end.

(** The steps that change the configuration in memory or on disk. *)
Definition isConfigWrite (s : Step) : bool :=
  match s with
  | SSetEnable _ | SSetListen _ | SWriteJson _ _ => true
  | _ => false
  end.

(** The nine handlers of the file. *)
Inductive Handler : Type :=
| HResetToken
| HGetSetting
| HSaveSettings
| HListSettings
| HDefaultSettings
| HDeleteSetting
| HPublicSettings
| HSetWebDAV
| HGetWebDAV.

Definition handlerOf (h : Handler) : Request -> prog unit :=
  match h with
  | HResetToken => ResetToken
  | HGetSetting => GetSetting
  | HSaveSettings => SaveSettings
  | HListSettings => ListSettings
  | HDefaultSettings => DefaultSettings
  | HDeleteSetting => DeleteSetting
  | HPublicSettings => PublicSettings
  | HSetWebDAV => SetWebDAV
  | HGetWebDAV => GetWebDAV
  end.

End Steps.

(** The items of a list that belong to [group]. *)
Definition inGroup (group : Z) (settings : list SettingItem) : list SettingItem :=
  filter (fun item => group =? Group item) settings.

End SettingsTrace.

(** ** A concrete settings store *)

Module SimSettings.

Import Settings.

#[export] Instance lib : SettingsLib := {|
  TypeString := "string";
  TypeBool := "bool";
  SINGLE := 0;
  WEBDAV := 12;
  PRIVATE := 1;
  PUBLIC := 0;
  DataDir := "data";
  Atoi := fun s =>
    match Sim.parseNat s with
    | Some z => Ok z
    | None => Err (LibError false "strconv.Atoi: invalid syntax")
    end;
  filepath_Join := fun a b => GoStrings.Join a b;
  PublicMap := list (string * string)
|}.

(** The stored items, the WebDAV configuration in memory, and what the
    request and the other collaborators answer. *)
Record World : Type := {
  store : list SettingItem;
  confEnable : bool;
  confListen : string;
  storeError : option error;
  boundItems : result (list SettingItem);
  boundWebDAV : result (bool * string);
  initial : list SettingItem;
  nextToken : string;
  diskOk : bool
}.

Definition withStore (w : World) (s : list SettingItem) : World :=
  {| store := s; confEnable := confEnable w; confListen := confListen w;
     storeError := storeError w; boundItems := boundItems w;
     boundWebDAV := boundWebDAV w; initial := initial w;
     nextToken := nextToken w; diskOk := diskOk w |}.

Definition withConf (w : World) (e : bool) (l : string) : World :=
  {| store := store w; confEnable := e; confListen := l;
     storeError := storeError w; boundItems := boundItems w;
     boundWebDAV := boundWebDAV w; initial := initial w;
     nextToken := nextToken w; diskOk := diskOk w |}.

Fixpoint find (key : string) (s : list SettingItem) : option SettingItem :=
  match s with
  | [] => None
  | item :: r => if String.eqb (Key item) key then Some item else find key r
  end.

Definition save (item : SettingItem) (s : list SettingItem) : list SettingItem :=
  item :: filter (fun i => negb (String.eqb (Key i) (Key item))) s.

Definition saveAll (items : list SettingItem) (s : list SettingItem) : list SettingItem :=
  fold_left (fun acc item => save item acc) items s.

Definition notFound : error := LibError true "record not found".

Definition handle (R : Type) (op : Op R) (w : World) : R * World :=
  match op in Op R return R * World with
  | random_Token => (nextToken w, w)
  | op_SaveSettingItem item =>
      match storeError w with
      | Some e => (Some e, w)
      | None => (None, withStore w (save item (store w)))
      end
  | op_SaveSettingItems items =>
      match storeError w with
      | Some e => (Some e, w)
      | None => (None, withStore w (saveAll items (store w)))
      end
  | op_GetSettingItemByKey key =>
      match find key (store w) with
      | Some item => ((Some item, None), w)
      | None => ((None, Some notFound), w)
      end
  | op_GetSettingItemInKeys keys =>
      ((filter (fun i => existsb (String.eqb (Key i)) keys) (store w), None), w)
  | op_GetSettingItems => ((store w, None), w)
  | op_GetSettingItemsInGroups groups =>
      ((filter (fun i => existsb (Z.eqb (Group i)) groups) (store w), None), w)
  | op_DeleteSettingItemByKey key =>
      (None, withStore w (filter (fun i => negb (String.eqb (Key i) key)) (store w)))
  | op_GetPublicSettingsMap =>
      (map (fun i => (Key i, Value i)) (filter (fun i => Flag i =? 0) (store w)), w)
  | data_InitialSettings => (initial w, w)
  | sign_Instance => (tt, w)
  | static_UpdateIndex => (tt, w)
  | c_ShouldBindItems => (boundItems w, w)
  | c_ShouldBindWebDAV => (boundWebDAV w, w)
  | conf_WebDAV_Enable => (confEnable w, w)
  | conf_WebDAV_Listen => (confListen w, w)
  | conf_SetWebDAV_Enable b => (tt, withConf w b (confListen w))
  | conf_SetWebDAV_Listen s => (tt, withConf w (confEnable w) s)
  | utils_WriteJsonToFile _ => (diskOk w, w)
  | log_Errorf _ => (tt, w)
  | respond _ => (tt, w)
  end.

Definition item (key value : string) (group : Z) : SettingItem :=
  {| Key := key; Value := value; Type_ := "string"; Group := group; Flag := 0; Index := 0 |}.

(** Four initial settings in groups 1, 2, 1, 3; an empty store; a request
    body that enables WebDAV on port 5288. *)
Definition world0 : World := {|
  store := [];
  confEnable := false;
  confListen := "";
  storeError := None;
  boundItems := Ok [item "site_title" "OpenList" 1];
  boundWebDAV := Ok (true, ":5288");
  initial := [item "site_title" "OpenList" 1; item "logo" "logo.svg" 2;
              item "announcement" "" 1; item "default_page_size" "30" 3];
  nextToken := "token-1";
  diskOk := false
|}.

(** A request with the given query parameters. *)
Definition request (query : list (string * string)) : Request :=
  {| Query := fun k => match Sim.lookupFile query k with Some v => v | None => "" end |}.

End SimSettings.

(** ** More concrete outsides *)

Module SimMore.

(** Both extractions fail and [ffprobe] fails too. *)
Definition worldProbeFails : Sim.World :=
{| Sim.objects := Sim.objects Sim.worldBothFail;
   Sim.files := Sim.files Sim.worldBothFail;
   Sim.coverResult := Sim.coverResult Sim.worldBothFail;
   Sim.probeResult := Sim.exitFail "Invalid data found when processing input";
   Sim.frameResult := Sim.frameResult Sim.worldBothFail;
   Sim.produced := Sim.produced Sim.worldBothFail;
   Sim.makeDirError := Sim.makeDirError Sim.worldBothFail;
   Sim.putError := Sim.putError Sim.worldBothFail;
   Sim.removeError := Sim.removeError Sim.worldBothFail;
   Sim.bodyLeft := Sim.bodyLeft Sim.worldBothFail;
   Sim.formFile := Sim.formFile Sim.worldBothFail;
   Sim.clock := Sim.clock Sim.worldBothFail |}.

(** The settings store after [SetWebDAV] ran on the request body of
    [SimSettings.world0]. *)
Definition webdavSaved : SimSettings.World :=
Settings.worldOf SimSettings.handle
  (Settings.SetWebDAV (SimSettings.request [])) SimSettings.world0.

(** A settings store that refuses every write. *)
Definition worldStoreFails : SimSettings.World :=
{| SimSettings.store := SimSettings.store SimSettings.world0;
   SimSettings.confEnable := SimSettings.confEnable SimSettings.world0;
   SimSettings.confListen := SimSettings.confListen SimSettings.world0;
   SimSettings.storeError := Some (LibError false "database is locked");
   SimSettings.boundItems := SimSettings.boundItems SimSettings.world0;
   SimSettings.boundWebDAV := SimSettings.boundWebDAV SimSettings.world0;
   SimSettings.initial := SimSettings.initial SimSettings.world0;
   SimSettings.nextToken := SimSettings.nextToken SimSettings.world0;
   SimSettings.diskOk := SimSettings.diskOk SimSettings.world0 |}.

End SimMore.

(** ** Facts about runs *)

Arguments String.eqb : simpl never.
Arguments String.append : simpl never.
Arguments Nat.eqb : simpl never.
Arguments Z.eqb : simpl never.
Arguments Z.leb : simpl never.

(** Symbolic execution of a run against handler [h]: name the answer of the
    next operation, split the values the program branches on. *)
Ltac crunch h :=
  repeat (simpl;
    match goal with
    | |- context [h ?R ?op ?w] =>
        let r := fresh "r" in
        let w' := fresh "w" in
        let E := fresh "E" in
        destruct (h R op w) as [r w'] eqn:E
    | |- context [match ?x with _ => _ end] =>
        is_var x; destruct x
    | |- context [match ?x with _ => _ end] =>
        lazymatch x with
        | context [h] => fail
        | _ => let E := fresh "E" in destruct x eqn:E
        end
    end);
  repeat match goal with u : unit |- _ => destruct u end;
  simpl.

Section RunFacts.

Context {L : GoLib}.
Variable W : Type.
Variable handle : forall R : Type, Op R -> W -> R * W.

Lemma run_bind (A B : Type) (p : prog A) (f : A -> prog B) (w : W) :
  run handle (bind p f) w =
  match run handle p w with
  | (Done a, w1, t1) =>
      let '(o, w2, t2) := run handle (f a) w1 in (o, w2, (t1 ++ t2)%list)
  | (Panicked msg, w1, t1) => (Panicked msg, w1, t1)
  end.
Proof.
  revert w. induction p as [a | msg | R op k IH]; intros w; simpl.
  - destruct (run handle (f a) w) as [[o w2] t2]. reflexivity.
  - reflexivity.
  - destruct (handle R op w) as [r w1]. rewrite IH.
    destruct (run handle (k r) w1) as [[[a | msg] w2] t1].
    + destruct (run handle (f a) w2) as [[o w3] t2]. reflexivity.
    + reflexivity.
Qed.

Lemma run_defer (A : Type) (cleanup : prog unit) (body : prog A) (w : W) :
  run handle (defer cleanup body) w =
  let '(o, w1, t1) := run handle body w in
  let '(oc, w2, t2) := run handle cleanup w1 in
  (match oc with Done _ => o | Panicked msg => Panicked msg end, w2, (t1 ++ t2)%list).
Proof.
  revert w. induction body as [a | msg | R op k IH]; intros w; simpl.
  - rewrite run_bind.
    destruct (run handle cleanup w) as [[[u | m] w2] t2]; simpl;
      rewrite ?app_nil_r; reflexivity.
  - rewrite run_bind.
    destruct (run handle cleanup w) as [[[u | m] w2] t2]; simpl;
      rewrite ?app_nil_r; reflexivity.
  - destruct (handle R op w) as [r w1]. rewrite IH.
    destruct (run handle (k r) w1) as [[o w2] t1].
    destruct (run handle cleanup w2) as [[oc w3] t2]. reflexivity.
Qed.

Lemma execsOf_app (t1 t2 : list Event) :
  execsOf (t1 ++ t2) = (execsOf t1 ++ execsOf t2)%list.
Proof.
  induction t1 as [| e t1 IH]; simpl; [reflexivity |].
  destruct (execOf e); simpl; rewrite IH; reflexivity.
Qed.

Lemma spawnsOf_app (t1 t2 : list Event) :
  spawnsOf (t1 ++ t2) = (spawnsOf t1 ++ spawnsOf t2)%list.
Proof.
  induction t1 as [| e t1 IH]; simpl; [reflexivity |].
  destruct (spawnOf e); simpl; rewrite IH; reflexivity.
Qed.

(** The drain of the request body never reads through the storage layer
    and never answers the client. *)
Lemma drainBody_trace (w : W) :
  exists n : Z,
    traceOf handle drainBody w =
    (Ev body_ReadFull1 n
       :: (if n =? 1 then [Ev body_Discard tt] else []) ++ [Ev body_Close tt])%list.
Proof.
  unfold traceOf, drainBody. crunch handle; exists r; rewrite E0; reflexivity.
Qed.

Lemma overwriteOf_false (c : Request) :
  overwriteOf c = false <-> GetHeader c "Overwrite" = "false".
Proof.
  unfold overwriteOf. rewrite Bool.negb_false_iff. apply String.eqb_eq.
Qed.

Lemma CombinedOutput_failed (state stdout stderr combined : string) :
  CombinedOutput (ProcExited false state stdout stderr combined)
  = (combined, Some (ExitError state "")).
Proof. reflexivity. Qed.

Lemma CombinedOutput_not_started (msg : string) :
  CombinedOutput (ProcStartFailed msg) = ("", Some (StartError msg)).
Proof. reflexivity. Qed.

Lemma Output_failed (state stdout stderr combined : string) :
  Output (ProcExited false state stdout stderr combined)
  = (stdout, Some (ExitError state stderr)).
Proof. reflexivity. Qed.


Lemma Output_not_started (msg : string) :
  Output (ProcStartFailed msg) = ("", Some (StartError msg)).
Proof. reflexivity. Qed.


End RunFacts.

Opaque GoStrings.Split GoStrings.Join GoStrings.HasPrefix formatTime seekTime
  CombinedOutput Output targetThumbDirOf targetThumbNameOf targetThumbPathOf
  hashesOf overwriteOf asTaskOf.

(** ** The upload handlers *)

Section IngressFacts.

Context {L : GoLib}.
Variable W : Type.
Variable handle : forall R : Type, Op R -> W -> R * W.

(** [FsStream]: when the single storage write of the upload succeeds and
    the stream's MIME type starts with [video/], exactly one goroutine is
    started, [generateVideoThumbnail] on [context.Background()] with the
    resolved path and the principal. *)
Lemma FsStream_schedules_thumbnail (c : Request) (w : W) (dir : string) (s : FileStream) :
  okWritesOf (traceOf handle (FsStream c) w) = [(dir, s)] ->
  GoStrings.HasPrefix (fs_Mimetype s) "video/" = true ->
  exists (path : string) (user : User),
    ctxUser c = Some user /\
    GoStrings.Split path = (dir, Name (fs_Obj s)) /\
    spawnsOf (traceOf handle (FsStream c) w)
    = [GoGenerateVideoThumbnail Background path user].
Proof.
  unfold traceOf, FsStream, drainBody, putStream, getLastModified.
  crunch handle; intros Hw Hv; try discriminate Hw;
    injection Hw as <- <-; simpl in Hv;
    try (rewrite Hv in *; discriminate);
    eexists; eexists; (split; [reflexivity | split; [eassumption | reflexivity]]).
Qed.

(** [FsForm] starts no goroutine, whatever the request and the outside. *)
Lemma FsForm_never_schedules (c : Request) (w : W) :
  spawnsOf (traceOf handle (FsForm c) w) = [].
Proof.
  unfold traceOf, FsForm, drainBody, putStream, getLastModified.
  crunch handle; reflexivity.
Qed.

(** C8. In both handlers, when the path resolves, overwrite is disabled
    and [fs.Get] finds an object at the resolved path, the handler answers
    [ErrorStrResp "file exists" 403] and nothing else, the run ends
    normally, and no operation that reads the upload content is performed:
    after the response only the deferred drain-and-close of the request
    body runs. *)
Theorem ingest_existing_without_overwrite
        (c : Request) (w w1 : W) (path0 path : string) (user : User)
        (obj : Obj) (err : option error) :
  PathUnescape (GetHeader c "File-Path") = Ok path0 ->
  ctxUser c = Some user ->
  JoinPath user path0 = Ok path ->
  overwriteOf c = false ->
  handle _ (fs_Get RequestContext path) w = ((Some obj, err), w1) ->
  forall handler : Request -> prog unit,
    handler = FsStream \/ handler = FsForm ->
    outcomeOf handle (handler c) w = Done tt /\
    responsesOf (traceOf handle (handler c) w) = [ErrorStrResp "file exists" 403] /\
    forallb (fun e => negb (consumesContent e)) (traceOf handle (handler c) w) = true /\
    traceOf handle (handler c) w
    = (Ev (fs_Get RequestContext path) (Some obj, err)
         :: Ev (respond (ErrorStrResp "file exists" 403)) tt
         :: traceOf handle drainBody
              (snd (handle _ (respond (ErrorStrResp "file exists" 403)) w1)))%list.
Proof.
  intros Hp Hu Hj Ho Hg handler [-> | ->];
    unfold outcomeOf, traceOf, FsStream, FsForm, drainBody;
    rewrite Hp, Hu, Hj, Ho; simpl; rewrite Hg;
    crunch handle; repeat split; reflexivity.
Qed.

(** C10. In both handlers the overwrite flag is false exactly when the
    [Overwrite] header is the string [false]; with any other value, or no
    header, the handler never looks the destination up and never answers
    [file exists]. *)
Theorem overwrite_defaults_enabled (c : Request) (w : W) :
  (overwriteOf c = false <-> GetHeader c "Overwrite" = "false") /\
  (GetHeader c "Overwrite" <> "false" ->
   forall handler : Request -> prog unit,
     handler = FsStream \/ handler = FsForm ->
     forallb (fun e => negb (isStorageGet e)) (traceOf handle (handler c) w) = true /\
     ~ In (ErrorStrResp "file exists" 403) (responsesOf (traceOf handle (handler c) w))).
Proof.
  split; [apply overwriteOf_false |].
  intros Hh handler Hc.
  assert (Ho : overwriteOf c = true).
  { destruct (overwriteOf c) eqn:E; [reflexivity |].
    apply overwriteOf_false in E. contradiction. }
  destruct Hc as [-> | ->];
    unfold traceOf, FsStream, FsForm, drainBody, putStream, getLastModified;
    rewrite Ho; crunch handle;
    (split; [reflexivity | simpl; intuition congruence]).
Qed.


End IngressFacts.

(** ** The codec invocation adapter and the artifact validator *)

Section ToolFacts.

Context {L : GoLib}.
Variable W : Type.
Variable handle : forall R : Type, Op R -> W -> R * W.

(** C6. [validateWebPFile] only opens [path] and stats, decodes and closes
    the opened file. When the file opens and its size is known, the result
    is the empty-file error for a size of zero (or less), the decoding
    error when [image.Decode] rejects the bytes, and [nil] when it accepts
    them. *)
Theorem validateWebPFile_contract (path : string) (w : W) :
  forallb (readsOnly path) (traceOf handle (validateWebPFile path) w) = true /\
  (forall (f : File) (w1 : W) (size : Z) (w2 : W) (d : option error) (w3 : W),
      handle _ (os_Open path) w = (Ok f, w1) ->
      handle _ (file_Stat f) w1 = (Ok size, w2) ->
      handle _ (image_Decode f) w2 = (d, w3) ->
      outcomeOf handle (validateWebPFile path) w
      = Done (if size <=? 0 then Some (Errorf "文件为空")
              else match d with
                   | Some e => Some (ErrorfW ("WebP解码失败: " ++ Error e) e)
                   | None => None
                   end)).
Proof.
  split.
  - unfold traceOf, validateWebPFile. crunch handle;
      rewrite ?String.eqb_refl; reflexivity.
  - intros f w1 size w2 d w3 Ho Hs Hd.
    unfold outcomeOf, validateWebPFile. simpl. rewrite Ho. simpl. rewrite Hs.
    destruct (size <=? 0) eqn:Hz; simpl.
    + crunch handle. reflexivity.
    + rewrite Hd. crunch handle; reflexivity.
Qed.

(** What an error holds of a text: the empty [Stderr] of the error of
    [CombinedOutput] adds nothing to the exit state, and every text is
    found in itself. *)
Lemma contains_refl (s : string) : contains s s = true.
Proof.
  assert (Hp : String.prefix s s = true).
  { induction s as [| c s IH]; simpl; [reflexivity |].
    destruct (ascii_dec c c); [exact IH | contradiction]. }
  destruct s; simpl in *; [reflexivity |]. rewrite Hp. reflexivity.
Qed.

Lemma carries_exit_no_stderr (state text : string) :
  carries (ExitError state "") text = contains text state.
Proof.
  simpl. destruct text as [| c text].
  - destruct state; reflexivity.
  - simpl. apply orb_false_r.
Qed.

(** C9, amended. When an external tool fails (the process does not start
    or exits unsuccessfully), [extractVideoCover] and the frame extraction
    of [extractVideoFrameAtPercentage] log the combined output and return
    the error of the process itself; [getVideoDuration] returns the error
    of the process and logs nothing, and [extractVideoFrameAtPercentage]
    turns it into a new error made of a fixed prefix and that error's text.
    The error of the process is, after a failed exit, an [ExitError] whose
    [Stderr] is empty for [CombinedOutput] and holds the standard error for
    [Output], and after a failed start the start error, with no output
    captured. So the error of a failed [ffmpeg] holds no text but that of
    the exit state; the error of a failed [ffprobe] holds its standard
    error; and the new error made from it holds the prefix and the exit
    state only. *)
Theorem tool_failure_returns_process_error
        (ctx : Ctx) (videoPath outputPath : string) (percentage : float) (w : W) :
  (forall (r : ProcResult) (w1 : W) (out : string) (e : error),
      handle _ (exec_Run ctx "ffmpeg" (coverCommand videoPath outputPath)) w = (r, w1) ->
      CombinedOutput r = (out, Some e) ->
      outcomeOf handle (extractVideoCover ctx videoPath outputPath) w = Done (Some e) /\
      logsOf (traceOf handle (extractVideoCover ctx videoPath outputPath) w)
      = [LogFFmpegCoverOutput out]) /\
  (forall (r : ProcResult) (w1 : W) (out : string) (e : error),
      handle _ (exec_Run ctx "ffprobe" (probeCommand videoPath)) w = (r, w1) ->
      Output r = (out, Some e) ->
      outcomeOf handle (getVideoDuration ctx videoPath) w = Done (Err e) /\
      logsOf (traceOf handle (getVideoDuration ctx videoPath) w) = [] /\
      outcomeOf handle (extractVideoFrameAtPercentage ctx videoPath outputPath percentage) w
      = Done (Some (Errorf ("获取视频时长失败: " ++ Error e)))) /\
  (forall (r : ProcResult) (w1 : W) (out : string) (duration : float)
          (r2 : ProcResult) (w2 : W) (out2 : string) (e : error),
      handle _ (exec_Run ctx "ffprobe" (probeCommand videoPath)) w = (r, w1) ->
      Output r = (out, None) ->
      ParseFloat (TrimSpace out) = Ok duration ->
      handle _ (exec_Run ctx "ffmpeg"
                  (frameCommand (formatTime intConvUnspec (seekTime duration percentage))
                     videoPath outputPath)) w1 = (r2, w2) ->
      CombinedOutput r2 = (out2, Some e) ->
      outcomeOf handle (extractVideoFrameAtPercentage ctx videoPath outputPath percentage) w
      = Done (Some e) /\
      logsOf (traceOf handle
                (extractVideoFrameAtPercentage ctx videoPath outputPath percentage) w)
      = [LogFFmpegFrameOutput out2]) /\
  (forall state stdout stderr combined : string,
      CombinedOutput (ProcExited false state stdout stderr combined)
      = (combined, Some (ExitError state ""))) /\
  (forall state stdout stderr combined : string,
      Output (ProcExited false state stdout stderr combined)
      = (stdout, Some (ExitError state stderr))) /\
  (forall msg : string,
      CombinedOutput (ProcStartFailed msg) = ("", Some (StartError msg)) /\
      Output (ProcStartFailed msg) = ("", Some (StartError msg))) /\
  (forall state stderr text : string,
      carries (ExitError state "") text = contains text state /\
      carries (ExitError state stderr) stderr = true /\
      carries (Errorf ("获取视频时长失败: " ++ Error (ExitError state stderr))) text
      = contains text ("获取视频时长失败: " ++ state)).
Proof.
  unfold coverCommand, coverOptions, frameCommand, frameOptions, probeCommand.
  simpl. split; [| split; [| split; [| split; [| split; [| split]]]]].
  - intros r w1 out e He Hc.
    unfold outcomeOf, traceOf, extractVideoCover. simpl. rewrite He, Hc.
    crunch handle. split; reflexivity.
  - intros r w1 out e He Hc.
    unfold outcomeOf, traceOf, extractVideoFrameAtPercentage, getVideoDuration.
    simpl. rewrite He, Hc. simpl. repeat split; reflexivity.
  - intros r w1 out duration r2 w2 out2 e He Hc Hp He2 Hc2.
    unfold outcomeOf, traceOf, extractVideoFrameAtPercentage, getVideoDuration.
    simpl. rewrite He, Hc, Hp. simpl. rewrite He2, Hc2.
    crunch handle. split; reflexivity.
  - intros. apply CombinedOutput_failed.
  - intros. apply Output_failed.
  - intros msg. split; [apply CombinedOutput_not_started | apply Output_not_started].
  - intros state stderr text. split; [| split].
    + apply carries_exit_no_stderr.
    + change (contains stderr state || contains stderr stderr = true).
      rewrite contains_refl. apply orb_true_r.
    + reflexivity.
Qed.

End ToolFacts.

(** ** The derivation orchestrator *)

Section OrchestratorFacts.

Context {L : GoLib}.
Variable W : Type.
Variable handle : forall R : Type, Op R -> W -> R * W.

(** C3. When the lookup of the derived target
    ([.thumbnails/<base name>.webp] beside the source) finds an object,
    [generateVideoThumbnail] runs no external command, creates no temporary
    file and writes nothing to storage; when moreover the source itself
    resolves to a non-empty path, the run ends normally after three
    operations (the two lookups and one log line) and the only line logged
    says that the thumbnail exists and generation is skipped. *)
Theorem existing_thumbnail_short_circuits
        (ctx : Ctx) (filePath : string) (user : User) (w : W) (thumb : Obj) :
  fst (handle _ (fs_Get ctx (targetThumbPathOf filePath))
         (snd (handle _ (fs_Get ctx filePath) w))) = (Some thumb, None) ->
  let tr := traceOf handle (generateVideoThumbnail ctx filePath user) w in
  execsOf tr = [] /\
  stagedOf tr = [] /\
  noStorageWrite tr = true /\
  (forall obj : Obj,
      fst (handle _ (fs_Get ctx filePath) w) = (Some obj, None) ->
      GetPath obj <> "" ->
      outcomeOf handle (generateVideoThumbnail ctx filePath user) w = Done tt /\
      logsOf tr = [LogThumbExistsSkip (targetThumbPathOf filePath)] /\
      List.length tr = 3%nat).
Proof.
  unfold outcomeOf, traceOf, generateVideoThumbnail, checkFileExists.
  destruct (handle _ (fs_Get ctx filePath) w) as [[o e] w1] eqn:E1. simpl.
  destruct (handle _ (fs_Get ctx (targetThumbPathOf filePath)) w1) as [r w2] eqn:E2.
  simpl. intros ->. rewrite E1.
  destruct e as [e |]; [| destruct o as [obj |]]; simpl.
  - crunch handle. repeat split; try reflexivity; discriminate.
  - destruct (String.eqb (GetPath obj) "") eqn:Hp; simpl.
    + crunch handle. apply String.eqb_eq in Hp.
      repeat split; try reflexivity; exfalso; congruence.
    + rewrite E2. crunch handle. repeat split; reflexivity.
  - repeat split; try reflexivity; discriminate.
Qed.

(** The validator writes nothing to storage. *)
Lemma validateWebPFile_no_write (path : string) (w : W) :
  noStorageWrite (traceOf handle (validateWebPFile path) w) = true.
Proof.
  unfold traceOf, validateWebPFile. crunch handle; reflexivity.
Qed.

(** From validation on: the trace starts with the validator's, and what
    follows writes to storage only if the validator returned [nil], and
    then only the file it opened under the staged name. *)
Lemma publishStaged_after_validation
      (ctx : Ctx) (p tdir tname tpath : string) (w1 : W) :
  exists rest : list Event,
    traceOf handle (publishStaged ctx p tdir tname tpath) w1
    = (traceOf handle (validateWebPFile p) w1 ++ rest)%list /\
    noStorageWrite (traceOf handle (validateWebPFile p) w1) = true /\
    (outcomeOf handle (validateWebPFile p) w1 = Done None \/ noStorageWrite rest = true) /\
    (forall r : Reader,
        In r (putReadersOf rest) ->
        exists f : File, r = LocalFile f /\ In (p, f) (openedOf rest)).
Proof.
  pose proof (validateWebPFile_no_write p w1) as Hv.
  unfold outcomeOf, traceOf, publishStaged in *. rewrite run_bind.
  destruct (run handle (validateWebPFile p) w1) as [[[[e |] | msg] w2] tv];
    simpl in Hv; unfold MakeDir;
    crunch handle.
  all: eexists.
  all: (split; [try reflexivity | split; [exact Hv | split]]).
  all: try (rewrite app_nil_r; reflexivity).
  all: try (right; reflexivity).
  all: try (left; reflexivity).
  all: simpl; try contradiction.
  all: intros rd [<- | []]; eexists; split; [reflexivity | left; reflexivity].
Qed.


(** C4. In every run of [generateVideoThumbnail], the files removed by
    [os.Remove] are exactly the temporary files created, in all exits taken
    after the creation; nothing but logging follows the removal; and
    whenever [os.Remove] returning [nil] means that the file is gone, the
    staged file is absent from the final state of every run whose removal
    returned [nil]. *)
Theorem staged_file_removed_on_every_exit
        (ctx : Ctx) (filePath : string) (user : User) (w : W) :
  let tr := traceOf handle (generateVideoThumbnail ctx filePath user) w in
  map fst (removesOf tr) = stagedOf tr /\
  forallb isLog (afterRemove tr) = true /\
  (forall present : W -> string -> bool,
      (forall (w0 : W) (p : string) (w' : W),
          handle _ (os_Remove p) w0 = (None, w') -> present w' p = false) ->
      forall p : string,
        In (p, None) (removesOf tr) ->
        present (worldOf handle (generateVideoThumbnail ctx filePath user) w) p = false).
Proof.
  unfold worldOf, traceOf, generateVideoThumbnail, checkFileExists, removeTemp,
    extractAndPublish, publishStaged, extractVideoCover, extractVideoFrameAtPercentage,
    getVideoDuration, validateWebPFile, MakeDir.
  crunch handle;
    (split; [reflexivity | split; [reflexivity |]]);
    intros present Hrm p Hin; simpl in Hin;
    try contradiction;
    destruct Hin as [Hin | []]; try discriminate Hin;
    injection Hin as <-; eapply Hrm; eassumption.
Qed.



Opaque publishStaged.

(** The two extraction attempts write nothing to storage: a write of
    [extractAndPublish] lies in the run of [publishStaged] that ends it. *)
Lemma extractAndPublish_writes_in_publish
      (ctx : Ctx) (v p tdir tname tpath : string) (w : W) :
  noStorageWrite (traceOf handle (extractAndPublish ctx v p tdir tname tpath) w) = true
  \/ exists (pre : list Event) (w1 : W),
      traceOf handle (extractAndPublish ctx v p tdir tname tpath) w
      = (pre ++ traceOf handle (publishStaged ctx p tdir tname tpath) w1)%list /\
      noStorageWrite pre = true /\
      stagedOf pre = [].
Proof.
  unfold traceOf, extractAndPublish, extractVideoCover, extractVideoFrameAtPercentage,
    getVideoDuration.
  crunch handle.
  all: try (left; reflexivity).
  all: right;
    match goal with
    | |- context [run handle (publishStaged ?c ?q ?d ?n ?tp) ?wk] =>
        destruct (run handle (publishStaged c q d n tp) wk) as [[oq wr] t] eqn:Er;
        simpl;
        first [ exists [], wk; rewrite Er; repeat split; reflexivity
              | eexists [_], wk; rewrite Er; repeat split; reflexivity
              | eexists [_; _], wk; rewrite Er; repeat split; reflexivity
              | eexists [_; _; _], wk; rewrite Er; repeat split; reflexivity
              | eexists [_; _; _; _], wk; rewrite Er; repeat split; reflexivity
              | eexists [_; _; _; _; _], wk; rewrite Er; repeat split; reflexivity
              | eexists [_; _; _; _; _; _], wk; rewrite Er; repeat split; reflexivity ]
    end.
Qed.

Opaque extractAndPublish.

(** C5. A run of [generateVideoThumbnail] writes to storage only inside
    the run of [publishStaged] on the staged file: nothing before it and
    nothing after it writes. That run starts with the validator's run on
    the staged file, which writes nothing; what follows it writes only when
    the validator returned [nil], and every stream given to
    [fs.PutDirectly] reads the file opened under the staged name. *)
Theorem publish_only_after_validation
        (ctx : Ctx) (filePath : string) (user : User) (w : W) :
  let tr := traceOf handle (generateVideoThumbnail ctx filePath user) w in
  let tdir := targetThumbDirOf filePath in
  let tname := targetThumbNameOf filePath in
  let tpath := targetThumbPathOf filePath in
  (noStorageWrite tr = true
   \/ exists (pre : list Event) (p : string) (w1 : W) (post : list Event),
       tr = (pre ++ traceOf handle (publishStaged ctx p tdir tname tpath) w1 ++ post)%list /\
       stagedOf pre = [p] /\
       noStorageWrite pre = true /\
       noStorageWrite post = true) /\
  (forall (p : string) (w1 : W),
      exists rest : list Event,
        traceOf handle (publishStaged ctx p tdir tname tpath) w1
        = (traceOf handle (validateWebPFile p) w1 ++ rest)%list /\
        noStorageWrite (traceOf handle (validateWebPFile p) w1) = true /\
        (outcomeOf handle (validateWebPFile p) w1 = Done None
         \/ noStorageWrite rest = true) /\
        (forall r : Reader,
            In r (putReadersOf rest) ->
            exists f : File, r = LocalFile f /\ In (p, f) (openedOf rest))).
Proof.
  split; [| intros p w1; apply publishStaged_after_validation].
  unfold traceOf, generateVideoThumbnail, checkFileExists, removeTemp.
  crunch handle.
  all: try (left; reflexivity).
  all: rewrite run_defer;
    match goal with
    | |- context [run handle (extractAndPublish ?c ?v ?q ?d ?n ?tp) ?wk] =>
        destruct (extractAndPublish_writes_in_publish c v q d n tp wk)
          as [Hn | (pre & wq & Ht & Hpre & Hst)];
        unfold traceOf in *;
        destruct (run handle (extractAndPublish c v q d n tp) wk) as [[oq wr] t] eqn:Er
    end;
    simpl in *; crunch handle.
  all: try (left; unfold noStorageWrite in *; rewrite forallb_app, Hn; reflexivity).
  all: right; subst t;
    match goal with
    | |- exists _ _ _ _,
        (?e1 :: ?e2 :: ?e3 :: ?e4 :: ?e5
           :: (?pr ++ snd (run handle (publishStaged _ ?q _ _ _) ?wp)) ++ ?post)%list = _ /\ _ =>
        exists (e1 :: e2 :: e3 :: e4 :: e5 :: pr), q, wp, post
    end;
    simpl; rewrite <- app_assoc, Hst;
    (split; [reflexivity | split; [reflexivity | split; [assumption | reflexivity]]]).
Qed.


End OrchestratorFacts.


Transparent GoStrings.Split GoStrings.Join GoStrings.HasPrefix formatTime seekTime
  CombinedOutput Output targetThumbDirOf targetThumbNameOf targetThumbPathOf
  hashesOf overwriteOf asTaskOf publishStaged extractAndPublish.

(** ** Paths and times on concrete inputs *)

Example Split_movie :
  GoStrings.Split "/videos/movie.mp4" = ("/videos/", "movie.mp4").
Proof. reflexivity. Qed.

Example Split_no_slash : GoStrings.Split "movie.mp4" = ("", "movie.mp4").
Proof. reflexivity. Qed.

Example Ext_movie : GoStrings.Ext "movie.tar.mp4" = ".mp4".
Proof. reflexivity. Qed.

Example Ext_none : GoStrings.Ext "a.b/movie" = "".
Proof. reflexivity. Qed.

Example Join_thumbs : GoStrings.Join "/videos/" ".thumbnails" = "/videos/.thumbnails".
Proof. reflexivity. Qed.

Example Join_root : GoStrings.Join "/" ".thumbnails" = "/.thumbnails".
Proof. reflexivity. Qed.

Example Clean_dotdot : GoStrings.Clean "/a/b/../c/./d//" = "/a/c/d".
Proof. reflexivity. Qed.

Example Clean_rel_dotdot : GoStrings.Clean "../../a/.." = "../..".
Proof. reflexivity. Qed.

Example targetThumbPathOf_movie :
  targetThumbPathOf "/videos/movie.mp4" = "/videos/.thumbnails/movie.webp".
Proof. reflexivity. Qed.

Example targetThumbPathOf_no_extension :
  targetThumbPathOf "/videos/movie" = "/videos/.thumbnails/movie.webp".
Proof. reflexivity. Qed.

Example targetThumbPathOf_two_dots :
  targetThumbPathOf "/a/b.c/clip.tar.mkv" = "/a/b.c/.thumbnails/clip.tar.webp".
Proof. reflexivity. Qed.

Example formatTime_negative :
  formatTime (fun _ => 0) (-1.5)%float = "00:00:-1.500".
Proof. vm_compute. reflexivity. Qed.

Example formatTime_rounds_up_to_sixty :
  formatTime (fun _ => 0) (599996 / 10000)%float = "00:00:60.000".
Proof. vm_compute. reflexivity. Qed.

Example formatTime_hours_do_not_wrap :
  formatTime (fun _ => 0) 360000%float = "100:00:00.000".
Proof. vm_compute. reflexivity. Qed.

(** C7, the vector as the claim states it: formatting 3725.5 seconds does not
    give [01:02:05.000], neither directly nor as the seek offset at 0% of a
    3725.5-second duration. *)
Lemma formatTime_spec_vector_fails :
  formatTime (fun _ => 0) 3725.5%float <> "01:02:05.000" /\
  formatTime (fun _ => 0) (seekTime 3725.5 0)%float <> "01:02:05.000".
Proof. split; vm_compute; discriminate. Qed.

(** C7, amended. [formatTime] prints the fraction of the seconds: 3725.5
    seconds give [01:02:05.500], and the seek offset at 0% of a 3725.5-second
    duration gives [00:00:00.000]; at 3% of a 100-second duration the seek
    time is exactly 3 seconds and gives [00:00:03.000]. *)
Theorem formatTime_vectors (unspec : float -> Z) :
  formatTime unspec 3725.5%float = "01:02:05.500" /\
  formatTime unspec (seekTime 3725.5 0)%float = "00:00:00.000" /\
  seekTime 100 3.0 = 3.0%float /\
  formatTime unspec (seekTime 100 3.0)%float = "00:00:03.000".
Proof. repeat split; vm_compute; reflexivity. Qed.

(** ** The handlers on concrete requests *)

(** C1, at a failing input. A multipart upload of a [video/mp4] file through
    [FsForm] is written to storage and answered with success, and no
    goroutine is started; the same upload through [FsStream] starts
    [generateVideoThumbnail] on [context.Background()]. *)
Theorem FsForm_video_upload_starts_no_thumbnail :
  let form := traceOf Sim.handle (FsForm Sim.reqPlain) Sim.world0 in
  let stream := traceOf Sim.handle (FsStream Sim.reqVideoStream) Sim.world0 in
  map (fun x => (fst x, Name (fs_Obj (snd x)), fs_Mimetype (snd x))) (okWritesOf form)
  = [("/videos/", "clip.mp4", "video/mp4")] /\
  responsesOf form = [SuccessResp] /\
  spawnsOf form = [] /\
  map (fun x => (fst x, Name (fs_Obj (snd x)), fs_Mimetype (snd x))) (okWritesOf stream)
  = [("/videos/", "clip.mp4", "video/mp4")] /\
  responsesOf stream = [SuccessResp] /\
  spawnsOf stream = [GoGenerateVideoThumbnail Background "/videos/clip.mp4" Sim.principal].
Proof. repeat split; reflexivity. Qed.

(** C9, as the claim states it: [ffmpeg] exits unsuccessfully after printing
    [moov atom not found]; the error [extractVideoCover] returns is the exit
    error, which carries none of that output. *)
Lemma extract_error_lacks_output :
  let cover := extractVideoCover Background Sim.movie Sim.staged in
  CombinedOutput (Sim.coverResult Sim.worldCoverFails)
  = ("moov atom not found", Some (ExitError "exit status 1" "")) /\
  outcomeOf Sim.handle cover Sim.worldCoverFails
  = Done (Some (ExitError "exit status 1" "")) /\
  carries (ExitError "exit status 1" "") "moov atom not found" = false /\
  logsOf (traceOf Sim.handle cover Sim.worldCoverFails)
  = [LogFFmpegCoverOutput "moov atom not found"].
Proof. repeat split; reflexivity. Qed.

(** ** The theorems at concrete runs *)

Lemma lookupFile_deleteFile (f : list (string * string)) (name : string) :
  Sim.lookupFile (Sim.deleteFile f name) name = None.
Proof.
  induction f as [| [n bytes] f IH]; simpl; [reflexivity |].
  destruct (String.eqb n name) eqn:E; simpl; [exact IH |].
  rewrite E. exact IH.
Qed.

(** In the concrete outside, a removal that returns [nil] leaves no file of
    that name. *)
Lemma remove_gone (w0 : Sim.World) (p : string) (w' : Sim.World) :
  Sim.handle _ (os_Remove p) w0 = (None, w') -> Sim.hasFile w' p = false.
Proof.
  simpl. destruct (Sim.removeError w0); [discriminate |].
  destruct (Sim.hasFile w0 p); [| discriminate].
  injection 1 as <-. unfold Sim.hasFile. simpl.
  rewrite lookupFile_deleteFile. reflexivity.
Qed.


(** The movie whose thumbnail is already published: no command, one log line. *)
Lemma existing_thumbnail_short_circuits_witness :
  let tr := traceOf Sim.handle
              (generateVideoThumbnail Background Sim.movie Sim.principal) Sim.worldWithThumb in
  execsOf tr = [] /\
  logsOf tr = [LogThumbExistsSkip "/videos/.thumbnails/movie.webp"].
Proof.
  destruct (existing_thumbnail_short_circuits Sim.World Sim.handle Background Sim.movie
              Sim.principal Sim.worldWithThumb
              {| GetPath := "/videos/.thumbnails/movie.webp" |} eq_refl)
    as (He & _ & _ & Hs).
  destruct (Hs {| GetPath := Sim.movie |} eq_refl ltac:(discriminate)) as (_ & Hl & _).
  split; assumption.
Defined.

(** The successful run on the movie leaves no staged file behind. *)
Lemma staged_file_removed_on_every_exit_witness :
  Sim.hasFile
    (worldOf Sim.handle (generateVideoThumbnail Background Sim.movie Sim.principal) Sim.world0)
    Sim.staged = false.
Proof.
  apply (proj2 (proj2 (staged_file_removed_on_every_exit Sim.World Sim.handle
                         Background Sim.movie Sim.principal Sim.world0))
           Sim.hasFile remove_gone).
  left. reflexivity.
Defined.

(** A local file with a WebP header passes validation. *)
Lemma validateWebPFile_contract_witness :
  outcomeOf Sim.handle (validateWebPFile "/tmp/thumb.webp") Sim.worldWithFiles = Done None.
Proof.
  exact (proj2 (validateWebPFile_contract Sim.World Sim.handle "/tmp/thumb.webp"
                  Sim.worldWithFiles)
           {| file_Name := "/tmp/thumb.webp" |} Sim.worldWithFiles 16
           Sim.worldWithFiles None Sim.worldWithFiles eq_refl eq_refl eq_refl).
Defined.

(** Uploading over the stored movie with [Overwrite: false] is refused by both handlers. *)
Lemma ingest_existing_without_overwrite_witness :
  responsesOf (traceOf Sim.handle (FsForm Sim.reqNoOverwrite) Sim.world0)
  = [ErrorStrResp "file exists" 403] /\
  responsesOf (traceOf Sim.handle (FsStream Sim.reqNoOverwrite) Sim.world0)
  = [ErrorStrResp "file exists" 403].
Proof.
  pose proof (ingest_existing_without_overwrite Sim.World Sim.handle Sim.reqNoOverwrite
                Sim.world0 Sim.world0 Sim.movie Sim.movie Sim.principal
                {| GetPath := Sim.movie |} None
                eq_refl eq_refl eq_refl eq_refl eq_refl) as H.
  split.
  - exact (proj1 (proj2 (H FsForm (or_intror eq_refl)))).
  - exact (proj1 (proj2 (H FsStream (or_introl eq_refl)))).
Defined.

(** A failed [ffmpeg] run makes [extractVideoCover] return the exit error. *)
Lemma tool_failure_returns_process_error_witness :
  outcomeOf Sim.handle (extractVideoCover Background Sim.movie Sim.staged) Sim.worldCoverFails
  = Done (Some (ExitError "exit status 1" "")).
Proof.
  exact (proj1 (proj1 (tool_failure_returns_process_error Sim.World Sim.handle Background
                         Sim.movie Sim.staged 3.0%float Sim.worldCoverFails)
                  (Sim.exitFail "moov atom not found") Sim.worldCoverFails
                  "moov atom not found" (ExitError "exit status 1" "") eq_refl eq_refl)).
Defined.

(** A plain upload, with no [Overwrite] header, never looks the destination up. *)
Lemma overwrite_defaults_enabled_witness :
  forallb (fun e => negb (isStorageGet e)) (traceOf Sim.handle (FsStream Sim.reqPlain) Sim.world0)
  = true.
Proof.
  refine (proj1 (proj2 (overwrite_defaults_enabled Sim.World Sim.handle Sim.reqPlain Sim.world0)
                   _ FsStream (or_introl eq_refl))).
  simpl. discriminate.
Defined.

(** The validator on the three kinds of file. *)
Example validateWebPFile_empty :
  outcomeOf Sim.handle (validateWebPFile "/tmp/empty.webp") Sim.worldWithFiles
  = Done (Some (Errorf "文件为空")).
Proof. reflexivity. Qed.

Example validateWebPFile_noise :
  exists e : error,
    outcomeOf Sim.handle (validateWebPFile "/tmp/noise.webp") Sim.worldWithFiles
    = Done (Some (ErrorfW ("WebP解码失败: " ++ Error e) e)).
Proof. eexists. reflexivity. Qed.

(** The exits of [generateVideoThumbnail] after staging: what is written to
    storage, and the removal of the staged file. *)
Example exit_success :
  Sim.exitSummary Sim.world0 = (["/videos/.thumbnails"], [(Sim.staged, None)], false).
Proof. reflexivity. Qed.

Example exit_fallback_success :
  Sim.exitSummary Sim.worldCoverFails = (["/videos/.thumbnails"], [(Sim.staged, None)], false).
Proof. reflexivity. Qed.

Example exit_extraction_failure :
  Sim.exitSummary Sim.worldBothFail = ([], [(Sim.staged, None)], false).
Proof. reflexivity. Qed.

Example exit_validation_failure :
  Sim.exitSummary Sim.worldNoise = ([], [(Sim.staged, None)], false).
Proof. reflexivity. Qed.

Example exit_directory_failure :
  Sim.exitSummary Sim.worldMakeDirFails = ([], [(Sim.staged, None)], false).
Proof. reflexivity. Qed.

Example exit_publish_failure :
  Sim.exitSummary Sim.worldPutFails = ([], [(Sim.staged, None)], false).
Proof. reflexivity. Qed.

Example fallback_commands :
  map (fun x => (snd (fst (fst x)), flagValue "-ss" (snd (fst x))))
      (execsOf (traceOf Sim.handle (generateVideoThumbnail Background Sim.movie Sim.principal)
                  Sim.worldCoverFails))
  = [("ffmpeg", None); ("ffprobe", None); ("ffmpeg", Some "00:00:03.000")].
Proof. reflexivity. Qed.

(** ** More on the upload handlers *)

Opaque GoStrings.Split GoStrings.Join GoStrings.HasPrefix formatTime seekTime
  CombinedOutput Output targetThumbDirOf targetThumbNameOf targetThumbPathOf
  hashesOf overwriteOf asTaskOf.

(** Name the result of the run of handler [h] the goal speaks of, and set
    the statement aside while the run is executed. *)
Ltac open_run h :=
  unfold traceOf, outcomeOf, worldOf;
  match goal with
  | |- context [run h ?p ?w] =>
      let H := fresh "Hrun" in
      destruct (run h p w) as [[? ?] ?] eqn:H;
      simpl fst; simpl snd; revert H
  end;
  match goal with
  | |- _ -> ?G =>
      let P := fresh "Stmt" in
      let HG := fresh "HStmt" in
      remember G as P eqn:HG
  end.

(** Back to the statement, on the run that was executed. *)
Ltac close_run :=
  let H := fresh "Hrun" in
  intros H; injection H as <- <- <-;
  match goal with
  | HG : ?P = _ |- ?P => subst P
  end;
  simpl;
  repeat match goal with
         | H : ?l = _ |- context [?l] => rewrite H
         end;
  simpl.

Section IngressExtras.

Context {L : GoLib}.
Variable W : Type.
Variable handle : forall R : Type, Op R -> W -> R * W.

(** X1. Every run of an upload handler either ends normally after exactly
    one response, or panics on the missing principal before any response
    and any storage write. *)
Theorem upload_answers_exactly_once (form : bool) (c : Request) (w : W) :
  let tr := traceOf handle (uploadHandler form c) w in
  (outcomeOf handle (uploadHandler form c) w = Done tt /\
   List.length (responsesOf tr) = 1%nat)
  \/ (exists msg : string,
         outcomeOf handle (uploadHandler form c) w = Panicked msg /\
         responsesOf tr = [] /\
         putAttemptsOf tr = [] /\
         ctxUser c = None).
Proof.
  destruct form; unfold uploadHandler; open_run handle;
    unfold FsStream, FsForm, drainBody, putStream, getLastModified;
    crunch handle; close_run;
    first [ left; split; reflexivity
          | right; eexists; repeat split; (reflexivity || assumption) ].
Qed.

(** X2. In every run of an upload handler, also one that panics, the
    request body is read for one byte, discarded when that byte was there,
    and closed; the close is the last operation of the run. *)
Theorem upload_body_closed_last (form : bool) (c : Request) (w : W) :
  let tr := traceOf handle (uploadHandler form c) w in
  (exists n : Z,
      bodyOpsOf tr
      = (BodyRead n :: (if n =? 1 then [BodyDiscard] else []) ++ [BodyClosed])%list) /\
  endsWith isBodyClose tr = true.
Proof.
  destruct form; unfold uploadHandler; open_run handle;
    unfold FsStream, FsForm, drainBody, putStream, getLastModified;
    crunch handle; close_run;
    (split; [| reflexivity]);
    match goal with
    | H : (?n =? 1) = _ |- context [BodyRead ?n] => exists n; rewrite H; reflexivity
    end.
Qed.

(** X3. An upload handler answers success exactly when one storage write
    succeeded; when it answers an error, or panics, no write succeeded and no
    goroutine was started. *)
Theorem upload_success_iff_written (form : bool) (c : Request) (w : W) :
  let tr := traceOf handle (uploadHandler form c) w in
  match responsesOf tr with
  | [r] =>
      if isSuccess r then List.length (okWritesOf tr) = 1%nat
      else okWritesOf tr = [] /\ spawnsOf tr = []
  | _ => okWritesOf tr = [] /\ spawnsOf tr = []
  end.
Proof.
  destruct form; unfold uploadHandler; open_run handle;
    unfold FsStream, FsForm, drainBody, putStream, getLastModified;
    crunch handle; close_run;
    first [ reflexivity | split; reflexivity ].
Qed.

(** X4. Status codes: a response 400, 403 or 405 is written before any
    storage write is attempted; 500 is written only after a write was
    attempted and failed, or after the multipart form could not be parsed or
    its file opened. No other error code is used. *)
Theorem upload_error_codes (form : bool) (c : Request) (w : W)
        (r : Response) (code : Z) :
  let tr := traceOf handle (uploadHandler form c) w in
  In r (responsesOf tr) ->
  codeOf r = Some code ->
  (In code [400; 403; 405] /\ putAttemptsOf tr = [])
  \/ (code = 500 /\ okWritesOf tr = [] /\
      (List.length (putAttemptsOf tr) = 1%nat
       \/ In (FormParsed false) (formOpsOf tr)
       \/ In (FormOpened false) (formOpsOf tr))).
Proof.
  destruct form; unfold uploadHandler; open_run handle;
    unfold FsStream, FsForm, drainBody, putStream, getLastModified;
    crunch handle; close_run;
    intros Hin Hc; simpl in Hin;
    try contradiction;
    destruct Hin as [<- | []]; simpl in Hc; try discriminate Hc;
    injection Hc as <-;
    first [ left; split; [simpl; tauto | reflexivity]
          | right; split; [reflexivity | split; [reflexivity |]];
            simpl; tauto ].
Qed.

(** X5. [FsStream] starts at most one goroutine, always
    [generateVideoThumbnail] on [context.Background()] with the resolved path
    and the principal, and only in a run whose single storage write succeeded
    on a stream whose MIME type starts with [video/] and which answers
    success. *)
Theorem FsStream_thumbnail_only_for_written_video (c : Request) (w : W) :
  let tr := traceOf handle (FsStream c) w in
  spawnsOf tr = []
  \/ exists (path0 path : string) (user : User) (dir : string) (s : FileStream)
            (r : Response),
      spawnsOf tr = [GoGenerateVideoThumbnail Background path user] /\
      okWritesOf tr = [(dir, s)] /\
      GoStrings.HasPrefix (fs_Mimetype s) "video/" = true /\
      PathUnescape (GetHeader c "File-Path") = Ok path0 /\
      ctxUser c = Some user /\
      JoinPath user path0 = Ok path /\
      GoStrings.Split path = (dir, Name (fs_Obj s)) /\
      responsesOf tr = [r] /\
      isSuccess r = true.
Proof.
  open_run handle;
    unfold FsStream, drainBody, putStream, getLastModified;
    crunch handle; close_run;
    first [ left; reflexivity
          | right; do 6 eexists;
            repeat (split; [first [reflexivity | eassumption] |]); reflexivity ].
Qed.

(** X6. The stream [FsStream] hands to the storage layer, in its only write
    attempt: written as a task exactly when [As-Task] is [true], under the
    request's context, reading the request body; directory and name are the
    two halves of the resolved path, the size is the [Content-Length] header
    ([0] when absent), the hashes are the non-empty [X-File-*] headers, the
    MIME type is the [Content-Type] header or, when that is empty, derived
    from the name, and the modification time is the [Last-Modified] header in
    milliseconds or, when that does not parse, the time read from the
    clock. *)
Theorem FsStream_descriptor (c : Request) (w : W) :
  let tr := traceOf handle (FsStream c) w in
  match putAttemptsOf tr with
  | [] => okWritesOf tr = []
  | [(task, ctx, dir, s, lazyCache)] =>
      task = asTaskOf c /\
      ctx = RequestContext /\
      lazyCache = (if task then [] else [true]) /\
      fs_Reader s = RequestBody /\
      fs_WebPutAsTask s = asTaskOf c /\
      HashInfo (fs_Obj s) = hashesOf c /\
      fs_Mimetype s = mimeOr (GetHeader c "Content-Type") (Name (fs_Obj s)) /\
      ParseInt (if String.eqb (GetHeader c "Content-Length") "" then "0"
                else GetHeader c "Content-Length") = Ok (Size (fs_Obj s)) /\
      (exists (path0 path : string) (user : User),
          PathUnescape (GetHeader c "File-Path") = Ok path0 /\
          ctxUser c = Some user /\
          JoinPath user path0 = Ok path /\
          GoStrings.Split path = (dir, Name (fs_Obj s))) /\
      (exists now : Z,
          nowsOf tr = [now] /\
          Modified (fs_Obj s) = match ParseInt (GetHeader c "Last-Modified") with
                                | Ok ms => ms
                                | Err _ => now
                                end)
  | _ => False
  end.
Proof.
  open_run handle;
    unfold FsStream, drainBody, putStream, getLastModified;
    crunch handle; unfold mimeOr in *; close_run;
    try reflexivity;
    repeat (split; [first [reflexivity | eassumption] |]);
    (split;
     [do 3 eexists; repeat split; first [reflexivity | eassumption]
     | eexists; split; reflexivity]).
Qed.

(** X7. The stream [FsForm] hands to the storage layer, in its only write
    attempt: size and MIME type come from the multipart file part (the MIME
    type derived from the name when the part declares none), the reader is
    the part's file, hidden behind a plain reader when written as a task;
    task mode, context, hashes, directory and name are as in [FsStream]. *)
Theorem FsForm_descriptor (c : Request) (w : W) :
  let tr := traceOf handle (FsForm c) w in
  match putAttemptsOf tr with
  | [] => okWritesOf tr = []
  | [(task, ctx, dir, s, lazyCache)] =>
      task = asTaskOf c /\
      ctx = RequestContext /\
      lazyCache = (if task then [] else [true]) /\
      fs_WebPutAsTask s = asTaskOf c /\
      HashInfo (fs_Obj s) = hashesOf c /\
      (exists file : FileHeader,
          formFilesOf tr = [file] /\
          Size (fs_Obj s) = fh_Size file /\
          fs_Mimetype s = mimeOr (fh_ContentType file) (Name (fs_Obj s)) /\
          fs_Reader s = (if task then ReaderOnly (MultipartFile file)
                         else MultipartFile file)) /\
      (exists (path0 path : string) (user : User),
          PathUnescape (GetHeader c "File-Path") = Ok path0 /\
          ctxUser c = Some user /\
          JoinPath user path0 = Ok path /\
          GoStrings.Split path = (dir, Name (fs_Obj s)))
  | _ => False
  end.
Proof.
  open_run handle;
    unfold FsForm, drainBody, putStream, getLastModified;
    crunch handle; unfold mimeOr in *; close_run;
    try reflexivity;
    repeat (split; [first [reflexivity | eassumption] |]);
    (split;
     [eexists; split; [reflexivity |]; split; [reflexivity |];
      split; [| reflexivity];
      match goal with
      | H : (_ =? 0)%nat = _ |- _ => rewrite H; reflexivity
      end
     | do 3 eexists; repeat split; first [reflexivity | eassumption]]).
Qed.

(** X8. [FsForm] consults the storage of the destination before it parses
    the form: when the storage cannot be found it answers 400, when the
    storage does not support upload it answers 405, and in both cases the
    form is not parsed and nothing is written. [FsStream] never consults
    the storage. *)
Theorem FsForm_storage_gate (c : Request) (w : W) :
  let tr := traceOf handle (FsForm c) w in
  storagesOf (traceOf handle (FsStream c) w) = [] /\
  match storagesOf tr with
  | [] => formOpsOf tr = [] /\ putAttemptsOf tr = []
  | [(path, Err e)] =>
      responsesOf tr = [ErrorResp e 400] /\ formOpsOf tr = [] /\ putAttemptsOf tr = []
  | [(path, Ok storage)] =>
      if NoUpload storage
      then responsesOf tr = [ErrorStrResp "Current storage doesn't support upload" 405] /\
           formOpsOf tr = [] /\ putAttemptsOf tr = []
      else formOpsOf tr <> []
  | _ => False
  end.
Proof.
  split.
  - open_run handle;
      unfold FsStream, drainBody, putStream, getLastModified;
      crunch handle; close_run; reflexivity.
  - open_run handle;
      unfold FsForm, drainBody, putStream, getLastModified;
      crunch handle; close_run;
      first [ split; reflexivity
            | split; [reflexivity | split; reflexivity]
            | discriminate ].
Qed.

(** X9. The multipart file of [FsForm] is closed exactly when it was
    opened: the operations on the form are none, a failed parse, a parse and
    a failed open, or a parse, an open and one close. *)
Theorem FsForm_closes_opened_file (c : Request) (w : W) :
  let tr := traceOf handle (FsForm c) w in
  formOpsOf tr = []
  \/ formOpsOf tr = [FormParsed false]
  \/ formOpsOf tr = [FormParsed true; FormOpened false]
  \/ formOpsOf tr = [FormParsed true; FormOpened true; FormClosed].
Proof.
  open_run handle;
    unfold FsForm, drainBody, putStream, getLastModified;
    crunch handle; close_run; tauto.
Qed.

End IngressExtras.

(** ** More on the derivation orchestrator *)

Section OrchestratorExtras.

Context {L : GoLib}.
Variable W : Type.
Variable handle : forall R : Type, Op R -> W -> R * W.

(** The facts below about one run of [generateVideoThumbnail], read off the
    run once. *)
Lemma generateVideoThumbnail_facts
      (ctx : Ctx) (filePath : string) (user : User) (w : W)
      (o : outcome unit) (w' : W) (tr : list Event) :
  run handle (generateVideoThumbnail ctx filePath user) w = (o, w', tr) ->
  (o = Done tt
   \/ exists msg : string,
       o = Panicked msg /\ lookupsOf tr = [(ctx, filePath, (None, None))] /\
       List.length tr = 1%nat) /\
  (Forall (eq ctx) (ctxsOf tr) /\ bodyOpsOf tr = [] /\ responsesOf tr = [] /\
   spawnsOf tr = []) /\
  match putAttemptsOf tr with
  | [] => makeDirsOf tr = []
          \/ exists r : option error, makeDirsOf tr = [(targetThumbDirOf filePath, [true], r)]
  | [(task, ctx', dir, s, lazyCache)] =>
      task = false /\ ctx' = ctx /\ dir = targetThumbDirOf filePath /\
      lazyCache = [true] /\
      Name (fs_Obj s) = targetThumbNameOf filePath /\
      HashInfo (fs_Obj s) = [] /\
      fs_Mimetype s = "image/webp" /\
      fs_WebPutAsTask s = false /\
      makeDirsOf tr = [(targetThumbDirOf filePath, [true], None)] /\
      exists (f : File) (st : result Z) (now : Z),
        fs_Reader s = LocalFile f /\
        osStatsOf tr = [st] /\
        Size (fs_Obj s) = match st with Ok sz => sz | Err _ => 0 end /\
        nowsOf tr = [now] /\
        Modified (fs_Obj s) = now
  | _ => False
  end /\
  (closedOf tr = obtainedOf tr /\ closedOf (afterRemove tr) = []) /\
  match lookupsOf tr with
  | [(c1, p1, _)] =>
      c1 = ctx /\ p1 = filePath /\ existsb isCreateTemp tr = false
  | [(c1, p1, (Some obj, None)); (c2, p2, (o2, e2))] =>
      c1 = ctx /\ p1 = filePath /\ c2 = ctx /\ p2 = targetThumbPathOf filePath /\
      existsb isCreateTemp tr
      = match e2 with
        | Some err => IsNotExist err
        | None => negb (isSome o2)
        end
  | _ => False
  end /\
  match okWritesOf tr with
  | [] => logsOf tr <> [] \/ exists msg : string, o = Panicked msg
  | _ =>
      exists temp : string,
        stagedOf tr = [temp] /\
        In (LogThumbDone temp (targetThumbPathOf filePath)) (logsOf tr)
  end.
Proof.
  match goal with |- _ -> ?G => remember G as Stmt eqn:HG end.
  unfold generateVideoThumbnail, checkFileExists, removeTemp,
    extractAndPublish, publishStaged, extractVideoCover, extractVideoFrameAtPercentage,
    getVideoDuration, validateWebPFile, MakeDir.
  crunch handle.
  all: intros Hrun; injection Hrun as <- <- <-; subst Stmt; simpl.
  all: split;
    [first [left; reflexivity | right; eexists; repeat split; reflexivity] |].
  all: split; [split; [repeat constructor | repeat split; reflexivity] |].
  all: split;
    [first [left; reflexivity
           | right; eexists; reflexivity
           | repeat (split; [reflexivity |]); do 3 eexists; repeat split; reflexivity] |].
  all: split; [split; reflexivity |].
  all: split;
    [repeat match goal with
            | |- context [match ?x with _ => _ end] => is_var x; destruct x
            end;
     repeat (split; [reflexivity |]);
     first [reflexivity
           | symmetry; assumption
           | match goal with
             | H : isSome ?x = _ |- _ =>
                 destruct x; simpl in *; first [reflexivity | discriminate]
             end] |].
  all: first [left; discriminate
             | right; eexists; reflexivity
             | eexists; split; [reflexivity | simpl; auto 10]].
Qed.

(** X10. [generateVideoThumbnail] ends normally on every path but one: it
    panics when the lookup of the source returns neither an object nor an
    error, and then that lookup was its only operation. *)
Theorem orchestrator_panics_only_on_nil_source
        (ctx : Ctx) (filePath : string) (user : User) (w : W) :
  let tr := traceOf handle (generateVideoThumbnail ctx filePath user) w in
  let o := outcomeOf handle (generateVideoThumbnail ctx filePath user) w in
  o = Done tt
  \/ exists msg : string,
      o = Panicked msg /\ lookupsOf tr = [(ctx, filePath, (None, None))] /\
      List.length tr = 1%nat.
Proof.
  unfold traceOf, outcomeOf.
  destruct (run handle (generateVideoThumbnail ctx filePath user) w) as [[o w'] tr] eqn:Hrun.
  exact (proj1 (generateVideoThumbnail_facts ctx filePath user w o w' tr Hrun)).
Qed.

(** X11. [generateVideoThumbnail] gives the context it received to every
    storage operation and every external command, and never touches the
    request: it reads no body, writes no response and starts no goroutine. *)
Theorem orchestrator_stays_detached
        (ctx : Ctx) (filePath : string) (user : User) (w : W) :
  let tr := traceOf handle (generateVideoThumbnail ctx filePath user) w in
  Forall (eq ctx) (ctxsOf tr) /\ bodyOpsOf tr = [] /\ responsesOf tr = [] /\
  spawnsOf tr = [].
Proof.
  unfold traceOf.
  destruct (run handle (generateVideoThumbnail ctx filePath user) w) as [[o w'] tr] eqn:Hrun.
  exact (proj1 (proj2 (generateVideoThumbnail_facts ctx filePath user w o w' tr Hrun))).
Qed.

(** X12. [generateVideoThumbnail] puts at most one object. It goes, not as
    a task, to [.thumbnails] beside the source under the source's base name
    plus [.webp], with MIME type [image/webp] and no hashes, after
    [fs.MakeDir] of that directory returned [nil]; its reader is a local
    file, its size what [os.Stat] reported, or [0] when [os.Stat] failed,
    its modification time the clock's. Without a put, [fs.MakeDir] was not
    called or was called once on that directory. *)
Theorem thumbnail_put_descriptor
        (ctx : Ctx) (filePath : string) (user : User) (w : W) :
  let tr := traceOf handle (generateVideoThumbnail ctx filePath user) w in
  match putAttemptsOf tr with
  | [] => makeDirsOf tr = []
          \/ exists r : option error, makeDirsOf tr = [(targetThumbDirOf filePath, [true], r)]
  | [(task, ctx', dir, s, lazyCache)] =>
      task = false /\ ctx' = ctx /\ dir = targetThumbDirOf filePath /\
      lazyCache = [true] /\
      Name (fs_Obj s) = targetThumbNameOf filePath /\
      HashInfo (fs_Obj s) = [] /\
      fs_Mimetype s = "image/webp" /\
      fs_WebPutAsTask s = false /\
      makeDirsOf tr = [(targetThumbDirOf filePath, [true], None)] /\
      exists (f : File) (st : result Z) (now : Z),
        fs_Reader s = LocalFile f /\
        osStatsOf tr = [st] /\
        Size (fs_Obj s) = match st with Ok sz => sz | Err _ => 0 end /\
        nowsOf tr = [now] /\
        Modified (fs_Obj s) = now
  | _ => False
  end.
Proof.
  unfold traceOf.
  destruct (run handle (generateVideoThumbnail ctx filePath user) w) as [[o w'] tr] eqn:Hrun.
  exact (proj1 (proj2 (proj2 (generateVideoThumbnail_facts ctx filePath user w o w' tr Hrun)))).
Qed.

(** X13. [generateVideoThumbnail] closes every local file it creates or
    opens, one after the other in the order it got them, and all of them
    before it removes the staged file. *)
Theorem orchestrator_closes_files
        (ctx : Ctx) (filePath : string) (user : User) (w : W) :
  let tr := traceOf handle (generateVideoThumbnail ctx filePath user) w in
  closedOf tr = obtainedOf tr /\ closedOf (afterRemove tr) = [].
Proof.
  unfold traceOf.
  destruct (run handle (generateVideoThumbnail ctx filePath user) w) as [[o w'] tr] eqn:Hrun.
  exact (proj1 (proj2 (proj2 (proj2
           (generateVideoThumbnail_facts ctx filePath user w o w' tr Hrun))))).
Qed.

(** X14. [generateVideoThumbnail] looks up the source and then, at most,
    the derived target. After the lookup of the target it goes on to create
    the temporary file exactly when the lookup failed with a not-exist error,
    or returned neither error nor object; any other error of that lookup
    ends the run, as does an object found. *)
Theorem existence_lookup_policy
        (ctx : Ctx) (filePath : string) (user : User) (w : W) :
  let tr := traceOf handle (generateVideoThumbnail ctx filePath user) w in
  match lookupsOf tr with
  | [(c1, p1, _)] =>
      c1 = ctx /\ p1 = filePath /\ existsb isCreateTemp tr = false
  | [(c1, p1, (Some obj, None)); (c2, p2, (o2, e2))] =>
      c1 = ctx /\ p1 = filePath /\ c2 = ctx /\ p2 = targetThumbPathOf filePath /\
      existsb isCreateTemp tr
      = match e2 with
        | Some err => IsNotExist err
        | None => negb (isSome o2)
        end
  | _ => False
  end.
Proof.
  unfold traceOf.
  destruct (run handle (generateVideoThumbnail ctx filePath user) w) as [[o w'] tr] eqn:Hrun.
  exact (proj1 (proj2 (proj2 (proj2 (proj2
           (generateVideoThumbnail_facts ctx filePath user w o w' tr Hrun)))))).
Qed.

(** X15. [generateVideoThumbnail] never gives up silently: a run that ends
    normally without a successful put has logged at least one line, and a
    run with a successful put has logged the line that names the staged file
    and the target path. *)
Theorem orchestrator_never_silent
        (ctx : Ctx) (filePath : string) (user : User) (w : W) :
  let tr := traceOf handle (generateVideoThumbnail ctx filePath user) w in
  let o := outcomeOf handle (generateVideoThumbnail ctx filePath user) w in
  match okWritesOf tr with
  | [] => logsOf tr <> [] \/ exists msg : string, o = Panicked msg
  | _ =>
      exists temp : string,
        stagedOf tr = [temp] /\
        In (LogThumbDone temp (targetThumbPathOf filePath)) (logsOf tr)
  end.
Proof.
  unfold traceOf, outcomeOf.
  destruct (run handle (generateVideoThumbnail ctx filePath user) w) as [[o w'] tr] eqn:Hrun.
  exact (proj2 (proj2 (proj2 (proj2 (proj2
           (generateVideoThumbnail_facts ctx filePath user w o w' tr Hrun)))))).
Qed.

(** X16. [validateWebPFile] never panics, closes the file it opened, and
    its result is fixed by the first operation that fails. When [os.Open]
    fails, it is that error wrapped behind the open prefix, and nothing else
    happens. When [Stat] fails, it is that error wrapped behind the stat
    prefix, after three operations (open, stat, close). For a size of zero
    or less it is the empty-file error, again after three operations. When
    [image.Decode] fails, it is that error wrapped behind the decode prefix.
    Only when all three succeed on a file of positive size is the result
    [nil]. A wrapped error matches [os.ErrNotExist] exactly when the error
    of the operation does; the empty-file error never does. *)
Theorem validateWebPFile_error_chain (path : string) (w : W) :
  let tr := traceOf handle (validateWebPFile path) w in
  let o := outcomeOf handle (validateWebPFile path) w in
  let notExist := match o with
                  | Done (Some err) => IsNotExist err
                  | _ => false
                  end in
  closedOf tr = obtainedOf tr /\
  match handle _ (os_Open path) w with
  | (Err e, _) =>
      o = Done (Some (ErrorfW ("打开文件失败: " ++ Error e) e)) /\
      notExist = IsNotExist e /\
      tr = [Ev (os_Open path) (Err e)]
  | (Ok f, w1) =>
      obtainedOf tr = [f] /\
      match handle _ (file_Stat f) w1 with
      | (Err e, _) =>
          o = Done (Some (ErrorfW ("获取文件信息失败: " ++ Error e) e)) /\
          notExist = IsNotExist e /\
          List.length tr = 3%nat
      | (Ok size, w2) =>
          if size <=? 0
          then o = Done (Some (Errorf "文件为空")) /\
               notExist = false /\
               List.length tr = 3%nat
          else
            List.length tr = 4%nat /\
            match handle _ (image_Decode f) w2 with
            | (Some e, _) =>
                o = Done (Some (ErrorfW ("WebP解码失败: " ++ Error e) e)) /\
                notExist = IsNotExist e
            | (None, _) => o = Done None
            end
      end
  end.
Proof.
  unfold outcomeOf, traceOf, validateWebPFile.
  crunch handle;
    repeat match goal with
           | H : (_, _) = (_, _) |- _ =>
               first [discriminate H | injection H as ? ?; subst]
           end;
    repeat split; reflexivity.
Qed.

(** X17. A failed duration probe loses its cause on the way up:
    [extractVideoFrameAtPercentage] returns an error built from the text of
    the probe's error only, which [errors.Is] no longer matches against
    not-exist, and it runs no [ffmpeg] after the failed probe. *)
Theorem probe_failure_drops_error_chain
        (ctx : Ctx) (videoPath outputPath : string) (percentage : float) (w : W)
        (e : error) :
  outcomeOf handle (getVideoDuration ctx videoPath) w = Done (Err e) ->
  exists e' : error,
    outcomeOf handle (extractVideoFrameAtPercentage ctx videoPath outputPath percentage) w
    = Done (Some e') /\
    Error e' = "获取视频时长失败: " ++ Error e /\
    IsNotExist e' = false /\
    List.length (execsOf (traceOf handle
                            (extractVideoFrameAtPercentage ctx videoPath outputPath
                               percentage) w)) = 1%nat.
Proof.
  unfold outcomeOf, traceOf, extractVideoFrameAtPercentage, getVideoDuration.
  crunch handle; intros H; try discriminate H; injection H as <-;
    eexists; repeat split; reflexivity.
Qed.

End OrchestratorExtras.

Transparent GoStrings.Split GoStrings.Join GoStrings.HasPrefix formatTime seekTime
  CombinedOutput Output targetThumbDirOf targetThumbNameOf targetThumbPathOf
  hashesOf overwriteOf asTaskOf.

(** ** The loops of the settings handlers *)

Section SettingsLoops.

Import Settings SettingsTrace.

Context {SL : SettingsLib}.

Lemma splitComma_not_nil (s : string) : splitComma s <> [].
Proof.
  induction s as [| c s IH]; simpl; [discriminate |].
  destruct (Ascii.eqb c ","%char); [discriminate |].
  destruct (splitComma s); discriminate.
Qed.

Lemma concat_cons (x y : string) (l : list string) :
  String.concat "," (x :: y :: l) = x ++ "," ++ String.concat "," (y :: l).
Proof. reflexivity. Qed.

Lemma splitComma_concat (s : string) : String.concat "," (splitComma s) = s.
Proof.
  induction s as [| c s IH]; [reflexivity |].
  simpl splitComma. destruct (Ascii.eqb c ","%char) eqn:Ec.
  - apply Ascii.eqb_eq in Ec. subst c.
    pose proof (splitComma_not_nil s) as Hn.
    destruct (splitComma s) as [| y l]; [contradiction |].
    rewrite concat_cons, IH. reflexivity.
  - pose proof (splitComma_not_nil s) as Hn.
    destruct (splitComma s) as [| y l]; [contradiction |].
    destruct l as [| z l].
    + simpl in IH. subst y. reflexivity.
    + rewrite concat_cons in *. rewrite <- IH. reflexivity.
Qed.

(** The pieces hold no comma, and they are the only such pieces: a
    non-empty list of comma-free strings is the split of its join. *)
Lemma splitComma_commaFree (s : string) : forallb commaFree (splitComma s) = true.
Proof.
  induction s as [| c s IH]; [reflexivity |].
  simpl splitComma. destruct (Ascii.eqb c ","%char) eqn:Ec; [exact IH |].
  destruct (splitComma s) as [| h t]; simpl in *; rewrite Ec; [reflexivity | exact IH].
Qed.

Lemma splitComma_single (x : string) : commaFree x = true -> splitComma x = [x].
Proof.
  induction x as [| c x IH]; [reflexivity |].
  simpl. intros H. apply andb_prop in H. destruct H as [Hc Hx].
  apply negb_true_iff in Hc. rewrite Hc, (IH Hx). reflexivity.
Qed.

Lemma splitComma_piece (x rest : string) :
  commaFree x = true -> splitComma (x ++ "," ++ rest) = x :: splitComma rest.
Proof.
  induction x as [| c x IH]; [reflexivity |].
  intros H. simpl in H. apply andb_prop in H. destruct H as [Hc Hx].
  apply negb_true_iff in Hc.
  change (String c x ++ "," ++ rest) with (String c (x ++ "," ++ rest)).
  simpl splitComma. rewrite Hc, (IH Hx). reflexivity.
Qed.

Lemma splitComma_unique (l : list string) :
  l <> [] -> forallb commaFree l = true -> splitComma (String.concat "," l) = l.
Proof.
  induction l as [| x l IH]; [contradiction |].
  intros _ H. simpl in H. apply andb_prop in H. destruct H as [Hx Hl].
  destruct l as [| y l].
  - apply splitComma_single. exact Hx.
  - rewrite concat_cons, (splitComma_piece _ _ Hx), IH; [reflexivity | discriminate | exact Hl].
Qed.

Lemma parseGroups_Forall2 (strs : list string) (groups : list Z) :
  parseGroups strs = Ok groups <-> Forall2 (fun s g => Atoi s = Ok g) strs groups.
Proof.
  revert groups. induction strs as [| s strs IH]; intros groups; simpl.
  - split; intros H.
    + injection H as <-. constructor.
    + inversion H. reflexivity.
  - split; intros H.
    + destruct (Atoi s) as [g | e] eqn:Ea; [| discriminate].
      destruct (parseGroups strs) as [gs | e] eqn:Ep; [| discriminate].
      injection H as <-. constructor; [exact Ea | apply IH; reflexivity].
    + inversion H as [| s' g strs' gs Ha Hr]; subst.
      rewrite Ha. apply IH in Hr. rewrite Hr. reflexivity.
Qed.

Lemma parseGroups_first_error (strs : list string) (e : error) :
  parseGroups strs = Err e <->
  exists (pre : list string) (s : string) (post : list string) (groups : list Z),
    strs = (pre ++ s :: post)%list /\
    Forall2 (fun s g => Atoi s = Ok g) pre groups /\
    Atoi s = Err e.
Proof.
  revert e. induction strs as [| s strs IH]; intros e; simpl.
  - split; [discriminate |].
    intros (pre & s & post & groups & H & _). destruct pre; discriminate.
  - split.
    + destruct (Atoi s) as [g | e0] eqn:Ea.
      * destruct (parseGroups strs) as [gs | e1] eqn:Ep; [discriminate |].
        intros H. injection H as <-.
        destruct (proj1 (IH e1) eq_refl) as (pre & s' & post & groups & -> & Hf & Hs).
        exists (s :: pre), s', post, (g :: groups).
        repeat split; auto.
      * intros H. injection H as <-.
        exists [], s, strs, []. repeat split; auto.
    + intros (pre & s' & post & groups & Heq & Hf & Hs).
      destruct pre as [| p pre]; simpl in Heq; injection Heq as -> ->.
      * rewrite Hs. reflexivity.
      * inversion Hf as [| p' g pre' gs Hp Hr]; subst. rewrite Hp.
        assert (He : parseGroups (pre ++ s' :: post) = Err e).
        { apply IH. exists pre, s', post, gs. repeat split; auto. }
        rewrite He. reflexivity.
Qed.

Lemma indexAll_nth (settings : list SettingItem) (start : N) (i : nat) (item : SettingItem) :
  nth_error settings i = Some item ->
  nth_error (indexAll start settings) i = Some (setIndex item (start + N.of_nat i)).
Proof.
  revert start i. induction settings as [| x settings IH]; intros start i H.
  - destruct i; discriminate.
  - destruct i as [| i]; simpl in *.
    + injection H as <-. rewrite N.add_0_r. reflexivity.
    + rewrite (IH (start + 1)%N i H). f_equal. f_equal. lia.
Qed.

Lemma indexAll_length (settings : list SettingItem) (start : N) :
  List.length (indexAll start settings) = List.length settings.
Proof.
  revert start. induction settings as [| x settings IH]; intros start; simpl;
    [reflexivity | rewrite IH; reflexivity].
Qed.

Lemma pickGroup_In (group : Z) (settings : list SettingItem) (start : N)
      (item' : SettingItem) :
  In item' (pickGroup group start settings) <->
  exists (i : nat) (item : SettingItem),
    nth_error settings i = Some item /\
    Group item = group /\
    item' = setIndex item (start + N.of_nat i).
Proof.
  revert start. induction settings as [| x settings IH]; intros start; simpl.
  - split; [contradiction |]. intros (i & item & H & _). destruct i; discriminate.
  - destruct (group =? Group x) eqn:Eg.
    + apply Z.eqb_eq in Eg. simpl. rewrite IH. split.
      * intros [<- | (i & item & Hn & Hg & ->)].
        -- exists 0%nat, x. repeat split; auto; rewrite N.add_0_r; reflexivity.
        -- exists (S i), item. repeat split; auto; f_equal; lia.
      * intros ([| i] & item & Hn & Hg & ->); simpl in Hn.
        -- injection Hn as <-. left. rewrite N.add_0_r. reflexivity.
        -- right. exists i, item. repeat split; auto; f_equal; lia.
    + apply Z.eqb_neq in Eg. rewrite IH. split.
      * intros (i & item & Hn & Hg & ->).
        exists (S i), item. repeat split; auto; f_equal; lia.
      * intros ([| i] & item & Hn & Hg & ->); simpl in Hn.
        -- injection Hn as <-. congruence.
        -- exists i, item. repeat split; auto; f_equal; lia.
Qed.

Lemma collectGroups_In (groups : list Z) (settings : list SettingItem)
      (item' : SettingItem) :
  In item' (collectGroups groups settings) <->
  exists (i : nat) (item : SettingItem),
    nth_error settings i = Some item /\
    In (Group item) groups /\
    item' = setIndex item (N.of_nat i).
Proof.
  induction groups as [| g groups IH]; simpl.
  - split; [contradiction |]. intros (i & item & _ & [] & _).
  - rewrite in_app_iff, IH, pickGroup_In. split.
    + intros [(i & item & Hn & Hg & ->) | (i & item & Hn & Hg & ->)].
      * exists i, item. repeat split; auto.
      * exists i, item. repeat split; auto.
    + intros (i & item & Hn & [Hg | Hg] & ->).
      * left. exists i, item. repeat split; auto.
      * right. exists i, item. repeat split; auto.
Qed.

Lemma pickGroup_groups (group : Z) (settings : list SettingItem) (start : N) :
  Forall (fun item => Group item = group) (pickGroup group start settings).
Proof.
  revert start. induction settings as [| x settings IH]; intros start; simpl.
  - constructor.
  - destruct (group =? Group x) eqn:Eg; [| apply IH].
    apply Z.eqb_eq in Eg. constructor; [simpl; auto | apply IH].
Qed.

Lemma pickGroup_length (group : Z) (settings : list SettingItem) (start : N) :
  List.length (pickGroup group start settings) = List.length (inGroup group settings).
Proof.
  unfold inGroup. revert start.
  induction settings as [| x settings IH]; intros start; simpl; [reflexivity |].
  destruct (group =? Group x); simpl; rewrite IH; reflexivity.
Qed.

Lemma insertInt_In (x y : Z) (l : list Z) : In y (insertInt x l) <-> y = x \/ In y l.
Proof.
  induction l as [| a l IH]; simpl.
  - intuition.
  - destruct (x <=? a); simpl; [intuition |]. rewrite IH. intuition.
Qed.

Lemma sortInts_In (y : Z) (l : list Z) : In y (sortInts l) <-> In y l.
Proof.
  induction l as [| a l IH]; simpl; [tauto |].
  rewrite insertInt_In, IH. intuition.
Qed.

Lemma insertInt_sorted (x : Z) (l : list Z) :
  StronglySorted Z.le l -> StronglySorted Z.le (insertInt x l).
Proof.
  induction l as [| a l IH]; intros Hs; simpl.
  - constructor; constructor.
  - inversion Hs as [| a' l' Hl Ha]; subst.
    destruct (x <=? a) eqn:E.
    + apply Z.leb_le in E. constructor; [exact Hs |].
      constructor; [exact E |].
      eapply Forall_impl; [| exact Ha]. intros z Hz. simpl in Hz. lia.
    + apply Z.leb_gt in E. constructor; [apply IH; exact Hl |].
      apply Forall_forall. intros z Hz. apply insertInt_In in Hz.
      destruct Hz as [-> | Hz]; [lia |].
      rewrite Forall_forall in Ha. apply Ha. exact Hz.
Qed.

Lemma sortInts_sorted (l : list Z) : StronglySorted Z.le (sortInts l).
Proof.
  induction l as [| a l IH]; simpl; [constructor | apply insertInt_sorted; exact IH].
Qed.

Lemma insertInt_comm (x y : Z) (l : list Z) :
  insertInt x (insertInt y l) = insertInt y (insertInt x l).
Proof.
  induction l as [| a l IH]; simpl.
  - destruct (x <=? y) eqn:E1, (y <=? x) eqn:E2; try reflexivity.
    + apply Z.leb_le in E1, E2. assert (x = y) by lia. subst. reflexivity.
    + apply Z.leb_gt in E1, E2. lia.
  - destruct (y <=? a) eqn:Ey, (x <=? a) eqn:Ex; simpl;
      rewrite ?Ey, ?Ex;
      destruct (x <=? y) eqn:E1, (y <=? x) eqn:E2; simpl; rewrite ?Ey, ?Ex;
      try reflexivity;
      try (apply Z.leb_le in E1, E2; assert (x = y) by lia; subst; reflexivity);
      try (rewrite IH; reflexivity);
      try (rewrite ?Z.leb_le, ?Z.leb_gt in *; lia).
Qed.

Lemma sortInts_Permutation (l l' : list Z) :
  Permutation l l' -> sortInts l = sortInts l'.
Proof.
  induction 1 as [| x l l' _ IH | x y l | l l' l'' _ IH1 _ IH2]; simpl.
  - reflexivity.
  - rewrite IH. reflexivity.
  - apply insertInt_comm.
  - rewrite IH1. exact IH2.
Qed.

Lemma collectGroups_length (groups : list Z) (settings : list SettingItem) :
  List.length (collectGroups groups settings)
  = list_sum (map (fun g => List.length (inGroup g settings)) groups).
Proof.
  induction groups as [| g groups IH]; simpl; [reflexivity |].
  rewrite length_app, pickGroup_length, IH. reflexivity.
Qed.

Lemma collectGroups_sorted (groups : list Z) (settings : list SettingItem) :
  StronglySorted Z.le groups ->
  StronglySorted Z.le (map Group (collectGroups groups settings)).
Proof.
  induction groups as [| g groups IH]; intros Hs; simpl; [constructor |].
  inversion Hs as [| g' l' Hl Hg]; subst.
  rewrite map_app.
  pose proof (pickGroup_groups g settings 0) as Hp.
  induction (pickGroup g 0 settings) as [| x p IHp]; simpl.
  - apply IH. exact Hl.
  - inversion Hp as [| x' p' Hx Hp']; subst. constructor; [apply IHp; exact Hp' |].
    apply Forall_app. split.
    + apply Forall_map. eapply Forall_impl; [| exact Hp'].
      intros z Hz. simpl in Hz. lia.
    + apply Forall_map. apply Forall_forall. intros z Hz.
      apply collectGroups_In in Hz. destruct Hz as (i & item & _ & Hin & ->).
      simpl. rewrite Forall_forall in Hg. apply Hg. exact Hin.
Qed.

Lemma insertInt_perm (x : Z) (l : list Z) : Permutation (insertInt x l) (x :: l).
Proof.
  induction l as [| a l IH]; simpl; [constructor; constructor |].
  destruct (x <=? a); [apply Permutation_refl |].
  eapply perm_trans; [apply perm_skip; exact IH | apply perm_swap].
Qed.

Lemma sortInts_perm (l : list Z) : Permutation (sortInts l) l.
Proof.
  induction l as [| a l IH]; simpl; [constructor |].
  eapply perm_trans; [apply insertInt_perm | apply perm_skip; exact IH].
Qed.

Lemma list_sum_perm (l l' : list nat) : Permutation l l' -> list_sum l = list_sum l'.
Proof.
  induction 1; simpl; lia.
Qed.

End SettingsLoops.

(** ** The settings handlers *)

Section SettingsFacts.

Import Settings SettingsTrace.

Context {SL : SettingsLib}.
Variable W : Type.
Variable handle : forall R : Type, Op R -> W -> R * W.

(** X20. [DefaultSettings] without [group] and [groups] answers all the
    initial settings, in their order, each with its position as [Index]. *)
Theorem DefaultSettings_all_indexed (c : Request) (w : W) (settings : list SettingItem) :
  Query c "group" = "" ->
  Query c "groups" = "" ->
  fst (handle _ data_InitialSettings w) = settings ->
  exists items : list SettingItem,
    responsesOf (stepsOf (traceOf handle (DefaultSettings c) w))
    = [SuccessResp (ItemsData items)] /\
    List.length items = List.length settings /\
    forall (i : nat) (item : SettingItem),
      nth_error settings i = Some item ->
      nth_error items i = Some (setIndex item (N.of_nat i)).
Proof.
  intros Hg Hgs Hi. unfold traceOf, DefaultSettings. rewrite Hg, Hgs. simpl.
  destruct (handle _ data_InitialSettings w) as [r w1]. simpl in Hi. subst r.
  crunch handle. exists (indexAll 0 settings).
  split; [reflexivity | split; [apply indexAll_length |]].
  intros i item Hn. apply (indexAll_nth settings 0 i item Hn).
Qed.

(** X21. [DefaultSettings] with groups that all parse answers exactly the
    initial settings whose group was asked for, each with its position among
    all initial settings as [Index]; the answer is ordered by group, and a
    group asked for several times contributes its items as many times. *)
Theorem DefaultSettings_filtered
        (c : Request) (w : W) (settings : list SettingItem) (groups : list Z) :
  Query c "groups" <> "" \/ Query c "group" <> "" ->
  fst (handle _ data_InitialSettings w) = settings ->
  parseGroups (groupStringsOf (Query c "group") (Query c "groups")) = Ok groups ->
  exists items : list SettingItem,
    responsesOf (stepsOf (traceOf handle (DefaultSettings c) w))
    = [SuccessResp (ItemsData items)] /\
    (forall item' : SettingItem,
        In item' items <->
        exists (i : nat) (item : SettingItem),
          nth_error settings i = Some item /\
          In (Group item) groups /\
          item' = setIndex item (N.of_nat i)) /\
    StronglySorted Z.le (map Group items) /\
    List.length items
    = list_sum (map (fun g => List.length (inGroup g settings)) groups).
Proof.
  intros Hq Hi Hp. unfold traceOf, DefaultSettings. rewrite Hp.
  assert (Hb : String.eqb (Query c "groups") "" && String.eqb (Query c "group") "" = false).
  { destruct Hq as [Hq | Hq]; apply String.eqb_neq in Hq; rewrite Hq;
      [reflexivity | apply andb_false_r]. }
  rewrite Hb. simpl.
  destruct (handle _ data_InitialSettings w) as [r w1]. simpl in Hi. subst r.
  crunch handle. exists (collectGroups (sortInts groups) settings).
  split; [reflexivity |]. split; [| split].
  - intros item'. rewrite collectGroups_In. split.
    + intros (i & item & Hn & Hg & ->). exists i, item.
      repeat split; auto. apply sortInts_In. exact Hg.
    + intros (i & item & Hn & Hg & ->). exists i, item.
      repeat split; auto. apply sortInts_In. exact Hg.
  - apply collectGroups_sorted. apply sortInts_sorted.
  - rewrite collectGroups_length. apply list_sum_perm.
    apply Permutation_map. apply sortInts_perm.
Qed.

(** X22. The order in which the groups are asked for does not matter to
    [DefaultSettings]: two requests whose groups are rearrangements of each
    other get the same answer from the same initial settings. *)
Theorem DefaultSettings_order_irrelevant
        (c1 c2 : Request) (w1 w2 : W) (groups1 groups2 : list Z) :
  Query c1 "groups" <> "" \/ Query c1 "group" <> "" ->
  Query c2 "groups" <> "" \/ Query c2 "group" <> "" ->
  fst (handle _ data_InitialSettings w1) = fst (handle _ data_InitialSettings w2) ->
  parseGroups (groupStringsOf (Query c1 "group") (Query c1 "groups")) = Ok groups1 ->
  parseGroups (groupStringsOf (Query c2 "group") (Query c2 "groups")) = Ok groups2 ->
  Permutation groups1 groups2 ->
  responsesOf (stepsOf (traceOf handle (DefaultSettings c1) w1))
  = responsesOf (stepsOf (traceOf handle (DefaultSettings c2) w2)).
Proof.
  intros Hq1 Hq2 Hi Hp1 Hp2 Hperm. unfold traceOf, DefaultSettings. rewrite Hp1, Hp2.
  assert (Hb : forall c : Request,
             Query c "groups" <> "" \/ Query c "group" <> "" ->
             String.eqb (Query c "groups") "" && String.eqb (Query c "group") "" = false).
  { intros c [Hq | Hq]; apply String.eqb_neq in Hq; rewrite Hq;
      [reflexivity | apply andb_false_r]. }
  rewrite (Hb c1 Hq1), (Hb c2 Hq2). simpl.
  destruct (handle _ data_InitialSettings w1) as [r1 w1'].
  destruct (handle _ data_InitialSettings w2) as [r2 w2']. simpl in Hi. subst r2.
  rewrite (sortInts_Permutation groups1 groups2 Hperm).
  crunch handle. reflexivity.
Qed.

(** X23. When a group string does not parse, [ListSettings] and
    [DefaultSettings] answer 400 with the error of the first string that
    [strconv.Atoi] rejects, whatever follows it; [ListSettings] then has not
    touched the settings store. *)
Theorem group_parse_failure (c : Request) (w : W) (e : error) :
  Query c "groups" <> "" \/ Query c "group" <> "" ->
  parseGroups (groupStringsOf (Query c "group") (Query c "groups")) = Err e ->
  stepsOf (traceOf handle (ListSettings c) w) = [SRespond (ErrorResp e 400)] /\
  responsesOf (stepsOf (traceOf handle (DefaultSettings c) w)) = [ErrorResp e 400] /\
  exists (pre : list string) (s : string) (post : list string) (groups : list Z),
    groupStringsOf (Query c "group") (Query c "groups") = (pre ++ s :: post)%list /\
    Forall2 (fun s g => Atoi s = Ok g) pre groups /\
    Atoi s = Err e.
Proof.
  intros Hq Hp.
  assert (Hb : String.eqb (Query c "groups") "" && String.eqb (Query c "group") "" = false).
  { destruct Hq as [Hq | Hq]; apply String.eqb_neq in Hq; rewrite Hq;
      [reflexivity | apply andb_false_r]. }
  split; [| split].
  - unfold traceOf, ListSettings. rewrite Hb, Hp. crunch handle. reflexivity.
  - unfold traceOf, DefaultSettings. rewrite Hb, Hp. crunch handle. reflexivity.
  - apply parseGroups_first_error. exact Hp.
Qed.

(** [ListSettings] asks the store for the groups in the order of the
    request, repeated ones included, and answers a failure of the store with
    400; without [group] and [groups] it asks for all items. *)
Lemma ListSettings_steps (c : Request) (w : W) :
  let answer (r : list SettingItem * option error) :=
    match snd r with
    | Some e => ErrorResp e 400
    | None => SuccessResp (ItemsData (fst r))
    end in
  let steps := stepsOf (traceOf handle (ListSettings c) w) in
  if String.eqb (Query c "groups") "" && String.eqb (Query c "group") "" then
    exists r, steps = [SGetItems r; SRespond (answer r)]
  else
    match parseGroups (groupStringsOf (Query c "group") (Query c "groups")) with
    | Ok groups => exists r, steps = [SGetInGroups groups r; SRespond (answer r)]
    | Err e => steps = [SRespond (ErrorResp e 400)]
    end.
Proof.
  unfold traceOf, ListSettings.
  crunch handle; try reflexivity;
    match goal with
    | H : handle _ _ _ = (?r, _) |- _ => exists r; reflexivity
    end.
Qed.

(** X24. Across the nine handlers: every run ends after exactly one
    response, except a run of [GetWebDAV] that panics before it answers;
    the handlers that only read ([GetSetting], [ListSettings],
    [DefaultSettings], [PublicSettings], [GetWebDAV]) write neither the
    store nor the configuration; and a failed write to the store is
    answered with 500 and the error of the store, without a change of the
    configuration and without [sign.Instance] or [static.UpdateIndex]. *)
Theorem settings_handlers_discipline (h : Handler) (c : Request) (w : W) :
  let steps := stepsOf (traceOf handle (handlerOf h c) w) in
  ((outcomeOf handle (handlerOf h c) w = Done tt /\
    List.length (responsesOf steps) = 1%nat)
   \/ (h = HGetWebDAV /\ responsesOf steps = [] /\
       exists msg : string, outcomeOf handle (handlerOf h c) w = Panicked msg)) /\
  (In h [HGetSetting; HListSettings; HDefaultSettings; HPublicSettings; HGetWebDAV] ->
   existsb isStoreWrite steps = false /\ existsb isConfigWrite steps = false) /\
  (forall e : error,
      In (Some e) (map writeErrorOf steps) ->
      responsesOf steps = [ErrorResp e 500] /\
      existsb isConfigWrite steps = false /\
      existsb isRefresh steps = false).
Proof.
  destruct h; simpl handlerOf;
    unfold outcomeOf, traceOf, ResetToken, GetSetting, SaveSettings, ListSettings,
      DefaultSettings, DeleteSetting, PublicSettings, SetWebDAV, GetWebDAV, valueOf;
    crunch handle;
    (split;
     [first [ left; split; reflexivity
            | right; split; [reflexivity |]; split; [reflexivity |];
              eexists; reflexivity ] |]);
    (split;
     [intros Hin; simpl in Hin;
      first [ split; reflexivity
            | repeat (destruct Hin as [Hin | Hin]; [discriminate Hin |]);
              contradiction ] |]);
    intros err Hin; simpl in Hin;
    repeat (destruct Hin as [Hin | Hin];
            [first [ discriminate Hin
                   | injection Hin as <-; repeat split; reflexivity ] |]);
    contradiction.
Qed.

(** X25. [GetSetting] looks one item up when [key] is given, ignoring
    [keys]; otherwise it asks the store for [strings.Split(keys, ",")]: the
    pieces of [keys] between its commas, that is the one list that is not
    empty, has no comma in any piece and, joined by commas, gives [keys]
    back. A failure of the store is answered with 400. *)
Theorem GetSetting_steps (c : Request) (w : W) :
  let steps := stepsOf (traceOf handle (GetSetting c) w) in
  if String.eqb (Query c "key") "" then
    exists (keys : list string) (r : list SettingItem * option error),
      steps = [SGetInKeys keys r;
               SRespond (match snd r with
                         | Some e => ErrorResp e 400
                         | None => SuccessResp (ItemsData (fst r))
                         end)] /\
      keys <> [] /\
      forallb commaFree keys = true /\
      String.concat "," keys = Query c "keys" /\
      (forall l : list string,
          l <> [] -> forallb commaFree l = true ->
          String.concat "," l = Query c "keys" -> l = keys)
  else
    exists r : option SettingItem * option error,
      steps = [SGetByKey (Query c "key") r;
               SRespond (match snd r with
                         | Some e => ErrorResp e 400
                         | None => SuccessResp (ItemData (fst r))
                         end)].
Proof.
  unfold traceOf, GetSetting.
  crunch handle;
    match goal with
    | H : handle _ _ _ = (?r, _) |- _ =>
        first [ exists r; reflexivity
              | eexists; exists r; split; [reflexivity |];
                split; [apply splitComma_not_nil |];
                split; [apply splitComma_commaFree |];
                split; [apply splitComma_concat |];
                intros ks Hn Hf Hc; rewrite <- Hc; symmetry;
                apply splitComma_unique; assumption ]
    end.
Qed.

(** X26. [SaveSettings] touches the store only with a request it could
    bind, answers 400 for a request it could not and 500 for a failed save,
    and calls [static.UpdateIndex] only after a successful save, after the
    response. *)
Theorem SaveSettings_steps (c : Request) (w : W) :
  let steps := stepsOf (traceOf handle (SaveSettings c) w) in
  (exists e : error, steps = [SBindItems (Err e); SRespond (ErrorResp e 400)])
  \/ (exists (req : list SettingItem) (e : error),
         steps = [SBindItems (Ok req); SSaveItems req (Some e); SRespond (ErrorResp e 500)])
  \/ (exists req : list SettingItem,
         steps = [SBindItems (Ok req); SSaveItems req None;
                  SRespond (SuccessResp NoData); SUpdateIndex]).
Proof.
  unfold traceOf, SaveSettings.
  crunch handle;
    first [ left; eexists; reflexivity
          | right; left; do 2 eexists; reflexivity
          | right; right; eexists; reflexivity ].
Qed.

(** X27. [ResetToken] saves the fresh token as the private item [token] of
    the single group and answers that same token; [sign.Instance] runs only
    after the save succeeded, and a failed save is answered with 500. *)
Theorem ResetToken_steps (c : Request) (w : W) :
  let steps := stepsOf (traceOf handle (ResetToken c) w) in
  exists token : string,
    let item := {| Key := "token"; Value := token; Type_ := TypeString;
                   Group := SINGLE; Flag := PRIVATE; Index := 0 |} in
    (exists e : error,
        steps = [SToken token; SSaveItem item (Some e); SRespond (ErrorResp e 500)])
    \/ steps = [SToken token; SSaveItem item None; SSign;
                SRespond (SuccessResp (TokenData token))].
Proof.
  unfold traceOf, ResetToken.
  crunch handle; eexists;
    first [ left; eexists; reflexivity | right; reflexivity ].
Qed.

(** X28. [SetWebDAV] changes the configuration in memory and writes the
    configuration file only after the two items were saved; a failed save is
    answered with 500 and changes nothing. After a successful save the
    configuration takes the two values and the answer is success, also when
    the file could not be written, which is logged. *)
Theorem SetWebDAV_steps (c : Request) (w : W) :
  let steps := stepsOf (traceOf handle (SetWebDAV c) w) in
  (exists e : error, steps = [SBindWebDAV (Err e); SRespond (ErrorResp e 400)])
  \/ exists (Enable : bool) (Listen : string),
      let items := [webdavEnabledItemOf Enable; webdavListenItemOf Listen] in
      (exists e : error,
          steps = [SBindWebDAV (Ok (Enable, Listen)); SSaveItems items (Some e);
                   SRespond (ErrorResp e 500)])
      \/ exists ok : bool,
          steps = ([SBindWebDAV (Ok (Enable, Listen)); SSaveItems items None;
                    SSetEnable Enable; SSetListen Listen;
                    SWriteJson (filepath_Join DataDir "config.json") ok]
                     ++ (if ok then [] else [SLog LogSaveConfigFailed])
                     ++ [SRespond (SuccessResp NoData)])%list.
Proof.
  unfold traceOf, SetWebDAV.
  crunch handle;
    first [ left; eexists; reflexivity
          | right; do 2 eexists; left; eexists; reflexivity
          | right; do 2 eexists; right;
            match goal with
            | H : negb ?b = _ |- _ =>
                exists b; destruct b; try discriminate H; reflexivity
            end ].
Qed.

(** X29. [GetWebDAV] reads back what [SetWebDAV] saved: when the store
    returns the two items [SetWebDAV] saves for [Enable] and [Listen], the
    answer is success with exactly [Enable] and [Listen], and the
    configuration in memory is not read. *)
Theorem GetWebDAV_reads_back_SetWebDAV
        (c : Request) (w w1 w2 : W) (Enable : bool) (Listen : string) :
  handle _ (op_GetSettingItemByKey "webdav_enabled") w
  = ((Some (webdavEnabledItemOf Enable), None), w1) ->
  handle _ (op_GetSettingItemByKey "webdav_listen") w1
  = ((Some (webdavListenItemOf Listen), None), w2) ->
  stepsOf (traceOf handle (GetWebDAV c) w)
  = [SGetByKey "webdav_enabled" (Some (webdavEnabledItemOf Enable), None);
     SGetByKey "webdav_listen" (Some (webdavListenItemOf Listen), None);
     SRespond (SuccessResp (WebDAVData Enable Listen))].
Proof.
  intros H1 H2. unfold traceOf, GetWebDAV. simpl. rewrite H1. simpl. rewrite H2.
  crunch handle. destruct Enable; reflexivity.
Qed.

(** X30. [GetWebDAV] never answers an error. An item the store returns is
    used, and WebDAV is reported enabled only for the stored value [true];
    an item the store refuses is replaced by the value of the configuration
    in memory, each of the two on its own, and the configuration is read
    for nothing else. The only run without an answer panics, on an item
    that is neither returned nor refused. *)
Theorem GetWebDAV_falls_back (c : Request) (w : W) :
  let steps := stepsOf (traceOf handle (GetWebDAV c) w) in
  (exists i1 i2 : SettingItem,
      steps = [SGetByKey "webdav_enabled" (Some i1, None);
               SGetByKey "webdav_listen" (Some i2, None);
               SRespond (SuccessResp
                           (WebDAVData (String.eqb (Value i1) "true") (Value i2)))])
  \/ (exists (o1 : option SettingItem) (e1 : error) (b : bool) (i2 : SettingItem),
         steps = [SGetByKey "webdav_enabled" (o1, Some e1); SConfEnable b;
                  SGetByKey "webdav_listen" (Some i2, None);
                  SRespond (SuccessResp (WebDAVData b (Value i2)))])
  \/ (exists (i1 : SettingItem) (o2 : option SettingItem) (e2 : error) (l : string),
         steps = [SGetByKey "webdav_enabled" (Some i1, None);
                  SGetByKey "webdav_listen" (o2, Some e2); SConfListen l;
                  SRespond (SuccessResp (WebDAVData (String.eqb (Value i1) "true") l))])
  \/ (exists (o1 : option SettingItem) (e1 : error) (b : bool)
             (o2 : option SettingItem) (e2 : error) (l : string),
         steps = [SGetByKey "webdav_enabled" (o1, Some e1); SConfEnable b;
                  SGetByKey "webdav_listen" (o2, Some e2); SConfListen l;
                  SRespond (SuccessResp (WebDAVData b l))])
  \/ (exists msg : string,
         outcomeOf handle (GetWebDAV c) w = Panicked msg /\
         responsesOf steps = [] /\
         (In (SGetByKey "webdav_enabled" (None, None)) steps
          \/ In (SGetByKey "webdav_listen" (None, None)) steps)).
Proof.
  unfold outcomeOf, traceOf, GetWebDAV, valueOf.
  crunch handle;
    repeat match goal with b : bool |- _ => destruct b end;
    first [ left; do 2 eexists; reflexivity
          | right; left; do 4 eexists; reflexivity
          | right; right; left; do 4 eexists; reflexivity
          | right; right; right; left; do 6 eexists; reflexivity
          | right; right; right; right; eexists;
            split; [reflexivity | split; [reflexivity | simpl; tauto]] ].
Qed.

End SettingsFacts.

(** ** The derived thumbnail path *)

Section PathFacts.

Import PathShape.

Lemma substring_all (s : string) : String.substring 0 (String.length s) s = s.
Proof.
  induction s as [| c s IH]; simpl; [reflexivity |]. rewrite IH. reflexivity.
Qed.

Lemma substring_head (a b : string) :
  String.substring 0 (String.length a) (a ++ b) = a.
Proof.
  induction a as [| c a IH]; simpl.
  - destruct b; reflexivity.
  - rewrite IH. reflexivity.
Qed.

Lemma substring_tail (a b : string) :
  String.substring (String.length a) (String.length b) (a ++ b) = b.
Proof.
  induction a as [| c a IH]; simpl; [apply substring_all | exact IH].
Qed.

Lemma length_app (a b : string) :
  String.length (a ++ b) = (String.length a + String.length b)%nat.
Proof.
  induction a as [| c a IH]; simpl; [reflexivity |]. rewrite IH. reflexivity.
Qed.

Lemma append_assoc (a b c : string) : (a ++ b) ++ c = a ++ b ++ c.
Proof.
  induction a as [| x a IH]; [reflexivity |].
  exact (f_equal (String x) IH).
Qed.

Lemma chars_app (a b : string) :
  GoStrings.chars (a ++ b) = (GoStrings.chars a ++ GoStrings.chars b)%list.
Proof.
  unfold GoStrings.chars.
  induction a as [| c a IH]; simpl; [reflexivity |]. rewrite IH. reflexivity.
Qed.

Lemma chars_length (a : string) :
  List.length (GoStrings.chars a) = String.length a.
Proof.
  unfold GoStrings.chars.
  induction a as [| c a IH]; simpl; [reflexivity |]. rewrite IH. reflexivity.
Qed.

Lemma lastSlashFrom_app (l1 l2 : list ascii) (i found : Z) :
  GoStrings.lastSlashFrom (l1 ++ l2) i found
  = GoStrings.lastSlashFrom l2 (i + Z.of_nat (List.length l1))
      (GoStrings.lastSlashFrom l1 i found).
Proof.
  revert i found. induction l1 as [| c l1 IH]; intros i found; simpl.
  - rewrite Z.add_0_r. reflexivity.
  - rewrite IH. f_equal. lia.
Qed.

Lemma lastSlashFrom_noSlash (s : string) (i found : Z) :
  noSlash s = true ->
  GoStrings.lastSlashFrom (GoStrings.chars s) i found = found.
Proof.
  revert i found. induction s as [| c s IH]; intros i found H; simpl in *.
  - reflexivity.
  - apply andb_prop in H. destruct H as [Hc Hs].
    apply Bool.negb_true_iff in Hc. rewrite Hc. apply IH. exact Hs.
Qed.

Lemma noDotSlash_noSlash (s : string) : noDotSlash s = true -> noSlash s = true.
Proof.
  induction s as [| c s IH]; simpl; [reflexivity |].
  intros H. apply andb_prop in H. destruct H as [H1 H2].
  apply andb_prop in H1. destruct H1 as [H1 _].
  rewrite H1, (IH H2). reflexivity.
Qed.

Lemma noSlash_app (a b : string) :
  noSlash a = true -> noSlash b = true -> noSlash (a ++ b) = true.
Proof.
  induction a as [| c a IH]; simpl; intros Ha Hb; [exact Hb |].
  apply andb_prop in Ha. destruct Ha as [Hc Ha].
  rewrite Hc, (IH Ha Hb). reflexivity.
Qed.

Lemma simpleExt_noSlash (e : string) : simpleExt e = true -> noSlash e = true.
Proof.
  destruct e as [| c r]; simpl; [discriminate |].
  intros H. apply andb_prop in H. destruct H as [Hc Hr].
  apply Ascii.eqb_eq in Hc. subst c. rewrite (noDotSlash_noSlash r Hr). reflexivity.
Qed.

(** [path.Split] of a directory, a slash and a name without slash. *)
Lemma Split_dir_name (d name : string) :
  noSlash name = true ->
  GoStrings.Split (d ++ "/" ++ name) = (d ++ "/", name).
Proof.
  intros Hn. unfold GoStrings.Split, GoStrings.LastIndexSlash.
  assert (Hi : GoStrings.lastSlashFrom (GoStrings.chars (d ++ "/" ++ name)) 0 (-1)
               = Z.of_nat (String.length d)).
  { rewrite chars_app, lastSlashFrom_app, chars_app, lastSlashFrom_app.
    rewrite (lastSlashFrom_noSlash name _ _ Hn). simpl.
    rewrite chars_length. lia. }
  rewrite Hi. rewrite <- append_assoc.
  replace (Z.to_nat (Z.of_nat (String.length d) + 1)) with (String.length (d ++ "/"))
    by (rewrite length_app; simpl; lia).
  rewrite substring_head.
  replace (String.length ((d ++ "/") ++ name) - String.length (d ++ "/"))%nat
    with (String.length name) by (rewrite !length_app; simpl; lia).
  rewrite substring_tail. reflexivity.
Qed.

Lemma extScan_simple (l X acc : list ascii) :
  Forall (fun c => Ascii.eqb c GoStrings.slash = false /\ Ascii.eqb c GoStrings.dot = false) l ->
  GoStrings.extScan (l ++ GoStrings.dot :: X) acc = (GoStrings.dot :: rev l ++ acc)%list.
Proof.
  revert acc. induction l as [| c l IH]; intros acc H; simpl.
  - reflexivity.
  - inversion H as [| c' l' [Hs Hd] Hl]; subst. rewrite Hs, Hd.
    rewrite (IH (c :: acc) Hl). rewrite <- app_assoc. reflexivity.
Qed.

Lemma noDotSlash_Forall (s : string) :
  noDotSlash s = true ->
  Forall (fun c => Ascii.eqb c GoStrings.slash = false /\ Ascii.eqb c GoStrings.dot = false)
         (GoStrings.chars s).
Proof.
  induction s as [| c s IH]; simpl; intros H; [constructor |].
  apply andb_prop in H. destruct H as [H1 H2].
  apply andb_prop in H1. destruct H1 as [Hs Hd].
  apply Bool.negb_true_iff in Hs. apply Bool.negb_true_iff in Hd.
  constructor; [split; assumption | apply IH; exact H2].
Qed.

(** [path.Ext] of a name that ends in a simple extension. *)
Lemma Ext_simple (base ext : string) :
  simpleExt ext = true -> GoStrings.Ext (base ++ ext) = ext.
Proof.
  destruct ext as [| c r]; simpl; [discriminate |].
  intros H. apply andb_prop in H. destruct H as [Hc Hr].
  apply Ascii.eqb_eq in Hc. subst c.
  unfold GoStrings.Ext. rewrite chars_app. change (GoStrings.chars (String GoStrings.dot r))
    with (GoStrings.dot :: GoStrings.chars r).
  rewrite rev_app_distr. simpl. rewrite <- app_assoc. simpl.
  rewrite extScan_simple.
  - rewrite rev_involutive, app_nil_r. unfold GoStrings.str, GoStrings.chars. simpl.
    rewrite string_of_list_ascii_of_string. reflexivity.
  - apply Forall_rev. apply noDotSlash_Forall. exact Hr.
Qed.

(** [strings.TrimSuffix] takes a suffix off. *)
Lemma TrimSuffix_app (base suf : string) :
  GoStrings.TrimSuffix (base ++ suf) suf = base.
Proof.
  unfold GoStrings.TrimSuffix, GoStrings.HasSuffix.
  rewrite length_app.
  replace (String.length base + String.length suf - String.length suf)%nat
    with (String.length base) by lia.
  rewrite substring_tail, String.eqb_refl.
  replace (String.length suf <=? String.length base + String.length suf)%nat with true
    by (symmetry; apply Nat.leb_le; lia).
  simpl. apply substring_head.
Qed.

(** Name, directory and path of the thumbnail of [d/base.ext]. *)
Lemma thumbnail_path_shape (d base ext : string) :
  noSlash base = true ->
  simpleExt ext = true ->
  targetThumbNameOf (d ++ "/" ++ base ++ ext) = base ++ ".webp" /\
  targetThumbDirOf (d ++ "/" ++ base ++ ext) = GoStrings.Join (d ++ "/") ".thumbnails" /\
  targetThumbPathOf (d ++ "/" ++ base ++ ext)
  = GoStrings.Join (GoStrings.Join (d ++ "/") ".thumbnails") (base ++ ".webp").
Proof.
  intros Hb He.
  assert (Hs : GoStrings.Split (d ++ "/" ++ base ++ ext) = (d ++ "/", base ++ ext)).
  { apply Split_dir_name. apply noSlash_app; [exact Hb | apply simpleExt_noSlash; exact He]. }
  unfold targetThumbPathOf, targetThumbNameOf, targetThumbDirOf. rewrite Hs.
  rewrite (Ext_simple base ext He), TrimSuffix_app. repeat split; reflexivity.
Qed.

(** X18. For a source [d/base.ext], with no slash in [base] and an
    extension of a dot followed by neither dot nor slash, the thumbnail's
    name is [base.webp] and its directory is [.thumbnails] joined to [d/]:
    the extension is dropped, whatever it is, and dots inside [base] stay. *)
Theorem thumbnail_of_plain_path (d base ext : string) :
  noSlash base = true ->
  simpleExt ext = true ->
  targetThumbNameOf (d ++ "/" ++ base ++ ext) = base ++ ".webp" /\
  targetThumbDirOf (d ++ "/" ++ base ++ ext) = GoStrings.Join (d ++ "/") ".thumbnails" /\
  targetThumbPathOf (d ++ "/" ++ base ++ ext)
  = GoStrings.Join (GoStrings.Join (d ++ "/") ".thumbnails") (base ++ ".webp").
Proof. exact (thumbnail_path_shape d base ext). Qed.

(** X19. Two sources in one directory that differ only in their extension
    have the same thumbnail path: the thumbnail of one stands for the
    other. *)
Theorem thumbnails_collide_across_extensions (d base ext1 ext2 : string) :
  noSlash base = true ->
  simpleExt ext1 = true ->
  simpleExt ext2 = true ->
  targetThumbPathOf (d ++ "/" ++ base ++ ext1) = targetThumbPathOf (d ++ "/" ++ base ++ ext2).
Proof.
  intros Hb H1 H2.
  destruct (thumbnail_path_shape d base ext1 Hb H1) as (_ & _ & ->).
  destruct (thumbnail_path_shape d base ext2 Hb H2) as (_ & _ & ->).
  reflexivity.
Qed.

End PathFacts.

(** ** The further facts on concrete inputs *)

(** The refused upload over the stored movie: 403, and no write attempted. *)
Lemma upload_error_codes_witness :
  let tr := traceOf Sim.handle (uploadHandler false Sim.reqNoOverwrite) Sim.world0 in
  (In 403 [400; 403; 405] /\ putAttemptsOf tr = [])
  \/ (403 = 500 /\ okWritesOf tr = [] /\
      (List.length (putAttemptsOf tr) = 1%nat
       \/ In (FormParsed false) (formOpsOf tr)
       \/ In (FormOpened false) (formOpsOf tr))).
Proof.
  apply (upload_error_codes Sim.World Sim.handle false Sim.reqNoOverwrite Sim.world0
           (ErrorStrResp "file exists" 403) 403).
  - left. reflexivity.
  - reflexivity.
Defined.

(** A failed [ffprobe]: the frame extraction returns a fresh error and runs
    no [ffmpeg]. *)
Lemma probe_failure_drops_error_chain_witness :
  exists e' : error,
    outcomeOf Sim.handle
      (extractVideoFrameAtPercentage Background Sim.movie Sim.staged 3.0%float)
      SimMore.worldProbeFails
    = Done (Some e') /\
    Error e' = "获取视频时长失败: exit status 1" /\
    IsNotExist e' = false /\
    List.length (execsOf (traceOf Sim.handle
                            (extractVideoFrameAtPercentage Background Sim.movie Sim.staged
                               3.0%float) SimMore.worldProbeFails)) = 1%nat.
Proof.
  exact (probe_failure_drops_error_chain Sim.World Sim.handle Background Sim.movie
           Sim.staged 3.0%float SimMore.worldProbeFails
           (ExitError "exit status 1" "Invalid data found when processing input")
           eq_refl).
Defined.

(** The movie, and a name with a dot inside. *)
Lemma thumbnail_of_plain_path_witness :
  targetThumbNameOf "/videos/movie.v2.mp4" = "movie.v2.webp" /\
  targetThumbDirOf "/videos/movie.v2.mp4" = "/videos/.thumbnails" /\
  targetThumbPathOf "/videos/movie.v2.mp4" = "/videos/.thumbnails/movie.v2.webp".
Proof.
  exact (thumbnail_of_plain_path "/videos" "movie.v2" ".mp4" eq_refl eq_refl).
Defined.

(** [movie.mp4] and [movie.mkv] share one thumbnail. *)
Lemma thumbnails_collide_across_extensions_witness :
  targetThumbPathOf "/videos/movie.mp4" = targetThumbPathOf "/videos/movie.mkv".
Proof.
  exact (thumbnails_collide_across_extensions "/videos" "movie" ".mp4" ".mkv"
           eq_refl eq_refl eq_refl).
Defined.

Section SettingsExamples.

Import Settings SettingsTrace.

(** The four initial settings, all of them. *)
Lemma DefaultSettings_all_indexed_witness :
  exists items : list SettingItem,
    responsesOf (stepsOf (traceOf SimSettings.handle
                            (DefaultSettings (SimSettings.request [])) SimSettings.world0))
    = [SuccessResp (ItemsData items)] /\
    List.length items = 4%nat /\
    forall (i : nat) (item : SettingItem),
      nth_error (SimSettings.initial SimSettings.world0) i = Some item ->
      nth_error items i = Some (setIndex item (N.of_nat i)).
Proof.
  exact (DefaultSettings_all_indexed SimSettings.World SimSettings.handle
           (SimSettings.request []) SimSettings.world0
           (SimSettings.initial SimSettings.world0) eq_refl eq_refl eq_refl).
Defined.

(** Groups 3 and 1 of the four initial settings: three items. *)
Lemma DefaultSettings_filtered_witness :
  exists items : list SettingItem,
    responsesOf (stepsOf (traceOf SimSettings.handle
                            (DefaultSettings (SimSettings.request [("groups", "3,1")]))
                            SimSettings.world0))
    = [SuccessResp (ItemsData items)] /\
    StronglySorted Z.le (map Group items) /\
    List.length items = 3%nat.
Proof.
  pose proof (DefaultSettings_filtered SimSettings.World SimSettings.handle
                (SimSettings.request [("groups", "3,1")]) SimSettings.world0
                (SimSettings.initial SimSettings.world0) [3; 1]) as H.
  destruct H as (items & Hr & _ & Hs & Hl).
  - left. discriminate.
  - reflexivity.
  - vm_compute. reflexivity.
  - exists items. split; [exact Hr | split; [exact Hs | exact Hl]].
Defined.

(** [groups=3,1] and [groups=1,3] are answered alike. *)
Lemma DefaultSettings_order_irrelevant_witness :
  responsesOf (stepsOf (traceOf SimSettings.handle
                          (DefaultSettings (SimSettings.request [("groups", "3,1")]))
                          SimSettings.world0))
  = responsesOf (stepsOf (traceOf SimSettings.handle
                            (DefaultSettings (SimSettings.request [("groups", "1,3")]))
                            SimSettings.world0)).
Proof.
  apply (DefaultSettings_order_irrelevant SimSettings.World SimSettings.handle
           (SimSettings.request [("groups", "3,1")])
           (SimSettings.request [("groups", "1,3")])
           SimSettings.world0 SimSettings.world0 [3; 1] [1; 3]).
  - left. discriminate.
  - left. discriminate.
  - reflexivity.
  - vm_compute. reflexivity.
  - vm_compute. reflexivity.
  - apply perm_swap.
Defined.

(** [groups=1,x,2]: the error of [x], and the store is not asked. *)
Lemma group_parse_failure_witness :
  stepsOf (traceOf SimSettings.handle
             (ListSettings (SimSettings.request [("groups", "1,x,2")])) SimSettings.world0)
  = [SRespond (ErrorResp (LibError false "strconv.Atoi: invalid syntax") 400)].
Proof.
  pose proof (group_parse_failure SimSettings.World SimSettings.handle
                (SimSettings.request [("groups", "1,x,2")]) SimSettings.world0
                (LibError false "strconv.Atoi: invalid syntax")) as H.
  apply H.
  - left. discriminate.
  - vm_compute. reflexivity.
Defined.

(** [ResetToken] on a store that refuses the write: 500 with the store's
    error. *)
Lemma settings_handlers_discipline_witness :
  responsesOf (stepsOf (traceOf SimSettings.handle
                          (handlerOf HResetToken (SimSettings.request []))
                          SimMore.worldStoreFails))
  = [ErrorResp (LibError false "database is locked") 500].
Proof.
  apply (proj2 (proj2 (settings_handlers_discipline SimSettings.World SimSettings.handle
                         HResetToken (SimSettings.request []) SimMore.worldStoreFails))
           (LibError false "database is locked")).
  right. left. reflexivity.
Defined.

(** [GetWebDAV] on the store that [SetWebDAV] left. *)
Lemma GetWebDAV_reads_back_SetWebDAV_witness :
  responsesOf (stepsOf (traceOf SimSettings.handle (GetWebDAV (SimSettings.request []))
                          SimMore.webdavSaved))
  = [SuccessResp (WebDAVData true ":5288")].
Proof.
  exact (f_equal responsesOf
           (GetWebDAV_reads_back_SetWebDAV SimSettings.World SimSettings.handle
              (SimSettings.request []) SimMore.webdavSaved SimMore.webdavSaved
              SimMore.webdavSaved true ":5288" eq_refl eq_refl)).
Defined.

End SettingsExamples.
